(** * EduGator tutoring: session lifecycle and enrollment coordination

    A shallow embedding of the handlers of
    [backend/src/controllers/sessionController.js] and of the session-request
    handlers of [backend/src/controllers/messageController.js], over an
    explicit model of the relational store they talk to.

    - A table is a list of rows, in insertion order.  [SELECT] is a filter,
      [UPDATE] a map, [DELETE] a filter on the complement, [INSERT] appends.
    - Every handler runs in a small state-and-exception monad: each
      [pool.query] is one step, it may throw (the handler's [catch] then
      answers 500), and every write statement that was executed is recorded
      in a trace.  The handler's own code throws as well, where it calls a
      text method on a value of the body that is not text.  There is no
      transaction in the source, so what a statement wrote stays written
      when something throws later.
    - The numbers of a body are integers; [parseInt] reads them through the
      text that the engine prints of them.
    - Text is a byte string holding UTF-8; [js_length] and [trim] compute what
      JavaScript's [length] and [trim] give on the text it encodes. *)

From Stdlib Require Import ZArith List String Ascii Bool Arith Lia DecimalString.
Import ListNotations.

Local Open Scope string_scope.
Local Open Scope Z_scope.

(** ** JavaScript text and numbers *)

Module JS.

Definition chr (n : nat) : string := String (ascii_of_nat n) EmptyString.

(** The line feed written [\n] in the source's template literals. *)
Definition nl : string := chr 10.

(** The double quote that the templates put around titles and free text. *)
Definition dquote : string := chr 34.

Fixpoint bytes (l : list nat) : string :=
  match l with
  | nil => EmptyString
  | n :: r => String (ascii_of_nat n) (bytes r)
  end.

Fixpoint rev_string (acc s : string) : string :=
  match s with
  | EmptyString => acc
  | String c r => rev_string (String c acc) r
  end.

(** White space and line terminators of ECMAScript, as UTF-8 byte sequences:
    TAB, LF, VT, FF, CR, SP, NBSP, U+1680, U+2000..U+200A, U+2028, U+2029,
    U+202F, U+205F, U+3000 and U+FEFF. *)
Definition white_space : list (list nat) :=
  [ [9%nat]; [10%nat]; [11%nat]; [12%nat]; [13%nat]; [32%nat];
    [194; 160]; [225; 154; 128];
    [226; 128; 128]; [226; 128; 129]; [226; 128; 130]; [226; 128; 131];
    [226; 128; 132]; [226; 128; 133]; [226; 128; 134]; [226; 128; 135];
    [226; 128; 136]; [226; 128; 137]; [226; 128; 138];
    [226; 128; 168]; [226; 128; 169]; [226; 128; 175];
    [226; 129; 159]; [227; 128; 128]; [239; 187; 191] ]%nat.

(** [strip tok s] is what follows [tok] in [s] when [s] starts with [tok]. *)
Fixpoint strip (tok s : string) : option string :=
  match tok with
  | EmptyString => Some s
  | String a tok' =>
      match s with
      | EmptyString => None
      | String b s' => if Ascii.eqb a b then strip tok' s' else None
      end
  end.

Fixpoint strip_any (toks : list string) (s : string) : option string :=
  match toks with
  | nil => None
  | t :: ts =>
      match strip t s with
      | Some r => Some r
      | None => strip_any ts s
      end
  end.

Fixpoint drop_while (toks : list string) (fuel : nat) (s : string) : string :=
  match fuel with
  | O => s
  | S fuel' =>
      match strip_any toks s with
      | Some r => drop_while toks fuel' r
      | None => s
      end
  end.

Definition trimStart (s : string) : string :=
  drop_while (map bytes white_space) (String.length s) s.

Definition trimEnd (s : string) : string :=
  let r := rev_string EmptyString s in
  rev_string EmptyString
    (drop_while (map (fun t => bytes (rev t)) white_space) (String.length r) r).

(** [String.prototype.trim]. *)
Definition trim (s : string) : string := trimEnd (trimStart s).

(** UTF-16 code units contributed by one UTF-8 byte: continuation bytes
    count for nothing, the lead byte of a four-byte sequence for two. *)
Definition code_units (c : ascii) : nat :=
  let n := nat_of_ascii c in
  if (n <? 128)%nat then 1%nat
  else if (n <? 192)%nat then 0%nat
  else if (n <? 240)%nat then 1%nat
  else 2%nat.

(** The [length] property of a string. *)
Fixpoint js_length (s : string) : nat :=
  match s with
  | EmptyString => 0%nat
  | String c r => (code_units c + js_length r)%nat
  end.

(** Truthiness of a string: every string but the empty one. *)
Definition truthy (s : string) : bool :=
  match s with
  | EmptyString => false
  | String _ _ => true
  end.

(** Truthiness of an optional field holding a string. *)
Definition truthy_opt (o : option string) : bool :=
  match o with
  | Some s => truthy s
  | None => false
  end.

(** Truthiness of an optional field holding a number. *)
Definition truthy_num (o : option Z) : bool :=
  match o with
  | Some n => negb (n =? 0)
  | None => false
  end.

(** [a || b] on strings. *)
Definition or_else (o : option string) (d : string) : string :=
  match o with
  | Some s => if truthy s then s else d
  | None => d
  end.

Definition digit_of (c : ascii) : option Z :=
  let n := nat_of_ascii c in
  if ((48 <=? n) && (n <=? 57))%nat then Some (Z.of_nat n - 48) else None.

(** The longest prefix of decimal digits, read as a number; [acc] is [None]
    until a digit was seen. *)
Fixpoint digits (s : string) (acc : option Z) : option Z :=
  match s with
  | EmptyString => acc
  | String c r =>
      match digit_of c with
      | Some d =>
          digits r (Some (10 * match acc with Some a => a | None => 0 end + d))
      | None => acc
      end
  end.

(** [parseInt(s, 10)]; [None] stands for NaN. *)
Definition parseInt (s : string) : option Z :=
  match trimStart s with
  | String "-" r => option_map Z.opp (digits r None)
  | String "+" r => digits r None
  | t => digits t None
  end.

(** A number interpolated in a template literal. *)
Definition of_num (n : Z) : string := NilZero.string_of_int (Z.to_int n).

(** *** Numbers of the body

    A number of the JSON body is written as an integer; the engine holds
    the double nearest to it, and [parseInt] of a number reads the text
    that [String] prints of that double. *)

(** The double nearest to the integer [a >= 0], ties to the even
    significand; up to [2^53] every integer is one. *)
Definition to_double (a : Z) : Z :=
  if a <=? 2 ^ 53 then a
  else
    let e := Z.log2 a - 52 in
    let q := Z.shiftr a e in
    let r := a - Z.shiftl q e in
    let half := Z.shiftl 1 (e - 1) in
    Z.shiftl (if (half <? r) || ((r =? half) && Z.odd q) then q + 1 else q) e.

(** The count of decimal digits. *)
Definition width (x : Z) : Z := Z.of_nat (String.length (of_num x)).

(** Of the decimals with [k] significant digits or fewer that read back as
    the double [x], the nearest to [x]; of two as near, the even one. *)
Definition decimal_of (x k : Z) : option Z :=
  let p := 10 ^ (width x - k) in
  let lo := (x / p) * p in
  let hi := lo + p in
  match to_double lo =? x, to_double hi =? x with
  | true, true =>
      if x - lo <? hi - x then Some lo
      else if hi - x <? x - lo then Some hi
      else if Z.even (lo / p) then Some lo else Some hi
  | true, false => Some lo
  | false, true => Some hi
  | false, false => None
  end.

(** The digits that [String] prints of the double [x]: the shortest
    decimal that reads back as [x]. *)
Fixpoint shortest (x k : Z) (fuel : nat) : Z :=
  match fuel with
  | O => x
  | S fuel =>
      match decimal_of x k with
      | Some v => v
      | None => shortest x (k + 1) fuel
      end
  end.

(** [parseInt] of a number [a >= 0].  Up to [2^53] the text is the numeral
    of [a].  Beyond, it is the shortest decimal of the double, in full
    below [10^21] and in exponent notation from there on, of which
    [parseInt] reads the one digit before the point or the [e]; and
    [Infinity], from [2^1024] on, reads as NaN. *)
Definition parseInt_magnitude (a : Z) : option Z :=
  if a <=? 2 ^ 53 then Some a
  else
    let x := to_double a in
    if 2 ^ 1024 <=? x then None
    else
      let v := shortest x 1 17 in
      if v <? 10 ^ 21 then Some v else Some (v / 10 ^ (width v - 1)).

(** [parseInt(n)] for a number [n]; [None] stands for NaN. *)
Definition parseInt_number (n : Z) : option Z :=
  if n <? 0 then option_map Z.opp (parseInt_magnitude (- n))
  else parseInt_magnitude n.

(** *** Text of the body

    A value of the JSON body in a place where the handler expects text, as
    far as the handler tells values apart: a string, or something else
    (nothing at all, null, a boolean, a number, an array, an object), of
    which it only tests the truthiness. *)
Inductive value : Type :=
| Str (s : string)
| Other (truthy : bool).

(** A field that the body does not have. *)
Definition absent : value := Other false.

(** [String.prototype.replace] with a one-character pattern: the first
    occurrence only. *)
Fixpoint replace (a b : ascii) (s : string) : string :=
  match s with
  | EmptyString => EmptyString
  | String c r => if Ascii.eqb c a then String b r else String c (replace a b r)
  end.

(** [Array.prototype.includes] on strings. *)
Definition includes (l : list string) (s : string) : bool :=
  existsb (String.eqb s) l.

End JS.

(** What the handlers take from the platform: [Date] parsing (the time
    value in milliseconds, [None] for an invalid date) and the two
    [en-US] formatters applied to a session's start time. *)
Record host : Type := Host {
  date_time : string -> option Z;
  toLocaleDateString : string -> string;
  toLocaleTimeString : string -> string
}.

(** ** The relational store *)

(** [session_join_requests.status]. *)
Inductive request_status : Type := pending | accepted | denied.

Definition status_eqb (a b : request_status) : bool :=
  match a, b with
  | pending, pending | accepted, accepted | denied, denied => true
  | _, _ => false
  end.

(** The status as the text that the store returns for it. *)
Definition status_text (s : request_status) : string :=
  match s with
  | pending => "pending"
  | accepted => "accepted"
  | denied => "denied"
  end.

(** Rows, with the columns that the lifecycle handlers read or write; each
    projection is the column name behind the alias the queries use. *)
Record user : Type := User {
  u_user_id : Z;
  u_first_name : string;
  u_last_name : string;
  u_role : string
}.

Record session : Type := Session {
  s_session_id : Z;
  s_tutor_id : Z;
  s_title : string;
  s_start_time : string;
  s_end_time : string;
  s_session_type : string;
  s_capacity : Z;
  s_location_details : option string;
  s_status : string
}.

Record session_course : Type := SessionCourse {
  sc_session_id : Z;
  sc_course_id : Z
}.

Record session_attendee : Type := SessionAttendee {
  sa_session_id : Z;
  sa_user_id : Z
}.

Record session_join_request : Type := SessionJoinRequest {
  sjr_request_id : Z;
  sjr_session_id : Z;
  sjr_requester_user_id : Z;
  sjr_tutor_user_id : Z;
  sjr_message_id : Z;
  sjr_status : request_status;
  sjr_responded_at : option Z
}.

Record message : Type := Message {
  m_message_id : Z;
  m_sender_id : Z;
  m_receiver_id : Z;
  m_subject : string;
  m_message_type : string;
  m_message_content : string
}.

Record user_message : Type := UserMessage {
  um_user_id : Z;
  um_message_id : Z;
  um_folder : string;
  um_is_read : Z
}.

Record tutor_course : Type := TutorCourse {
  tc_tutor_user_id : Z;
  tc_course_id : Z
}.

Record course : Type := Course {
  c_course_id : Z;
  c_department_id : Z;
  c_course_title : string;
  c_course_number : string
}.

Record department : Type := Department {
  d_department_id : Z;
  d_code : string
}.

(** The tables, and the next value of each AUTO_INCREMENT key. *)
Record database : Type := Database {
  users : list user;
  sessions : list session;
  session_courses : list session_course;
  session_attendees : list session_attendee;
  session_join_requests : list session_join_request;
  messages : list message;
  user_messages : list user_message;
  tutor_courses : list tutor_course;
  courses : list course;
  departments : list department;
  next_session_id : Z;
  next_request_id : Z;
  next_message_id : Z
}.

Definition with_sessions (f : list session -> list session) (n : Z -> Z)
    (db : database) : database :=
  Database (users db) (f (sessions db)) (session_courses db)
    (session_attendees db) (session_join_requests db) (messages db)
    (user_messages db) (tutor_courses db) (courses db) (departments db)
    (n (next_session_id db)) (next_request_id db) (next_message_id db).

Definition with_session_courses (f : list session_course -> list session_course)
    (db : database) : database :=
  Database (users db) (sessions db) (f (session_courses db))
    (session_attendees db) (session_join_requests db) (messages db)
    (user_messages db) (tutor_courses db) (courses db) (departments db)
    (next_session_id db) (next_request_id db) (next_message_id db).

Definition with_session_attendees
    (f : list session_attendee -> list session_attendee)
    (db : database) : database :=
  Database (users db) (sessions db) (session_courses db)
    (f (session_attendees db)) (session_join_requests db) (messages db)
    (user_messages db) (tutor_courses db) (courses db) (departments db)
    (next_session_id db) (next_request_id db) (next_message_id db).

Definition with_session_join_requests
    (f : list session_join_request -> list session_join_request) (n : Z -> Z)
    (db : database) : database :=
  Database (users db) (sessions db) (session_courses db)
    (session_attendees db) (f (session_join_requests db)) (messages db)
    (user_messages db) (tutor_courses db) (courses db) (departments db)
    (next_session_id db) (n (next_request_id db)) (next_message_id db).

Definition with_messages (f : list message -> list message) (n : Z -> Z)
    (db : database) : database :=
  Database (users db) (sessions db) (session_courses db)
    (session_attendees db) (session_join_requests db) (f (messages db))
    (user_messages db) (tutor_courses db) (courses db) (departments db)
    (next_session_id db) (next_request_id db) (n (next_message_id db)).

Definition with_user_messages (f : list user_message -> list user_message)
    (db : database) : database :=
  Database (users db) (sessions db) (session_courses db)
    (session_attendees db) (session_join_requests db) (messages db)
    (f (user_messages db)) (tutor_courses db) (courses db) (departments db)
    (next_session_id db) (next_request_id db) (next_message_id db).

(** [DELETE ... WHERE p]: the rows that stay. *)
Definition delete_where {A : Type} (p : A -> bool) (l : list A) : list A :=
  filter (fun x => negb (p x)) l.

(** [UPDATE ... SET f WHERE p]. *)
Definition update_where {A : Type} (p : A -> bool) (f : A -> A)
    (l : list A) : list A :=
  map (fun x => if p x then f x else x) l.

(** [SELECT COUNT( * ) ... WHERE p], also the [affectedRows] of a write. *)
Definition count_where {A : Type} (p : A -> bool) (l : list A) : Z :=
  Z.of_nat (List.length (filter p l)).

(** *** The write statements of the lifecycle handlers *)

Inductive statement : Type :=
| INSERT_session (tutor_id : Z) (title start_time end_time session_type : string)
    (capacity : Z) (location_details : option string)
| INSERT_session_courses (rows : list (Z * Z))
| INSERT_session_attendee (session_id user_id : Z)
| INSERT_message (sender_id receiver_id : Z)
    (subject message_type message_content : string)
| INSERT_user_message (user_id message_id : Z) (folder : string) (is_read : Z)
| INSERT_session_join_request (session_id requester tutor message_id : Z)
| UPDATE_request_status (request_id : Z) (status : request_status) (now : Z)
| UPDATE_accepted_to_denied (session_id requester now : Z)
| DELETE_requests_of (session_id requester : Z)
| DELETE_attendee (session_id user_id : Z)
| DELETE_session_courses (session_id : Z)
| DELETE_session_attendees (session_id : Z)
| DELETE_session_join_requests (session_id : Z)
| DELETE_session (session_id : Z).

Definition set_status (st : request_status) (now : Z)
    (r : session_join_request) : session_join_request :=
  SessionJoinRequest (sjr_request_id r) (sjr_session_id r)
    (sjr_requester_user_id r) (sjr_tutor_user_id r) (sjr_message_id r)
    st (Some now).

Definition of_pair (sid uid : Z) (r : session_join_request) : bool :=
  (sjr_session_id r =? sid) && (sjr_requester_user_id r =? uid).

Definition attends (sid uid : Z) (a : session_attendee) : bool :=
  (sa_session_id a =? sid) && (sa_user_id a =? uid).

(** What a statement does to the tables. *)
Definition exec (st : statement) (db : database) : database :=
  match st with
  | INSERT_session t title b e ty cap loc =>
      with_sessions
        (fun l => (l ++ [Session (next_session_id db) t title b e ty cap loc
                           "scheduled"])%list)
        Z.succ db
  | INSERT_session_courses rows =>
      with_session_courses
        (fun l => (l ++ map (fun r => SessionCourse (fst r) (snd r)) rows)%list)
        db
  | INSERT_session_attendee sid uid =>
      with_session_attendees (fun l => (l ++ [SessionAttendee sid uid])%list) db
  | INSERT_message s r subj ty c =>
      with_messages
        (fun l => (l ++ [Message (next_message_id db) s r subj ty c])%list)
        Z.succ db
  | INSERT_user_message u m f rd =>
      with_user_messages (fun l => (l ++ [UserMessage u m f rd])%list) db
  | INSERT_session_join_request sid u t m =>
      with_session_join_requests
        (fun l => (l ++ [SessionJoinRequest (next_request_id db) sid u t m
                           pending None])%list)
        Z.succ db
  | UPDATE_request_status rid s now =>
      with_session_join_requests
        (update_where (fun r => sjr_request_id r =? rid) (set_status s now))
        (fun n => n) db
  | UPDATE_accepted_to_denied sid u now =>
      with_session_join_requests
        (update_where
           (fun r => of_pair sid u r && status_eqb (sjr_status r) accepted)
           (set_status denied now))
        (fun n => n) db
  | DELETE_requests_of sid u =>
      with_session_join_requests (delete_where (of_pair sid u)) (fun n => n) db
  | DELETE_attendee sid u =>
      with_session_attendees (delete_where (attends sid u)) db
  | DELETE_session_courses sid =>
      with_session_courses (delete_where (fun r => sc_session_id r =? sid)) db
  | DELETE_session_attendees sid =>
      with_session_attendees (delete_where (fun r => sa_session_id r =? sid)) db
  | DELETE_session_join_requests sid =>
      with_session_join_requests
        (delete_where (fun r => sjr_session_id r =? sid)) (fun n => n) db
  | DELETE_session sid =>
      with_sessions (delete_where (fun r => s_session_id r =? sid))
        (fun n => n) db
  end.

(** The part of a statement's result that the handlers look at. *)
Record result : Type := Result {
  insertId : Z;
  affectedRows : Z
}.

Definition result_of (st : statement) (db : database) : result :=
  match st with
  | INSERT_session _ _ _ _ _ _ _ => Result (next_session_id db) 1
  | INSERT_message _ _ _ _ _ => Result (next_message_id db) 1
  | INSERT_session_join_request _ _ _ _ => Result (next_request_id db) 1
  | DELETE_attendee sid u =>
      Result 0 (count_where (attends sid u) (session_attendees db))
  | _ => Result 0 0
  end.

(** ** Handlers as computations over the store *)

(** The store, the write statements executed so far, and the number of
    queries that still go through before one throws ([None]: none throws). *)
Record world : Type := World {
  store : database;
  trace : list statement;
  faults : option nat
}.

Inductive outcome (A : Type) : Type :=
| Done (a : A)
| Thrown.
Arguments Done {A} a.
Arguments Thrown {A}.

Definition M (A : Type) : Type := world -> outcome A * world.

Definition ret {A : Type} (a : A) : M A := fun w => (Done a, w).

Definition bind {A B : Type} (m : M A) (k : A -> M B) : M B :=
  fun w =>
    match m w with
    | (Done a, w') => k a w'
    | (Thrown, w') => (Thrown, w')
    end.

Notation "x <- m ;; k" := (bind m (fun x => k))
  (at level 61, m at next level, right associativity).
Notation "m ;;; k" := (bind m (fun _ => k))
  (at level 61, right associativity).

(** One [await pool.query]: it goes through, or it is the one that throws. *)
Definition attempt (w : world) : option world :=
  match faults w with
  | None => Some w
  | Some O => None
  | Some (S n) => Some (World (store w) (trace w) (Some n))
  end.

(** A [SELECT]. *)
Definition query {A : Type} (q : database -> A) : M A :=
  fun w =>
    match attempt w with
    | Some w' => (Done (q (store w')), w')
    | None => (Thrown, w)
    end.

(** An [INSERT], [UPDATE] or [DELETE]. *)
Definition run (st : statement) : M result :=
  fun w =>
    match attempt w with
    | Some w' =>
        (Done (result_of st (store w')),
         World (exec st (store w')) (trace w' ++ [st])%list (faults w'))
    | None => (Thrown, w)
    end.

(** A [TypeError] that the handler's own code throws. *)
Definition throw {A : Type} : M A := fun w => (Thrown, w).

(** [for (const x of xs) { body }]. *)
Fixpoint for_of {A : Type} (xs : list A) (body : A -> M unit) : M unit :=
  match xs with
  | nil => ret tt
  | x :: r => body x ;;; for_of r body
  end.

(** ** Responses *)

#[local] Unset Elimination Schemes.
Inductive json : Type :=
| JNull
| JBool (b : bool)
| JNum (n : Z)
| JStr (s : string)
| JArr (l : list json)
| JObj (fields : list (string * json)).
#[local] Set Elimination Schemes.

(** [res.status(code).json(body)]. *)
Record response : Type := Response {
  status_code : Z;
  body : list (string * json)
}.

Definition field (k : string) (r : response) : option json :=
  option_map snd (find (fun kv => String.eqb (fst kv) k) (body r)).

(** The [success] flag of the envelope. *)
Definition succeeded (r : response) : bool :=
  match field "success" r with
  | Some (JBool true) => true
  | _ => false
  end.

(** [{ success: false, message }]. *)
Definition failure (code : Z) (msg : string) : response :=
  Response code [("success", JBool false); ("message", JStr msg)].

(** [{ success: true, message }]. *)
Definition success (code : Z) (msg : string) : response :=
  Response code [("success", JBool true); ("message", JStr msg)].

Definition handler : Type := world -> response * world.

(** A [return res...] outside the [try] block. *)
Definition reply (r : response) : handler := fun w => (r, w).

(** [try { body } catch (error) { return on_error }]. *)
Definition try_catch (body : M response) (on_error : response) : handler :=
  fun w =>
    match body w with
    | (Done r, w') => (r, w')
    | (Thrown, w') => (on_error, w')
    end.

(** A request served on [db]; [fault] says which query throws, if any. *)
Definition serve (h : handler) (fault : option nat) (db : database)
    : response * world :=
  h (World db [] fault).

(** ** The session-request handlers of messageController.js *)

Section Handlers.

Variable H : host.

(** [CONCAT(u.first_name, ' ', u.last_name)], also the template
    [`${first_name} ${last_name}`]. *)
Definition full_name (u : user) : string :=
  u_first_name u ++ " " ++ u_last_name u.

(** [(SELECT COUNT( * ) FROM session_attendees WHERE session_id = ?)]. *)
Definition enrolled_count (db : database) (sid : Z) : Z :=
  count_where (fun a => sa_session_id a =? sid) (session_attendees db).

(** [SELECT ... FROM users WHERE user_id = ?]. *)
Definition select_user (uid : Z) (db : database) : list user :=
  filter (fun u => u_user_id u =? uid) (users db).

(** [SELECT ... FROM session_attendees WHERE session_id = ? AND user_id = ?]. *)
Definition select_enrollment (sid uid : Z) (db : database)
    : list session_attendee :=
  filter (attends sid uid) (session_attendees db).

(** The three inserts behind every notification, which each handler spells
    out in full: the message row, the sender's copy in [sent], read, and the
    receiver's copy in [inbox], unread.  The value is the message's id. *)
Definition notify (sender receiver : Z) (subject message_type content : string)
    : M Z :=
  r <- run (INSERT_message sender receiver subject message_type content) ;;
  let messageId := insertId r in
  run (INSERT_user_message sender messageId "sent" 1) ;;;
  run (INSERT_user_message receiver messageId "inbox" 0) ;;;
  ret messageId.

(** *** sendSessionRequest *)

Record session_request_body : Type := SessionRequestBody {
  sessionId : option Z;
  tutorId : option Z;
  message_text : JS.value
}.

(** The text in a place of the body where text is optional, as
    [v && v.trim()] comes to it: a falsy value is no text, a string is
    looked at, and anything else that is truthy has no [trim], so that the
    call throws. *)
Definition optional_text (v : JS.value) : M (option string) :=
  match v with
  | JS.Str s => ret (Some s)
  | JS.Other true => throw
  | JS.Other false => ret None
  end.

(** [session.tutor_id !== parseInt(tutorId)]. *)
Definition other_tutor (s : session) (tutorId : Z) : bool :=
  match JS.parseInt_number tutorId with
  | Some t => negb (s_tutor_id s =? t)
  | None => true
  end.

(** The number behind a field that was found truthy. *)
Definition num (o : option Z) : Z :=
  match o with
  | Some n => n
  | None => 0
  end.

(** [SELECT s.*, (SELECT COUNT( * ) ...) as enrolled_count FROM sessions s
    WHERE s.session_id = ?]. *)
Definition select_session_with_count (sid : Z) (db : database)
    : list (session * Z) :=
  map (fun s => (s, enrolled_count db (s_session_id s)))
    (filter (fun s => s_session_id s =? sid) (sessions db)).

(** [SELECT status FROM session_join_requests WHERE session_id = ? AND
    requester_user_id = ?]. *)
Definition select_request_status (sid uid : Z) (db : database)
    : list request_status :=
  map sjr_status (filter (of_pair sid uid) (session_join_requests db)).

Definition request_content (s : session) (studentName : string)
    (msg : option string) : string :=
  let formattedDate := toLocaleDateString H (s_start_time s) in
  let formattedTime := toLocaleTimeString H (s_start_time s) in
  let sessionType :=
    if String.eqb (s_session_type s) "one_on_one" then "One-on-One"
    else "Group" in
  let sessionTitle := JS.or_else (Some (s_title s)) "Tutoring Session" in
  let messageContent :=
    "ðŸ“š Session Request: " ++ sessionTitle ++ JS.nl
    ++ "ðŸ“… " ++ formattedDate ++ " at " ++ formattedTime ++ JS.nl
    ++ "ðŸ“ " ++ JS.or_else (s_location_details s) "Location TBD" ++ JS.nl
    ++ "ðŸ‘¥ Type: " ++ sessionType ++ JS.nl ++ JS.nl
    ++ studentName ++ " would like to join this session." in
  match msg with
  | Some m =>
      if JS.truthy m && JS.truthy (JS.trim m)
      then messageContent ++ JS.nl ++ JS.nl ++ "ðŸ’¬ Message from student:"
           ++ JS.nl ++ JS.dquote ++ JS.trim m ++ JS.dquote
      else messageContent
  | None => messageContent
  end.

Definition sendSessionRequest (userId : option Z) (b : session_request_body)
    : handler :=
  if negb (JS.truthy_num userId) then
    reply (failure 401 "You must be logged in to send a request")
  else
  let studentId := num userId in
  if negb (JS.truthy_num (sessionId b)) || negb (JS.truthy_num (tutorId b)) then
    reply (failure 400 "Session ID and Tutor ID are required")
  else
  let sessionId := num (sessionId b) in
  let tutorId := num (tutorId b) in
  try_catch (
    sessions <- query (select_session_with_count sessionId) ;;
    match sessions with
    | nil => ret (failure 404 "Session not found")
    | (session, enrolled_count) :: _ =>
    if other_tutor session tutorId then
      ret (failure 400 "Invalid tutor for this session")
    else if studentId =? s_tutor_id session then
      ret (failure 400 "You cannot request to join your own session")
    else if enrolled_count >=? s_capacity session then
      ret (failure 400 "This session is already full")
    else
    existingRequests <- query (select_request_status sessionId studentId) ;;
    let enroll_check_and_send :=
      existingEnrollment <- query (select_enrollment sessionId studentId) ;;
      if negb (Nat.eqb (List.length existingEnrollment) 0) then
        ret (failure 400 "You are already enrolled in this session")
      else
      students <- query (select_user studentId) ;;
      match students with
      | nil => ret (failure 404 "Student not found")
      | student :: _ =>
      let studentName := full_name student in
      let sessionTitle :=
        JS.or_else (Some (s_title session)) "Tutoring Session" in
      let messageSubject := "Session Request: " ++ sessionTitle in
      message <- optional_text (message_text b) ;;
      let messageContent := request_content session studentName message in
      messageId <- notify studentId tutorId messageSubject
                     "session_join_request" messageContent ;;
      run (INSERT_session_join_request sessionId studentId tutorId messageId) ;;;
      ret (Response 201
             [("success", JBool true);
              ("message", JStr "Your request has been sent to the tutor");
              ("messageId", JNum messageId)])
      end in
    match existingRequests with
    | nil => enroll_check_and_send
    | pending :: _ =>
        ret (failure 400 "You already have a pending request for this session")
    | accepted :: _ =>
        ret (failure 400 "You are already enrolled in this session")
    | denied :: _ =>
        (* If denied, allow them to request again - delete old request *)
        run (DELETE_requests_of sessionId studentId) ;;;
        enroll_check_and_send
    end
    end)
    (failure 500 "Failed to send request. Please try again.").

(** *** acceptSessionRequest *)

(** [SELECT sjr.*, s.title, s.capacity, ..., u.user_id AS student_id,
    (SELECT COUNT( * ) ...) AS enrolled_count
    FROM session_join_requests sjr
    INNER JOIN sessions s ON sjr.session_id = s.session_id
    INNER JOIN users u ON sjr.requester_user_id = u.user_id
    WHERE sjr.request_id = ?]. *)
Definition select_request_details (rid : Z) (db : database)
    : list (session_join_request * session * user * Z) :=
  flat_map (fun sjr =>
    flat_map (fun s =>
      map (fun u => (sjr, s, u, enrolled_count db (sjr_session_id sjr)))
        (filter (fun u => u_user_id u =? sjr_requester_user_id sjr) (users db)))
      (filter (fun s => s_session_id s =? sjr_session_id sjr) (sessions db)))
    (filter (fun sjr => sjr_request_id sjr =? rid) (session_join_requests db)).

Definition accept_content (s : session) (tutorName : string) : string :=
  let formattedDate := toLocaleDateString H (s_start_time s) in
  let formattedTime := toLocaleTimeString H (s_start_time s) in
  "ðŸŽ‰ Great news! Your request to join " ++ JS.dquote ++ s_title s
  ++ JS.dquote ++ " has been accepted!" ++ JS.nl ++ JS.nl
  ++ "ðŸ“… Date: " ++ formattedDate ++ JS.nl
  ++ "ðŸ• Time: " ++ formattedTime ++ JS.nl
  ++ "ðŸ“ Location: " ++ JS.or_else (s_location_details s) "TBD"
  ++ JS.nl ++ JS.nl
  ++ tutorName ++ " is looking forward to seeing you at the session!".

(** [id] is the route parameter, [now] what CURRENT_TIMESTAMP reads. *)
Definition acceptSessionRequest (userId : option Z) (id : string) (now : Z)
    : handler :=
  if negb (JS.truthy_num userId) then
    reply (failure 401 "You must be logged in")
  else
  let tutorId := num userId in
  match JS.parseInt id with
  | None => reply (failure 400 "Invalid request ID")
  | Some requestId =>
  try_catch (
    requests <- query (select_request_details requestId) ;;
    match requests with
    | nil => ret (failure 404 "Request not found")
    | (request, session, student, enrolled_count) :: _ =>
    if negb (sjr_tutor_user_id request =? tutorId) then
      ret (failure 403 "You are not authorized to accept this request")
    else if negb (status_eqb (sjr_status request) pending) then
      ret (failure 400 ("This request has already been "
                        ++ status_text (sjr_status request)))
    else if enrolled_count >=? s_capacity session then
      ret (failure 400
             "This session is already full. Cannot accept more students.")
    else
    existingEnrollment <-
      query (select_enrollment (sjr_session_id request) (u_user_id student)) ;;
    if negb (Nat.eqb (List.length existingEnrollment) 0) then
      (* Update request status anyway *)
      run (UPDATE_request_status requestId accepted now) ;;;
      ret (failure 400 "Student is already enrolled in this session")
    else
    run (UPDATE_request_status requestId accepted now) ;;;
    run (INSERT_session_attendee (sjr_session_id request) (u_user_id student)) ;;;
    tutors <- query (select_user tutorId) ;;
    let tutorName :=
      match tutors with
      | tutor :: _ => full_name tutor
      | nil => "Your tutor"
      end in
    let acceptSubject := "Request Accepted: " ++ s_title session in
    let acceptContent := accept_content session tutorName in
    notify tutorId (u_user_id student) acceptSubject "normal" acceptContent ;;;
    ret (success 200
           (full_name student ++ " has been enrolled in the session"))
    end)
    (failure 500 "Failed to accept request. Please try again.")
  end.

(** *** denySessionRequest *)

(** The same join as for accept, without capacity and count. *)
Definition select_request_for_denial (rid : Z) (db : database)
    : list (session_join_request * session * user) :=
  flat_map (fun sjr =>
    flat_map (fun s =>
      map (fun u => (sjr, s, u))
        (filter (fun u => u_user_id u =? sjr_requester_user_id sjr) (users db)))
      (filter (fun s => s_session_id s =? sjr_session_id sjr) (sessions db)))
    (filter (fun sjr => sjr_request_id sjr =? rid) (session_join_requests db)).

Definition deny_content (s : session) (reason : option string) : string :=
  let denyContent :=
    "Unfortunately, your request to join " ++ JS.dquote ++ s_title s
    ++ JS.dquote ++ " was not accepted." ++ JS.nl ++ JS.nl in
  let denyContent :=
    match reason with
    | Some r =>
        if JS.truthy r && JS.truthy (JS.trim r)
        then denyContent ++ "ðŸ’¬ Message from tutor:" ++ JS.nl ++ JS.dquote
             ++ JS.trim r ++ JS.dquote ++ JS.nl ++ JS.nl
        else denyContent
    | None => denyContent
    end in
  denyContent
  ++ "Don't be discouraged! Feel free to browse other available sessions or try again later.".

Definition denySessionRequest (userId : option Z) (id : string)
    (reason : JS.value) (now : Z) : handler :=
  if negb (JS.truthy_num userId) then
    reply (failure 401 "You must be logged in")
  else
  let tutorId := num userId in
  match JS.parseInt id with
  | None => reply (failure 400 "Invalid request ID")
  | Some requestId =>
  try_catch (
    requests <- query (select_request_for_denial requestId) ;;
    match requests with
    | nil => ret (failure 404 "Request not found")
    | (request, session, student) :: _ =>
    if negb (sjr_tutor_user_id request =? tutorId) then
      ret (failure 403 "You are not authorized to deny this request")
    else if negb (status_eqb (sjr_status request) pending) then
      ret (failure 400 ("This request has already been "
                        ++ status_text (sjr_status request)))
    else
    run (UPDATE_request_status requestId denied now) ;;;
    tutors <- query (select_user tutorId) ;;
    let tutorName :=
      match tutors with
      | tutor :: _ => full_name tutor
      | nil => "The tutor"
      end in
    let denySubject := "Request Update: " ++ s_title session in
    reason <- optional_text reason ;;
    let denyContent := deny_content session reason in
    notify tutorId (u_user_id student) denySubject "normal" denyContent ;;;
    ret (success 200
           ("Request from " ++ full_name student ++ " has been denied"))
    end)
    (failure 500 "Failed to deny request. Please try again.")
  end.

(** ** The handlers of sessionController.js *)

(** *** createSession *)

(** The request body.  A text field that is absent reads as the empty
    string, which is as falsy; [capacity] is a JSON integer. *)
Record session_body : Type := SessionBody {
  title : string;
  sessionType : string;
  courseIds : option (list Z);
  startTime : string;
  endTime : string;
  capacity : option Z;
  locationDetails : option string
}.

(** [SELECT user_id FROM users WHERE user_id = ? AND role = 'Tutor']. *)
Definition select_tutor (uid : Z) (db : database) : list user :=
  filter (fun u => (u_user_id u =? uid) && String.eqb (u_role u) "Tutor")
    (users db).

(** [SELECT tc.course_id, c.course_title, c.course_number, d.code
    FROM tutor_courses tc
    JOIN courses c ON tc.course_id = c.course_id
    JOIN departments d ON c.department_id = d.department_id
    WHERE tc.tutor_user_id = ? AND tc.course_id IN (...)]. *)
Definition select_tutor_courses (uid : Z) (ids : list Z) (db : database)
    : list (tutor_course * course * department) :=
  flat_map (fun tc =>
    flat_map (fun c =>
      map (fun d => (tc, c, d))
        (filter (fun d => d_department_id d =? c_department_id c)
           (departments db)))
      (filter (fun c => c_course_id c =? tc_course_id tc) (courses db)))
    (filter (fun tc => (tc_tutor_user_id tc =? uid)
                       && existsb (Z.eqb (tc_course_id tc)) ids)
       (tutor_courses db)).

Definition formatDateForMySQL (dateStr : string) : string :=
  JS.replace "T"%char " "%char dateStr.

(** [l.join(', ')]. *)
Fixpoint join (l : list string) : string :=
  match l with
  | nil => ""
  | [x] => x
  | x :: r => x ++ ", " ++ join r
  end.

Definition createSession (userId : option Z) (b : session_body) (now : Z)
    : handler :=
  if negb (JS.truthy_num userId) then reply (failure 401 "Not authenticated")
  else
  let userId := num userId in
  try_catch (
    if negb (JS.truthy (title b)) || negb (JS.truthy (sessionType b))
       || match courseIds b with None => true | Some _ => false end
       || negb (JS.truthy (startTime b)) || negb (JS.truthy (endTime b))
       || negb (JS.truthy_num (capacity b))
    then
      ret (failure 400 "Missing required fields: title, sessionType, courseIds, startTime, endTime, and capacity are required")
    else
    let courseIds := match courseIds b with Some l => l | None => nil end in
    if Nat.eqb (List.length courseIds) 0 then
      ret (failure 400 "At least one course must be selected")
    else if (150 <? JS.js_length (JS.trim (title b)))%nat then
      ret (failure 400 "Session title must be 150 characters or less")
    else if negb (JS.includes ["open"; "one_on_one"] (sessionType b)) then
      ret (failure 400 ("Invalid session type. Must be " ++ JS.dquote ++ "open"
                        ++ JS.dquote ++ " or " ++ JS.dquote ++ "one_on_one"
                        ++ JS.dquote))
    else
    tutorCheck <- query (select_tutor userId) ;;
    if Nat.eqb (List.length tutorCheck) 0 then
      ret (failure 403 "Only tutors can create sessions")
    else
    courseCheck <- query (select_tutor_courses userId courseIds) ;;
    if negb (Nat.eqb (List.length courseCheck) (List.length courseIds)) then
      ret (failure 400 "One or more courses not found or you are not registered to tutor them")
    else
    match date_time H (startTime b), date_time H (endTime b) with
    | Some startDate, Some endDate =>
    if startDate <=? now then
      ret (failure 400 "Session must be scheduled in the future")
    else if endDate <=? startDate then
      ret (failure 400 "End time must be after start time")
    else
    let capacityNum := JS.parseInt_number (num (capacity b)) in
    if match capacityNum with
       | None => true
       | Some capacityNum => (capacityNum <? 1) || (50 <? capacityNum)
       end
    then
      ret (failure 400 "Capacity must be between 1 and 50")
    else
    let capacityNum := num capacityNum in
    let finalCapacity :=
      if String.eqb (sessionType b) "one_on_one" then 1 else capacityNum in
    sessionResult <-
      run (INSERT_session userId (JS.trim (title b))
             (formatDateForMySQL (startTime b)) (formatDateForMySQL (endTime b))
             (sessionType b) finalCapacity
             (if JS.truthy_opt (locationDetails b) then locationDetails b
              else None)) ;;
    let sessionId := insertId sessionResult in
    let courseInserts := map (fun courseId => (sessionId, courseId)) courseIds in
    run (INSERT_session_courses courseInserts) ;;;
    let courseNames :=
      join (map (fun r => d_code (snd r) ++ " " ++ c_course_number (snd (fst r)))
              courseCheck) in
    ret (Response 201
           [("success", JBool true);
            ("message", JStr "Session created successfully");
            ("data", JObj (
               [("sessionId", JNum sessionId);
                ("title", JStr (JS.trim (title b)));
                ("sessionType", JStr (sessionType b));
                ("courseIds", JArr (map JNum courseIds));
                ("courseNames", JStr courseNames);
                ("startTime", JStr (startTime b));
                ("endTime", JStr (endTime b));
                ("capacity", JNum finalCapacity)]
               ++ match locationDetails b with
                  | Some l => [("locationDetails", JStr l)]
                  | None => nil
                  end)%list)])
    | _, _ => ret (failure 400 "Invalid date/time format")
    end)
    (failure 500 "Failed to create session").

(** *** deleteSession *)

(** [SELECT ... FROM sessions s WHERE s.session_id = ?]. *)
Definition select_session (sid : Z) (db : database) : list session :=
  filter (fun s => s_session_id s =? sid) (sessions db).

(** [SELECT sjr.request_id, sjr.requester_user_id, u.first_name, u.last_name
    FROM session_join_requests sjr
    JOIN users u ON sjr.requester_user_id = u.user_id
    WHERE sjr.session_id = ? AND sjr.status = 'pending']. *)
Definition select_pending_requests (sid : Z) (db : database)
    : list (session_join_request * user) :=
  flat_map (fun sjr =>
    map (fun u => (sjr, u))
      (filter (fun u => u_user_id u =? sjr_requester_user_id sjr) (users db)))
    (filter (fun sjr => (sjr_session_id sjr =? sid)
                        && status_eqb (sjr_status sjr) pending)
       (session_join_requests db)).

(** [SELECT sa.user_id, u.first_name, u.last_name
    FROM session_attendees sa JOIN users u ON sa.user_id = u.user_id
    WHERE sa.session_id = ?]. *)
Definition select_enrolled_students (sid : Z) (db : database)
    : list (session_attendee * user) :=
  flat_map (fun sa =>
    map (fun u => (sa, u))
      (filter (fun u => u_user_id u =? sa_user_id sa) (users db)))
    (filter (fun sa => sa_session_id sa =? sid) (session_attendees db)).

(** The three lines on date, time and place that the notifications of this
    controller share. *)
Definition when_and_where (s : session) : string :=
  let formattedDate := toLocaleDateString H (s_start_time s) in
  let formattedTime := toLocaleTimeString H (s_start_time s) in
  "📅 Date: " ++ formattedDate ++ JS.nl
  ++ "🕐 Time: " ++ formattedTime ++ JS.nl
  ++ "📍 Location: " ++ JS.or_else (s_location_details s) "TBD"
  ++ JS.nl ++ JS.nl.

Definition cancelled_subject (s : session) : string :=
  "Session Cancelled: " ++ s_title s.

Definition denied_by_cancellation_content (s : session) : string :=
  "Your request to join the session " ++ JS.dquote ++ s_title s ++ JS.dquote
  ++ " has been automatically denied because the session has been cancelled."
  ++ JS.nl ++ JS.nl
  ++ when_and_where s
  ++ "We apologize for any inconvenience. Feel free to browse other available sessions on the platform.".

Definition cancelled_content (s : session) (tutorName : string) : string :=
  "We regret to inform you that the session " ++ JS.dquote ++ s_title s
  ++ JS.dquote ++ " has been cancelled by " ++ tutorName ++ "."
  ++ JS.nl ++ JS.nl
  ++ when_and_where s
  ++ "We apologize for any inconvenience this may cause. Please feel free to browse other available sessions on the platform.".

(** The [successMessage] of a deletion that notified [notifiedCount]
    students. *)
Definition deleted_message (notifiedCount : Z) : string :=
  let successMessage := "Session deleted successfully" in
  if 0 <? notifiedCount then
    successMessage ++ ". " ++ JS.of_num notifiedCount ++ " student"
    ++ (if negb (notifiedCount =? 1) then "s have" else " has")
    ++ " been notified."
  else successMessage.

(** [id] is the session that the route names, [now] what CURRENT_TIMESTAMP
    reads. *)
Definition deleteSession (userId : option Z) (id : Z) (now : Z) : handler :=
  if negb (JS.truthy_num userId) then reply (failure 401 "Not authenticated")
  else
  let userId := num userId in
  try_catch (
    sessions <- query (select_session id) ;;
    match sessions with
    | nil => ret (failure 404 "Session not found")
    | session :: _ =>
    if negb (s_tutor_id session =? userId) then
      ret (failure 403 "You can only delete your own sessions")
    else
    tutors <- query (select_user userId) ;;
    let tutorName :=
      match tutors with
      | tutor :: _ => full_name tutor
      | nil => "The tutor"
      end in
    (* 1. Handle pending join requests - deny them and notify students *)
    pendingRequests <- query (select_pending_requests id) ;;
    for_of pendingRequests (fun request =>
      run (UPDATE_request_status (sjr_request_id (fst request)) denied now) ;;;
      notify userId (sjr_requester_user_id (fst request))
        (cancelled_subject session) "normal"
        (denied_by_cancellation_content session) ;;;
      ret tt) ;;;
    (* 2. Handle enrolled students - notify about cancellation *)
    enrolledStudents <- query (select_enrolled_students id) ;;
    for_of enrolledStudents (fun student =>
      notify userId (sa_user_id (fst student))
        (cancelled_subject session) "normal"
        (cancelled_content session tutorName) ;;;
      ret tt) ;;;
    (* 3. Delete related records *)
    run (DELETE_session_courses id) ;;;
    run (DELETE_session_attendees id) ;;;
    run (DELETE_session_join_requests id) ;;;
    (* 4. Delete the session *)
    run (DELETE_session id) ;;;
    let notifiedCount :=
      Z.of_nat (List.length pendingRequests + List.length enrolledStudents) in
    ret (success 200 (deleted_message notifiedCount))
    end)
    (failure 500 "Failed to delete session").

(** *** removeStudentFromSession *)

Definition removed_content (s : session) (tutorName : string) : string :=
  "You have been removed from the session " ++ JS.dquote ++ s_title s
  ++ JS.dquote ++ "." ++ JS.nl ++ JS.nl
  ++ when_and_where s
  ++ "If you have any questions about this change, please contact "
  ++ tutorName ++ "." ++ JS.nl ++ JS.nl
  ++ "Feel free to browse other available sessions on the platform.".

Definition removeStudentFromSession (userId : option Z) (id studentId : Z)
    (now : Z) : handler :=
  if negb (JS.truthy_num userId) then reply (failure 401 "Not authenticated")
  else
  let userId := num userId in
  try_catch (
    sessions <- query (select_session id) ;;
    match sessions with
    | nil => ret (failure 404 "Session not found")
    | session :: _ =>
    if negb (s_tutor_id session =? userId) then
      ret (failure 403 "You are not authorized to modify this session")
    else
    students <- query (select_user studentId) ;;
    match students with
    | nil => ret (failure 404 "Student not found")
    | student :: _ =>
    result <- run (DELETE_attendee id studentId) ;;
    if affectedRows result =? 0 then
      ret (failure 404 "Student not found in this session")
    else
    run (UPDATE_accepted_to_denied id studentId now) ;;;
    tutors <- query (select_user userId) ;;
    let tutorName :=
      match tutors with
      | tutor :: _ => full_name tutor
      | nil => "The tutor"
      end in
    let messageSubject := "Session Update: " ++ s_title session in
    let messageContent := removed_content session tutorName in
    notify userId studentId messageSubject "normal" messageContent ;;;
    ret (success 200
           (full_name student
            ++ " has been removed from the session and notified"))
    end
    end)
    (failure 500 "Failed to remove student from session").

(** *** unenrollFromSession *)

(** [SELECT s.*, CONCAT(u.first_name, ' ', u.last_name) AS tutor_name
    FROM sessions s INNER JOIN users u ON s.tutor_id = u.user_id
    WHERE s.session_id = ?]. *)
Definition select_session_with_tutor (sid : Z) (db : database)
    : list (session * user) :=
  flat_map (fun s =>
    map (fun u => (s, u))
      (filter (fun u => u_user_id u =? s_tutor_id s) (users db)))
    (filter (fun s => s_session_id s =? sid) (sessions db)).

Definition unenrolled_content (s : session) (studentName : string) : string :=
  studentName ++ " has unenrolled from your session " ++ JS.dquote ++ s_title s
  ++ JS.dquote ++ "." ++ JS.nl ++ JS.nl
  ++ when_and_where s
  ++ "A spot is now available in this session.".

Definition unenrollFromSession (userId : option Z) (id : Z) (now : Z)
    : handler :=
  if negb (JS.truthy_num userId) then reply (failure 401 "Not authenticated")
  else
  let userId := num userId in
  try_catch (
    sessions <- query (select_session_with_tutor id) ;;
    match sessions with
    | nil => ret (failure 404 "Session not found")
    | (session, _) :: _ =>
    enrollment <- query (select_enrollment id userId) ;;
    if Nat.eqb (List.length enrollment) 0 then
      ret (failure 400 "You are not enrolled in this session")
    else
    run (DELETE_attendee id userId) ;;;
    run (UPDATE_accepted_to_denied id userId now) ;;;
    students <- query (select_user userId) ;;
    let studentName :=
      match students with
      | student :: _ => full_name student
      | nil => "A student"
      end in
    let messageSubject := "Student Unenrolled: " ++ s_title session in
    let messageContent := unenrolled_content session studentName in
    notify userId (s_tutor_id session) messageSubject "normal" messageContent ;;;
    ret (success 200 "Successfully unenrolled from the session")
    end)
    (failure 500 "Failed to unenroll from session").

End Handlers.


(** ** The operations of the lifecycle core *)

(** A call of one of the six handlers that move requests and enrollments,
    with what the request carries. *)
Inductive operation : Type :=
| CreateRequest (userId : option Z) (b : session_request_body)
| Accept (userId : option Z) (id : string) (now : Z)
| Deny (userId : option Z) (id : string) (reason : JS.value) (now : Z)
| Unenroll (userId : option Z) (id : Z) (now : Z)
| RemoveStudent (userId : option Z) (id studentId : Z) (now : Z)
| DeleteSession (userId : option Z) (id : Z) (now : Z).

Definition perform (H : host) (op : operation) : handler :=
  match op with
  | CreateRequest userId b => sendSessionRequest H userId b
  | Accept userId id now => acceptSessionRequest H userId id now
  | Deny userId id reason now => denySessionRequest userId id reason now
  | Unenroll userId id now => unenrollFromSession H userId id now
  | RemoveStudent userId id studentId now =>
      removeStudentFromSession H userId id studentId now
  | DeleteSession userId id now => deleteSession H userId id now
  end.

(** A sequence of calls, each with its own fault budget, served one after
    the other on the store that the previous one left. *)
Fixpoint perform_all (H : host) (calls : list (operation * option nat))
    (db : database) : database :=
  match calls with
  | nil => db
  | (op, fault) :: rest =>
      perform_all H rest (store (snd (serve (perform H op) fault db)))
  end.

(** ** A sample store *)

(** A run of decimal digits, read as a number. *)
Fixpoint number (s : string) (acc : Z) : option Z :=
  match s with
  | EmptyString => Some acc
  | String c r =>
      match JS.digit_of c with
      | Some d => number r (10 * acc + d)
      | None => None
      end
  end.

(** The days from 1970-01-01 to a day of the Gregorian calendar. *)
Definition days_from_civil (y m d : Z) : Z :=
  let y := if m <=? 2 then y - 1 else y in
  let era := y / 400 in
  let yoe := y - era * 400 in
  let mp := (m + 9) mod 12 in
  let doy := (153 * mp + 2) / 5 + d - 1 in
  let doe := yoe * 365 + yoe / 4 - yoe / 100 + doy in
  era * 146097 + doe - 719468.

Definition days_in_month (y m : Z) : Z :=
  if m =? 2 then
    if (y mod 4 =? 0) && (negb (y mod 100 =? 0) || (y mod 400 =? 0))
    then 29 else 28
  else if (m =? 4) || (m =? 6) || (m =? 9) || (m =? 11) then 30
  else 31.

(** [new Date(text).getTime()] on a machine whose time zone is UTC, for a
    text of the form [YYYY-MM-DDTHH:mm:ss], the input format that
    createSession names; any other text is taken for an invalid date. *)
Definition utc_time (text : string) : option Z :=
  let at_ (i : nat) (c : ascii) :=
    match String.get i text with
    | Some x => Ascii.eqb x c
    | None => false
    end in
  if negb ((String.length text =? 19)%nat
           && at_ 4%nat "-"%char && at_ 7%nat "-"%char
           && at_ 10%nat "T"%char && at_ 13%nat ":"%char
           && at_ 16%nat ":"%char)
  then None
  else
    match number (substring 0 4 text) 0, number (substring 5 2 text) 0,
          number (substring 8 2 text) 0, number (substring 11 2 text) 0,
          number (substring 14 2 text) 0, number (substring 17 2 text) 0
    with
    | Some y, Some m, Some d, Some h, Some mi, Some sec =>
        if (1 <=? m) && (m <=? 12) && (1 <=? d) && (d <=? days_in_month y m)
           && (h <=? 23) && (mi <=? 59) && (sec <=? 59)
        then Some ((((days_from_civil y m d * 24 + h) * 60 + mi) * 60 + sec)
                   * 1000)
        else None
    | _, _, _, _, _, _ => None
    end.

(** A host for the examples: its time zone is UTC, and a start time prints
    as it is stored. *)
Definition sample_host : host :=
  Host utc_time (fun s => s) (fun s => s).

(** Ada (1) tutors MATH 101 and runs session 10 for two; Cy (3) is enrolled,
    Bob (2) and Dee (4) have asked to join, with requests 5 and 6; Eve (5)
    has not. *)
Definition sample_db : database :=
  Database
    [User 1 "Ada" "Lovelace" "Tutor"; User 2 "Bob" "Stone" "Student";
     User 3 "Cy" "Young" "Student"; User 4 "Dee" "Park" "Student";
     User 5 "Eve" "Moss" "Student"]
    [Session 10 1 "Algebra" "2026-01-01 10:00:00" "2026-01-01 11:00:00"
       "open" 2 None "scheduled"]
    [SessionCourse 10 100]
    [SessionAttendee 10 3]
    [SessionJoinRequest 5 10 2 1 7 pending None;
     SessionJoinRequest 6 10 4 1 8 pending None]
    [] []
    [TutorCourse 1 100]
    [Course 100 1000 "Algebra I" "101"]
    [Department 1000 "MATH"]
    11 7 9.

(** ** Assertions on runs *)

(** [triple P m Q E]: from a world in [P], [m] ends in [Q] when it returns
    and in [E] when a query throws. *)
Definition triple {A : Type} (P : world -> Prop) (m : M A)
    (Q : A -> world -> Prop) (E : world -> Prop) : Prop :=
  forall w, P w ->
    match m w with
    | (Done a, w') => Q a w'
    | (Thrown, w') => E w'
    end.

(** [keeps Inv m]: [m] maintains [Inv], whether it returns or throws. *)
Definition keeps {A : Type} (Inv : world -> Prop) (m : M A) : Prop :=
  triple Inv m (fun _ => Inv) Inv.

(** The same for a handler, whose [catch] has turned a throw into an
    answer. *)
Definition maintains (Inv : world -> Prop) (h : handler) : Prop :=
  forall w, Inv w -> Inv (snd (h w)).

(** An assertion is steady when it does not look at the count of queries
    that remain before a fault, only at whether there is one. *)
Definition steady (P : world -> Prop) : Prop :=
  forall db t f f', (f = None -> f' = None) ->
    P (World db t f) -> P (World db t f').

(** The two rows of [user_messages] that go with a message: the sender's
    copy, in [sent] and read, and the receiver's, in [inbox] and unread. *)
Definition copies (m : message) : list user_message :=
  [UserMessage (m_sender_id m) (m_message_id m) "sent" 1;
   UserMessage (m_receiver_id m) (m_message_id m) "inbox" 0].

(** Since the store was [db0], messages were only added, each with its two
    copies and nothing else, and no query has thrown. *)
Definition filed (db0 : database) (w : world) : Prop :=
  faults w = None
  /\ exists new : list message,
       messages (store w) = (messages db0 ++ new)%list
       /\ user_messages (store w)
          = (user_messages db0 ++ flat_map copies new)%list.

(** A statement that writes neither [messages] nor [user_messages]. *)
Definition off_mail (st : statement) : bool :=
  match st with
  | INSERT_message _ _ _ _ _ | INSERT_user_message _ _ _ _ => false
  | _ => true
  end.

(** ** The capacity invariant *)

(** [session_id] is the key of [sessions]. *)
Definition keyed (db : database) : Prop :=
  NoDup (map s_session_id (sessions db)).

(** No session holds more enrollment rows than its capacity. *)
Definition capacity_respected (db : database) : Prop :=
  forall s : session,
    In s (sessions db) -> enrolled_count db (s_session_id s) <= s_capacity s.

Definition ledger_sound (w : world) : Prop :=
  keyed (store w) /\ capacity_respected (store w).

(** The session [s] is in the store and has a free place. *)
Definition has_room (s : session) (w : world) : Prop :=
  ledger_sound w /\ In s (sessions (store w))
  /\ enrolled_count (store w) (s_session_id s) < s_capacity s.

(** A statement that cannot add an enrollment or a session. *)
Definition harmless (st : statement) : bool :=
  match st with
  | INSERT_session _ _ _ _ _ _ _ | INSERT_session_attendee _ _ => false
  | _ => true
  end.

(** ** The cancellation cascade *)

Definition is_delete (st : statement) : bool :=
  match st with
  | DELETE_requests_of _ _ | DELETE_attendee _ _ | DELETE_session_courses _
  | DELETE_session_attendees _ | DELETE_session_join_requests _
  | DELETE_session _ => true
  | _ => false
  end.




(** Where the cascade stands, from the store [db0] and an empty trace: no
    query has thrown and nothing was deleted; users, sessions, course links
    and enrollments are as they were; the messages added so far were sent by
    [sender] to [receivers], in this order; each request in [denied_ids] was
    marked denied at [now]. *)
Definition cascade (db0 : database) (sender now : Z) (receivers : list Z)
    (denied_ids : list Z) (w : world) : Prop :=
  faults w = None
  /\ users (store w) = users db0
  /\ sessions (store w) = sessions db0
  /\ session_courses (store w) = session_courses db0
  /\ session_attendees (store w) = session_attendees db0
  /\ (exists new : list message,
        messages (store w) = (messages db0 ++ new)%list
        /\ map m_receiver_id new = receivers
        /\ Forall (fun m => m_sender_id m = sender) new)
  /\ Forall (fun st => is_delete st = false) (trace w)
  /\ (forall rid : Z, In rid denied_ids ->
        In (UPDATE_request_status rid denied now) (trace w)).

(** ** Failures and writes *)

(** Sample store in which Bob (2) is enrolled in session 10 although his
    request 5 is still pending, and the session has room for three. *)
Definition double_booked_db : database :=
  Database
    [User 1 "Ada" "Lovelace" "Tutor"; User 2 "Bob" "Stone" "Student";
     User 3 "Cy" "Young" "Student"]
    [Session 10 1 "Algebra" "2026-01-01 10:00:00" "2026-01-01 11:00:00"
       "open" 3 None "scheduled"]
    [SessionCourse 10 100]
    [SessionAttendee 10 3; SessionAttendee 10 2]
    [SessionJoinRequest 5 10 2 1 7 pending None]
    [] []
    [TutorCourse 1 100]
    [Course 100 1000 "Algebra I" "101"]
    [Department 1000 "MATH"]
    11 6 8.

(** Sample store in which Bob (2) is enrolled in session 10 and his earlier
    request 5 for it was denied. *)
Definition denied_but_enrolled_db : database :=
  Database
    [User 1 "Ada" "Lovelace" "Tutor"; User 2 "Bob" "Stone" "Student";
     User 3 "Cy" "Young" "Student"]
    [Session 10 1 "Algebra" "2026-01-01 10:00:00" "2026-01-01 11:00:00"
       "open" 3 None "scheduled"]
    [SessionCourse 10 100]
    [SessionAttendee 10 3; SessionAttendee 10 2]
    [SessionJoinRequest 5 10 2 1 7 denied (Some 50)]
    [] []
    [TutorCourse 1 100]
    [Course 100 1000 "Algebra I" "101"]
    [Department 1000 "MATH"]
    11 6 8.

(** The optional text that a call carries in its body is text, or is
    falsy. *)
Definition text_or_falsy (v : JS.value) : Prop := v <> JS.Other true.

Definition well_typed (op : operation) : Prop :=
  match op with
  | CreateRequest _ b => text_or_falsy (message_text b)
  | Deny _ _ reason _ => text_or_falsy reason
  | _ => True
  end.

(** The row of a request once it was answered with [st] at [now]. *)
Definition answered (st : request_status) (now : Z)
    (x : session_join_request) : session_join_request :=
  SessionJoinRequest (sjr_request_id x) (sjr_session_id x)
    (sjr_requester_user_id x) (sjr_tutor_user_id x) (sjr_message_id x)
    st (Some now).

(** Sample store in which request 6, for Ada's session 10, names Bob (2)
    as its tutor. *)
Definition misfiled_db : database :=
  Database
    [User 1 "Ada" "Lovelace" "Tutor"; User 2 "Bob" "Stone" "Student";
     User 4 "Dee" "Park" "Student"]
    [Session 10 1 "Algebra" "2026-01-01 10:00:00" "2026-01-01 11:00:00"
       "open" 2 None "scheduled"]
    [SessionCourse 10 100]
    []
    [SessionJoinRequest 6 10 4 2 8 pending None]
    [] []
    [TutorCourse 1 100]
    [Course 100 1000 "Algebra I" "101"]
    [Department 1000 "MATH"]
    11 7 9.

(** The messages that a call which succeeds sends: one, and for a
    cancellation one to each pending requester and one to each enrolled
    student. *)
Definition notifications (op : operation) (db : database) : nat :=
  match op with
  | DeleteSession _ id _ =>
      (List.length (select_pending_requests id db)
       + List.length (select_enrolled_students id db))%nat
  | _ => 1%nat
  end.

(** ** Creating a session *)

(** The first second of 2026, in milliseconds since 1970. *)
Definition new_year_2026 : Z := 1767225600000.

(** A body that createSession accepts from Ada before March 2026. *)
Definition sample_body : session_body :=
  SessionBody "Linear maps" "one_on_one" (Some [100])
    "2026-03-01T10:00:00" "2026-03-01T11:00:00" (Some 7) (Some "Library").

(** The course ids of a body, none when the field is absent. *)
Definition course_ids (b : session_body) : list Z :=
  match courseIds b with
  | Some l => l
  | None => nil
  end.

(** The reasons for refusing a body that the specification lists: title
    too long, no course, a course that the tutor does not teach, a kind
    that is neither open nor one_on_one, a start or an end that does not
    parse, a start that is not after [now], an end that is not after the
    start, a capacity outside [1, 50]. *)
Definition listed_reason (H : host) (db : database) (tutor : Z)
    (b : session_body) (now : Z) : Prop :=
  (150 < JS.js_length (title b))%nat
  \/ course_ids b = nil
  \/ (exists c : Z,
        In c (course_ids b) /\ ~ In (TutorCourse tutor c) (tutor_courses db))
  \/ (sessionType b <> "open" /\ sessionType b <> "one_on_one")
  \/ match date_time H (startTime b), date_time H (endTime b) with
     | Some startDate, Some endDate => startDate <= now \/ endDate <= startDate
     | _, _ => True
     end
  \/ match capacity b with
     | Some c => c < 1 \/ 50 < c
     | None => True
     end.

(** The reasons for which the handler refuses a body with 400: a required
    field that is absent or falsy (an empty text, a capacity of 0), no
    course, a title longer than 150 once trimmed, a kind that is neither
    open nor one_on_one, a number of rows, among the courses that the tutor
    teaches, that differs from the number of course ids, a start or an end
    that does not parse, a start that is not after [now], an end that is
    not after the start, a capacity that [parseInt] does not read as a
    number from 1 to 50. *)
Definition refusal_reason (H : host) (db : database) (tutor : Z)
    (b : session_body) (now : Z) : Prop :=
  (title b = "" \/ sessionType b = "" \/ courseIds b = None
   \/ startTime b = "" \/ endTime b = "" \/ capacity b = None
   \/ capacity b = Some 0)
  \/ course_ids b = nil
  \/ (150 < JS.js_length (JS.trim (title b)))%nat
  \/ (sessionType b <> "open" /\ sessionType b <> "one_on_one")
  \/ List.length (select_tutor_courses tutor (course_ids b) db)
     <> List.length (course_ids b)
  \/ date_time H (startTime b) = None
  \/ date_time H (endTime b) = None
  \/ (exists startDate : Z,
        date_time H (startTime b) = Some startDate /\ startDate <= now)
  \/ (exists startDate endDate : Z,
        date_time H (startTime b) = Some startDate
        /\ date_time H (endTime b) = Some endDate /\ endDate <= startDate)
  \/ (exists c : Z,
        capacity b = Some c
        /\ match JS.parseInt_number c with
           | Some n => n < 1 \/ 50 < n
           | None => True
           end).

(** The row that a successful creation stores. *)
Definition created_session (db : database) (tutor : Z) (b : session_body)
    : session :=
  Session (next_session_id db) tutor (JS.trim (title b))
    (formatDateForMySQL (startTime b)) (formatDateForMySQL (endTime b))
    (sessionType b)
    (if String.eqb (sessionType b) "one_on_one" then 1
     else num (JS.parseInt_number (num (capacity b))))
    (if JS.truthy_opt (locationDetails b) then locationDetails b else None)
    "scheduled".

(** [(tutor_user_id, course_id)] is the key of [tutor_courses], [course_id]
    that of [courses] and [department_id] that of [departments]. *)
Definition catalogue_keyed (db : database) : Prop :=
  NoDup (map (fun tc => (tc_tutor_user_id tc, tc_course_id tc))
           (tutor_courses db))
  /\ NoDup (map c_course_id (courses db))
  /\ NoDup (map d_department_id (departments db)).

(** The rows that the course check joins to one row of [tutor_courses]. *)
Definition joined_courses (db : database) (tc : tutor_course)
    : list (tutor_course * course * department) :=
  flat_map (fun c =>
    map (fun d => (tc, c, d))
      (filter (fun d => d_department_id d =? c_department_id c)
         (departments db)))
    (filter (fun c => c_course_id c =? tc_course_id tc) (courses db)).

(** The course that a row of the course check is about. *)
Definition course_of (row : tutor_course * course * department) : Z :=
  tc_course_id (fst (fst row)).

(** ** Reading the status of a request *)

(** [getSessionRequestStatus] of messageController.js; [sessionId] is the
    route parameter. *)
Definition getSessionRequestStatus (userId : option Z) (sessionId : string)
    : handler :=
  if negb (JS.truthy_num userId) then
    reply (failure 401 "You must be logged in")
  else
  let studentId := num userId in
  match JS.parseInt sessionId with
  | None => reply (failure 400 "Invalid session ID")
  | Some sessionId =>
  try_catch (
    requests <- query (select_request_status sessionId studentId) ;;
    enrollment <- query (select_enrollment sessionId studentId) ;;
    if negb (Nat.eqb (List.length enrollment) 0) then
      ret (Response 200
             [("success", JBool true);
              ("status", JStr "enrolled");
              ("message", JStr "You are already enrolled in this session")])
    else
    match requests with
    | status :: _ =>
        ret (Response 200
               [("success", JBool true);
                ("status", JStr (status_text status));
                ("message",
                 JStr match status with
                      | pending => "Your request is pending approval"
                      | accepted => "Your request was accepted"
                      | denied =>
                          "Your previous request was denied - you can request again"
                      end)])
    | nil =>
        ret (Response 200
               [("success", JBool true);
                ("status", JNull);
                ("message", JStr "No existing request for this session")])
    end)
    (failure 500 "Failed to check request status")
  end.

(** ** Callers and failures of the operations *)

(** Who a call is made as. *)
Definition caller (op : operation) : option Z :=
  match op with
  | CreateRequest userId _ | Accept userId _ _ | Deny userId _ _ _
  | Unenroll userId _ _ | RemoveStudent userId _ _ _
  | DeleteSession userId _ _ => userId
  end.

(** What the [catch] of each handler answers. *)
Definition on_error (op : operation) : response :=
  match op with
  | CreateRequest _ _ => failure 500 "Failed to send request. Please try again."
  | Accept _ _ _ => failure 500 "Failed to accept request. Please try again."
  | Deny _ _ _ _ => failure 500 "Failed to deny request. Please try again."
  | Unenroll _ _ _ => failure 500 "Failed to unenroll from session"
  | RemoveStudent _ _ _ _ => failure 500 "Failed to remove student from session"
  | DeleteSession _ _ _ => failure 500 "Failed to delete session"
  end.

(** [yields Q m]: what [m] returns, when it returns, is in [Q]. *)
Definition yields {A : Type} (Q : A -> Prop) (m : M A) : Prop :=
  forall w, match m w with
            | (Done a, _) => Q a
            | (Thrown, _) => True
            end.

(** No query is due to throw. *)
Definition unfailing (w : world) : Prop := faults w = None.

(** [returns m]: without a fault, [m] returns, and leaves none. *)
Definition returns {A : Type} (m : M A) : Prop :=
  triple unfailing m (fun _ => unfailing) (fun _ => False).

(** The handler [h] answers 500 only by [on_error], and not at all when
    no query is due to throw. *)
Definition below_500 (fault : option nat) (db : database)
    (on_error : response) (h : handler) : Prop :=
  let r := fst (h (World db [] fault)) in
  (r = on_error \/ status_code r <> 500)
  /\ (fault = None -> status_code r <> 500).

(** The handler [h] answers 500 only by [on_error]. *)
Definition caught_500 (fault : option nat) (db : database)
    (on_error : response) (h : handler) : Prop :=
  let r := fst (h (World db [] fault)) in
  r = on_error \/ status_code r <> 500.

(** ** One request per student and session *)

(** No two rows of [session_join_requests] are about the same session and
    the same student. *)
Definition one_request_per_pair (db : database) : Prop :=
  NoDup (map (fun r => (sjr_session_id r, sjr_requester_user_id r))
           (session_join_requests db)).

Definition pairs_unique (w : world) : Prop := one_request_per_pair (store w).

(** The same, and the student [uid] has no request for the session
    [sid]. *)
Definition vacant (sid uid : Z) (w : world) : Prop :=
  one_request_per_pair (store w)
  /\ filter (of_pair sid uid) (session_join_requests (store w)) = nil.

(** A statement that adds no join request. *)
Definition adds_no_request (st : statement) : bool :=
  match st with
  | INSERT_session_join_request _ _ _ _ => false
  | _ => true
  end.

(** A statement that leaves [session_join_requests] alone. *)
Definition off_requests (st : statement) : bool :=
  match st with
  | INSERT_session_join_request _ _ _ _ | UPDATE_request_status _ _ _
  | UPDATE_accepted_to_denied _ _ _ | DELETE_requests_of _ _
  | DELETE_session_join_requests _ => false
  | _ => true
  end.


(** ** The mailbox handlers of messageController.js *)

(** *** Their write statements *)

(** The writes of the mailbox, on [user_messages] and [messages]. *)
Inductive mail_statement : Type :=
| UPDATE_folder (folder : string) (user_id message_id : Z)
| DELETE_user_message (user_id message_id : Z)
| DELETE_trash (user_id : Z)
| DELETE_message (message_id : Z).

(** [WHERE user_id = ? AND message_id = ?]. *)
Definition owned (uid mid : Z) (um : user_message) : bool :=
  (um_user_id um =? uid) && (um_message_id um =? mid).

(** [WHERE user_id = ? AND folder = ?], on the folder names that the
    handlers write. *)
Definition in_folder (uid : Z) (folder : string) (um : user_message) : bool :=
  (um_user_id um =? uid) && String.eqb (um_folder um) folder.

(** [SET folder = ?]. *)
Definition set_folder (folder : string) (um : user_message) : user_message :=
  UserMessage (um_user_id um) (um_message_id um) folder (um_is_read um).

Definition mail_exec (st : mail_statement) (db : database) : database :=
  match st with
  | UPDATE_folder folder uid mid =>
      with_user_messages (update_where (owned uid mid) (set_folder folder)) db
  | DELETE_user_message uid mid =>
      with_user_messages (delete_where (owned uid mid)) db
  | DELETE_trash uid =>
      with_user_messages (delete_where (in_folder uid "trash")) db
  | DELETE_message mid =>
      with_messages (delete_where (fun m => m_message_id m =? mid))
        (fun n => n) db
  end.

(** The part of the result that the mailbox handlers look at: the rows
    that emptying the trash deleted. *)
Definition mail_result_of (st : mail_statement) (db : database) : result :=
  match st with
  | DELETE_trash uid =>
      Result 0 (count_where (in_folder uid "trash") (user_messages db))
  | _ => Result 0 0
  end.

(** A write of the mailbox.  [trace] lists the statements of the lifecycle
    handlers only; this one is seen by what it does to the store. *)
Definition amend (st : mail_statement) : M result :=
  fun w =>
    match attempt w with
    | Some w' =>
        (Done (mail_result_of st (store w')),
         World (mail_exec st (store w')) (trace w') (faults w'))
    | None => (Thrown, w)
    end.

(** *** getUnreadCount *)

(** [SELECT COUNT( * ) AS unread_count FROM user_messages
    WHERE user_id = ? AND folder = 'inbox' AND is_read = 0]. *)
Definition unread_count (uid : Z) (db : database) : Z :=
  count_where (fun um => in_folder uid "inbox" um && (um_is_read um =? 0))
    (user_messages db).

Definition getUnreadCount (userId : option Z) : handler :=
  if negb (JS.truthy_num userId) then
    reply (failure 401 "You must be logged in")
  else
  let userId := num userId in
  try_catch (
    result <- query (unread_count userId) ;;
    ret (Response 200
           [("success", JBool true); ("unreadCount", JNum result)]))
    (failure 500 "Failed to get unread count").

(** *** deleteMessage *)

(** [SELECT folder FROM user_messages WHERE user_id = ? AND message_id = ?]. *)
Definition select_folder (uid mid : Z) (db : database) : list string :=
  map um_folder (filter (owned uid mid) (user_messages db)).

(** [messageId] is the message that the route names. *)
Definition deleteMessage (userId : option Z) (messageId : Z) : handler :=
  if negb (JS.truthy_num userId) then
    reply (failure 401 "You must be logged in")
  else
  let userId := num userId in
  try_catch (
    userMessages <- query (select_folder userId messageId) ;;
    match userMessages with
    | nil => ret (failure 404 "Message not found")
    | currentFolder :: _ =>
    if String.eqb currentFolder "trash" then
      (* Permanently delete from user_messages *)
      amend (DELETE_user_message userId messageId) ;;;
      ret (success 200 "Message permanently deleted")
    else
      (* Move to trash *)
      amend (UPDATE_folder "trash" userId messageId) ;;;
      ret (success 200 "Message moved to trash")
    end)
    (failure 500 "Failed to delete message").

(** *** restoreFromTrash *)

(** [SELECT um.folder, m.sender_id, m.receiver_id FROM user_messages um
    INNER JOIN messages m ON um.message_id = m.message_id
    WHERE um.user_id = ? AND um.message_id = ? AND um.folder = 'trash']. *)
Definition select_trashed (uid mid : Z) (db : database)
    : list (user_message * message) :=
  flat_map (fun um =>
    map (fun m => (um, m))
      (filter (fun m => m_message_id m =? um_message_id um) (messages db)))
    (filter (fun um => owned uid mid um && String.eqb (um_folder um) "trash")
       (user_messages db)).

(** [SELECT COUNT( * ) as count FROM user_messages
    WHERE message_id = ? AND user_id != ?]. *)
Definition count_other_entries (mid uid : Z) (db : database) : Z :=
  count_where
    (fun um => (um_message_id um =? mid) && negb (um_user_id um =? uid))
    (user_messages db).

(** The folder that a restore picks: it is worked out from who sent the
    message and who else holds it, not remembered. *)
Definition originalFolder (count sender_id userId : Z) : string :=
  if (count =? 0) && (sender_id =? userId) then "drafts"
  else if sender_id =? userId then "sent"
  else "inbox".

Definition restoreFromTrash (userId : option Z) (messageId : Z) : handler :=
  if negb (JS.truthy_num userId) then
    reply (failure 401 "You must be logged in")
  else
  let userId := num userId in
  try_catch (
    userMessages <- query (select_trashed userId messageId) ;;
    match userMessages with
    | nil => ret (failure 404 "Message not found in trash")
    | msg :: _ =>
    otherEntries <- query (count_other_entries messageId userId) ;;
    let originalFolder :=
      originalFolder otherEntries (m_sender_id (snd msg)) userId in
    amend (UPDATE_folder originalFolder userId messageId) ;;;
    ret (success 200 ("Message restored to " ++ originalFolder))
    end)
    (failure 500 "Failed to restore message").

(** *** deleteDraft *)

(** [SELECT um.message_id FROM user_messages um
    WHERE um.user_id = ? AND um.message_id = ? AND um.folder = 'drafts']. *)
Definition select_draft (uid mid : Z) (db : database) : list Z :=
  map um_message_id
    (filter (fun um => owned uid mid um && String.eqb (um_folder um) "drafts")
       (user_messages db)).

(** [SELECT COUNT( * ) as count FROM user_messages WHERE message_id = ?]. *)
Definition count_entries (mid : Z) (db : database) : Z :=
  count_where (fun um => um_message_id um =? mid) (user_messages db).

Definition deleteDraft (userId : option Z) (messageId : Z) : handler :=
  if negb (JS.truthy_num userId) then
    reply (failure 401 "You must be logged in")
  else
  let userId := num userId in
  try_catch (
    drafts <- query (select_draft userId messageId) ;;
    if Nat.eqb (List.length drafts) 0 then
      ret (failure 404 "Draft not found")
    else
    amend (DELETE_user_message userId messageId) ;;;
    otherEntries <- query (count_entries messageId) ;;
    (if otherEntries =? 0 then
       (* No other references, safe to delete the message *)
       amend (DELETE_message messageId) ;;; ret tt
     else ret tt) ;;;
    ret (success 200 "Draft permanently deleted"))
    (failure 500 "Failed to delete draft").

(** *** emptyTrash *)

Definition emptyTrash (userId : option Z) : handler :=
  if negb (JS.truthy_num userId) then
    reply (failure 401 "You must be logged in")
  else
  let userId := num userId in
  try_catch (
    result <- amend (DELETE_trash userId) ;;
    ret (success 200
           ("Deleted " ++ JS.of_num (affectedRows result)
            ++ " messages from trash")))
    (failure 500 "Failed to empty trash").

(** *** Calls on the mailbox *)

Inductive mail_operation : Type :=
| UnreadCount (userId : option Z)
| DeleteMessage (userId : option Z) (messageId : Z)
| RestoreFromTrash (userId : option Z) (messageId : Z)
| DeleteDraft (userId : option Z) (messageId : Z)
| EmptyTrash (userId : option Z).

Definition mail_perform (op : mail_operation) : handler :=
  match op with
  | UnreadCount userId => getUnreadCount userId
  | DeleteMessage userId messageId => deleteMessage userId messageId
  | RestoreFromTrash userId messageId => restoreFromTrash userId messageId
  | DeleteDraft userId messageId => deleteDraft userId messageId
  | EmptyTrash userId => emptyTrash userId
  end.

(** Who a call on the mailbox is made as. *)
Definition mail_caller (op : mail_operation) : option Z :=
  match op with
  | UnreadCount userId | DeleteMessage userId _ | RestoreFromTrash userId _
  | DeleteDraft userId _ | EmptyTrash userId => userId
  end.

(** A run of calls, on the sessions or on the mailbox, each with its own
    fault, from one store to the next. *)
Fixpoint serve_all (H : host)
    (calls : list ((operation + mail_operation) * option nat))
    (db : database) : database :=
  match calls with
  | nil => db
  | (call, fault) :: rest =>
      serve_all H rest
        (store (snd (serve match call with
                           | inl op => perform H op
                           | inr op => mail_perform op
                           end fault db)))
  end.

(** No entry of a mailbox refers to a message that is gone. *)
Definition entries_refer (db : database) : Prop :=
  forall um : user_message,
    In um (user_messages db) ->
    exists m : message,
      In m (messages db) /\ m_message_id m = um_message_id um.

Definition mail_sound (w : world) : Prop := entries_refer (store w).

(** The same, and the message [mid] is there. *)
Definition mail_sound_with (mid : Z) (w : world) : Prop :=
  entries_refer (store w)
  /\ exists m : message, In m (messages (store w)) /\ m_message_id m = mid.

(** The same, and nobody holds the message [mid]. *)
Definition mail_sound_without (mid : Z) (w : world) : Prop :=
  entries_refer (store w)
  /\ forall um : user_message,
       In um (user_messages (store w)) -> um_message_id um <> mid.

(** A statement of the lifecycle handlers that leaves the mailboxes
    alone. *)
Definition off_mailboxes (st : statement) : bool :=
  match st with
  | INSERT_user_message _ _ _ _ => false
  | _ => true
  end.

(** ** Runs in which no query throws *)

Lemma append_assoc (a b c : string) : (a ++ b) ++ c = a ++ (b ++ c).
Proof.
  induction a as [|x a IH]; cbn; [reflexivity | now rewrite IH].
Qed.

(** A quoted text that a template puts in the middle of a message is
    found there, between its quotes. *)
Lemma quoted_inside (a b x c d : string) :
  exists before after : string,
    (a ++ b ++ JS.nl ++ JS.dquote ++ x ++ JS.dquote ++ c) ++ d
    = before ++ JS.dquote ++ x ++ JS.dquote ++ after.
Proof.
  exists (a ++ b ++ JS.nl), (c ++ d).
  rewrite !append_assoc. reflexivity.
Qed.

Lemma truthy_num_true (o : option Z) :
  JS.truthy_num o = true -> exists u, o = Some u /\ u <> 0.
Proof.
  destruct o as [u|]; cbn; [|discriminate].
  intros E. exists u. split; [reflexivity|].
  apply negb_true_iff in E. lia.
Qed.

Lemma truthy_num_some (u : Z) : u <> 0 -> JS.truthy_num (Some u) = true.
Proof. intros E. cbn. apply negb_true_iff. lia. Qed.

(** [parseInt] reads a number up to [2^53] in size as what it is. *)
Lemma parseInt_number_safe (n : Z) :
  Z.abs n <= 2 ^ 53 -> JS.parseInt_number n = Some n.
Proof.
  intros B. unfold JS.parseInt_number, JS.parseInt_magnitude.
  destruct (Z.ltb_spec n 0) as [Neg|Pos].
  - destruct (Z.leb_spec (- n) (2 ^ 53)) as [_|Big]; [|lia].
    cbn [option_map]. now rewrite Z.opp_involutive.
  - destruct (Z.leb_spec n (2 ^ 53)) as [_|Big]; [reflexivity | lia].
Qed.

Lemma succeeded_failure (c : Z) (m : string) : succeeded (failure c m) = false.
Proof. reflexivity. Qed.

Lemma succeeded_success (c : Z) (m : string) : succeeded (success c m) = true.
Proof. reflexivity. Qed.

(** Unfolds the plumbing of a run whose fault budget is [None]. *)
Ltac clean_run E :=
  cbv [serve try_catch reply bind ret throw optional_text query run attempt
       notify faults store trace result_of insertId affectedRows] in E.

(** Closes a branch in which the handler answered with a failure although
    the response is known to be a success. *)
Ltac refused E Hs :=
  clean_run E; apply pair_equal_spec in E; destruct E as [<- <-];
  rewrite ?succeeded_failure in Hs; discriminate Hs.

(** Names the response and the final world of a finished run. *)
Ltac finished E := apply pair_equal_spec in E; destruct E as [<- <-].

(** Rows selected by a filter satisfy it. *)
Lemma hd_filter {A : Type} (p : A -> bool) (l : list A) (x : A) (r : list A) :
  filter p l = x :: r -> In x l /\ p x = true.
Proof.
  intros E. apply filter_In. rewrite E. now left.
Qed.

Lemma update_where_in {A : Type} (p : A -> bool) (f : A -> A) (l : list A)
    (x : A) :
  In x l -> p x = true -> In (f x) (update_where p f l).
Proof.
  intros I P. unfold update_where. apply in_map_iff.
  exists x. rewrite P. auto.
Qed.

(** What the join of the denial query gives for its first row. *)
Lemma select_request_for_denial_hd (rid : Z) (db : database)
    (request : session_join_request) (s : session) (u : user)
    (rest : list (session_join_request * session * user)) :
  select_request_for_denial rid db = (request, s, u) :: rest ->
  In request (session_join_requests db)
  /\ sjr_request_id request = rid
  /\ s_session_id s = sjr_session_id request
  /\ u_user_id u = sjr_requester_user_id request.
Proof.
  intros E.
  assert (I : In (request, s, u) (select_request_for_denial rid db))
    by (rewrite E; now left).
  unfold select_request_for_denial in I.
  apply in_flat_map in I. destruct I as [r [Ir I]].
  apply in_flat_map in I. destruct I as [s' [Is I]].
  apply in_map_iff in I. destruct I as [u' [Eq Iu]].
  injection Eq as -> -> ->.
  apply filter_In in Ir, Is, Iu.
  destruct Ir as [Ir Er], Is as [_ Es], Iu as [_ Eu].
  repeat split; auto; lia.
Qed.

(** The rows that an [UPDATE ... SET status = ?, responded_at =
    CURRENT_TIMESTAMP WHERE request_id = ?] leaves: the rows with that id
    carry the status and the time, all else is as it was. *)
Lemma answered_rows (rid now : Z) (st : request_status)
    (l : list session_join_request) (request : session_join_request) :
  In request l -> sjr_request_id request = rid ->
  let l' := update_where (fun x => sjr_request_id x =? rid)
              (set_status st now) l in
  l' = map (fun x => if sjr_request_id x =? rid then answered st now x else x)
         l
  /\ (forall x, In x l' -> sjr_request_id x = rid ->
        sjr_status x = st /\ sjr_responded_at x = Some now)
  /\ (forall x, In x l' -> sjr_request_id x <> rid -> In x l)
  /\ In (answered st now request) l'.
Proof.
  intros I Id l'. split; [reflexivity|]. split; [|split].
  - intros x Ix Ex. unfold l', update_where in Ix. apply in_map_iff in Ix.
    destruct Ix as (y & Ey & _). destruct (sjr_request_id y =? rid) eqn:Y.
    + subst x. now split.
    + subst x. apply Z.eqb_neq in Y. contradiction.
  - intros x Ix Ex. unfold l', update_where in Ix. apply in_map_iff in Ix.
    destruct Ix as (y & Ey & Iy). destruct (sjr_request_id y =? rid) eqn:Y.
    + subst x. apply Z.eqb_eq in Y. contradiction.
    + now subst x.
  - unfold l'. change (answered st now request) with (set_status st now request).
    apply update_where_in; [exact I | now apply Z.eqb_eq].
Qed.

(** C8.  Denying a pending request: a deny that answers with success has
    turned the request (every row with that id) to [denied] and stamped it
    with the time of the call, all else in [session_join_requests] being as
    it was; it has added exactly one message, addressed to the requesting
    student, with its two copies, the message carrying the trimmed reason
    between quotes when one was given; and it has left [session_attendees]
    as it was: no enrollment is created and none is touched.  The reason of
    a deny that succeeds is text or is falsy. *)
Theorem deny_flips_request_and_notifies_student :
  forall (userId : option Z) (id : string) (reason : JS.value) (now : Z)
         (db : database) (r : response) (w : world),
    serve (denySessionRequest userId id reason now) None db = (r, w) ->
    succeeded r = true ->
    exists (requestId : Z) (request : session_join_request) (s : session)
           (student : user) (text : option string),
      JS.parseInt id = Some requestId
      /\ hd_error (select_request_for_denial requestId db)
         = Some (request, s, student)
      /\ sjr_status request = pending
      /\ match reason with
         | JS.Str t => text = Some t
         | JS.Other truthy => truthy = false /\ text = None
         end
      /\ session_join_requests (store w)
         = map (fun x => if sjr_request_id x =? requestId
                         then answered denied now x else x)
             (session_join_requests db)
      /\ (forall x, In x (session_join_requests (store w)) ->
            sjr_request_id x = requestId ->
            sjr_status x = denied /\ sjr_responded_at x = Some now)
      /\ In (SessionJoinRequest requestId (sjr_session_id request)
               (sjr_requester_user_id request) (sjr_tutor_user_id request)
               (sjr_message_id request) denied (Some now))
           (session_join_requests (store w))
      /\ messages (store w)
         = (messages db
            ++ [Message (next_message_id db) (num userId)
                  (sjr_requester_user_id request)
                  ("Request Update: " ++ s_title s) "normal"
                  (deny_content s text)])%list
      /\ user_messages (store w)
         = (user_messages db
            ++ [UserMessage (num userId) (next_message_id db) "sent" 1;
                UserMessage (sjr_requester_user_id request)
                  (next_message_id db) "inbox" 0])%list
      /\ (forall t : string,
            reason = JS.Str t -> JS.trim t <> "" ->
            exists before after : string,
              deny_content s text
              = before ++ JS.dquote ++ JS.trim t ++ JS.dquote ++ after)
      /\ session_attendees (store w) = session_attendees db.
Proof.
  intros userId id reason now db r w E Hs.
  unfold denySessionRequest in E.
  destruct (JS.truthy_num userId) eqn:A; cbn [negb] in E; [|refused E Hs].
  destruct (JS.parseInt id) as [rid|] eqn:P; [|refused E Hs].
  clean_run E.
  destruct (select_request_for_denial rid db)
    as [|[[request s] student] rest] eqn:Q; [refused E Hs|].
  destruct (negb (sjr_tutor_user_id request =? num userId)) eqn:O;
    [refused E Hs|].
  destruct (negb (status_eqb (sjr_status request) pending)) eqn:St;
    [refused E Hs|].
  destruct (select_request_for_denial_hd _ _ _ _ _ _ Q) as (Ir & Er & Es & Eu).
  destruct (answered_rows rid now denied _ request Ir Er)
    as (Rows & Stamped & _ & Mine).
  assert (Pending : sjr_status request = pending).
  { destruct (sjr_status request); cbn in St; congruence. }
  assert (Quoted : forall t : string,
            JS.trim t <> "" ->
            exists before after : string,
              deny_content s (Some t)
              = before ++ JS.dquote ++ JS.trim t ++ JS.dquote ++ after).
  { intros t T. unfold deny_content.
    assert (T1 : JS.truthy (JS.trim t) = true)
      by (destruct (JS.trim t); [congruence | reflexivity]).
    assert (T0 : JS.truthy t = true).
    { destruct t; [exfalso; apply T; reflexivity | reflexivity]. }
    rewrite T0, T1. cbn [andb]. apply quoted_inside. }
  unfold answered in Mine. rewrite Er in Mine.
  destruct reason as [t|[|]]; [|refused E Hs|]; finished E.
  - exists rid, request, s, student, (Some t).
    split; [reflexivity|]. split; [now rewrite Q|]. split; [exact Pending|].
    split; [reflexivity|]. split; [exact Rows|]. split; [exact Stamped|].
    split; [exact Mine|].
    split. { cbn. now rewrite Eu. }
    split. { cbn. now rewrite Eu, <- app_assoc. }
    split; [|reflexivity].
    intros t' Et. injection Et as <-. apply Quoted.
  - exists rid, request, s, student, None.
    split; [reflexivity|]. split; [now rewrite Q|]. split; [exact Pending|].
    split; [now split|]. split; [exact Rows|]. split; [exact Stamped|].
    split; [exact Mine|].
    split. { cbn. now rewrite Eu. }
    split. { cbn. now rewrite Eu, <- app_assoc. }
    split; [|reflexivity].
    intros t' Et. discriminate Et.
Qed.

Lemma deny_flips_request_and_notifies_student_witness :
  let rw := serve (denySessionRequest (Some 1) "5" (JS.Str " no room ") 99)
              None sample_db in
  map (fun x => (sjr_request_id x, sjr_status x, sjr_responded_at x))
    (session_join_requests (store (snd rw)))
  = [(5, denied, Some 99); (6, pending, None)]
  /\ map m_receiver_id (messages (store (snd rw))) = [2]
  /\ user_messages (store (snd rw))
     = [UserMessage 1 9 "sent" 1; UserMessage 2 9 "inbox" 0]
  /\ session_attendees (store (snd rw)) = [SessionAttendee 10 3].
Proof.
  intro rw.
  destruct (deny_flips_request_and_notifies_student
              (Some 1) "5" (JS.Str " no room ") 99 sample_db (fst rw) (snd rw)
              (surjective_pairing rw) eq_refl)
    as (rid & request & s & student & text & P & Q & _ & _ & Rows & _ & _
        & Sent & Copies & _ & Same).
  injection P as <-. injection Q as <- <- <-.
  rewrite Rows, Sent, Copies, Same. repeat split; reflexivity.
Defined.

(** What the join of the accept query gives for its first row. *)
Lemma select_request_details_hd (rid : Z) (db : database)
    (request : session_join_request) (s : session) (u : user) (cnt : Z)
    (rest : list (session_join_request * session * user * Z)) :
  select_request_details rid db = (request, s, u, cnt) :: rest ->
  In request (session_join_requests db)
  /\ sjr_request_id request = rid
  /\ In s (sessions db)
  /\ s_session_id s = sjr_session_id request
  /\ u_user_id u = sjr_requester_user_id request
  /\ cnt = enrolled_count db (s_session_id s).
Proof.
  intros E.
  assert (I : In (request, s, u, cnt) (select_request_details rid db))
    by (rewrite E; now left).
  unfold select_request_details in I.
  apply in_flat_map in I. destruct I as [r [Ir I]].
  apply in_flat_map in I. destruct I as [s' [Is I]].
  apply in_map_iff in I. destruct I as [u' [Eq Iu]].
  injection Eq as -> -> -> <-.
  apply filter_In in Ir, Is, Iu.
  destruct Ir as [Ir Er], Is as [Is Es], Iu as [_ Eu].
  assert (Es' : s_session_id s = sjr_session_id request) by lia.
  rewrite Es'. repeat split; auto; lia.
Qed.

Lemma status_eqb_eq (a b : request_status) : status_eqb a b = true <-> a = b.
Proof. destruct a, b; cbn; split; congruence. Qed.

(** C4, as the code has it.  Accepting a join request, for a signed-in
    caller and a request that is there with its session and its student.
    In the order in which the handler checks: a caller who is not the tutor
    recorded on the request is refused with 403, and so, for a request that
    records the tutor of its session, is whoever does not own the session;
    the recorded tutor is refused with 400 and the state of the request
    when it is not pending, and with 400 when the request is pending and
    the session holds as many students as its capacity or more.  None of
    these writes.  An accept that answers with success passed the three
    checks, turned the request (every row with that id) to [accepted]
    stamped with the time of the call, all else in [session_join_requests]
    being as it was, appended exactly one enrollment row for the session
    and the student, and added exactly one message, addressed to the
    student, with its two copies. *)
Theorem accept_checks_then_enrolls_and_notifies :
  forall (H : host) (tutor : Z) (id : string) (now : Z) (db : database)
         (r : response) (w : world) (requestId : Z)
         (request : session_join_request) (s : session) (student : user)
         (cnt : Z) (rest : list (session_join_request * session * user * Z)),
    serve (acceptSessionRequest H (Some tutor) id now) None db = (r, w) ->
    tutor <> 0 ->
    JS.parseInt id = Some requestId ->
    select_request_details requestId db = (request, s, student, cnt) :: rest ->
    (sjr_tutor_user_id request <> tutor ->
       r = failure 403 "You are not authorized to accept this request"
       /\ store w = db)
    /\ (sjr_tutor_user_id request = s_tutor_id s -> s_tutor_id s <> tutor ->
          r = failure 403 "You are not authorized to accept this request"
          /\ store w = db)
    /\ (sjr_tutor_user_id request = tutor -> sjr_status request <> pending ->
          r = failure 400 ("This request has already been "
                           ++ status_text (sjr_status request))
          /\ store w = db)
    /\ (sjr_tutor_user_id request = tutor -> sjr_status request = pending ->
          enrolled_count db (s_session_id s) >= s_capacity s ->
          r = failure 400
                "This session is already full. Cannot accept more students."
          /\ store w = db)
    /\ (succeeded r = true ->
          (sjr_tutor_user_id request = tutor /\ sjr_status request = pending
           /\ enrolled_count db (s_session_id s) < s_capacity s)
          /\ session_join_requests (store w)
             = map (fun x => if sjr_request_id x =? requestId
                             then answered accepted now x else x)
                 (session_join_requests db)
          /\ (forall x, In x (session_join_requests (store w)) ->
                sjr_request_id x = requestId ->
                sjr_status x = accepted /\ sjr_responded_at x = Some now)
          /\ In (SessionJoinRequest requestId (sjr_session_id request)
                   (sjr_requester_user_id request)
                   (sjr_tutor_user_id request) (sjr_message_id request)
                   accepted (Some now))
               (session_join_requests (store w))
          /\ session_attendees (store w)
             = (session_attendees db
                ++ [SessionAttendee (s_session_id s)
                      (sjr_requester_user_id request)])%list
          /\ messages (store w)
             = (messages db
                ++ [Message (next_message_id db) tutor
                      (sjr_requester_user_id request)
                      ("Request Accepted: " ++ s_title s) "normal"
                      (accept_content H s
                         match select_user tutor db with
                         | t :: _ => full_name t
                         | nil => "Your tutor"
                         end)])%list
          /\ user_messages (store w)
             = (user_messages db
                ++ [UserMessage tutor (next_message_id db) "sent" 1;
                    UserMessage (sjr_requester_user_id request)
                      (next_message_id db) "inbox" 0])%list).
Proof.
  intros H tutor id now db r w rid request s student cnt rest E T P Q.
  destruct (select_request_details_hd _ _ _ _ _ _ _ Q)
    as (Ir & Er & Is & Es & Eu & Ec).
  destruct (answered_rows rid now accepted _ request Ir Er)
    as (Rows & Stamped & _ & Mine).
  unfold answered in Mine. rewrite Er in Mine.
  unfold acceptSessionRequest in E.
  rewrite (truthy_num_some _ T), P in E. cbn [negb num] in E.
  clean_run E. rewrite Q in E.
  destruct (sjr_tutor_user_id request =? tutor) eqn:O; cbn [negb] in E.
  2:{ apply Z.eqb_neq in O. finished E.
      split; [intros _; now split|].
      split; [intros _ _; now split|].
      split; [intros C; contradiction|].
      split; [intros C; contradiction|].
      intros Hs. rewrite succeeded_failure in Hs. discriminate Hs. }
  apply Z.eqb_eq in O.
  destruct (status_eqb (sjr_status request) pending) eqn:St; cbn [negb] in E.
  2:{ finished E.
      assert (N : sjr_status request <> pending).
      { intros C. apply status_eqb_eq in C. congruence. }
      split; [intros C; contradiction|].
      split; [intros D C; rewrite <- D in C; contradiction|].
      split; [intros _ _; now split|].
      split; [intros _ C; contradiction|].
      intros Hs. rewrite succeeded_failure in Hs. discriminate Hs. }
  apply status_eqb_eq in St.
  destruct (cnt >=? s_capacity s) eqn:Full.
  { finished E.
    split; [intros C; contradiction|].
    split; [intros D C; rewrite <- D in C; contradiction|].
    split; [intros _ C; contradiction|].
    split; [intros _ _ _; now split|].
    intros Hs. rewrite succeeded_failure in Hs. discriminate Hs. }
  assert (Room : enrolled_count db (s_session_id s) < s_capacity s).
  { rewrite <- Ec.
    destruct (Z.geb_spec cnt (s_capacity s)); [discriminate | lia]. }
  destruct (negb (List.length
              (select_enrollment (sjr_session_id request) (u_user_id student)
                 db) =? 0)%nat) eqn:Dup.
  { finished E.
    split; [intros C; contradiction|].
    split; [intros D C; rewrite <- D in C; contradiction|].
    split; [intros _ C; contradiction|].
    split; [intros _ _ G; lia|].
    intros Hs. rewrite succeeded_failure in Hs. discriminate Hs. }
  finished E.
  split; [intros C; contradiction|].
  split; [intros D C; rewrite <- D in C; contradiction|].
  split; [intros _ C; contradiction|].
  split; [intros _ _ G; lia|].
  intros _. split; [auto|].
  split; [exact Rows|]. split; [exact Stamped|]. split; [exact Mine|].
  split. { cbn. now rewrite Es, Eu. }
  split. { cbn. now rewrite Eu. }
  cbn. now rewrite Eu, <- app_assoc.
Qed.

Lemma accept_checks_then_enrolls_and_notifies_witness :
  let rw := serve (acceptSessionRequest sample_host (Some 1) "5" 99)
              None sample_db in
  succeeded (fst rw) = true
  /\ map (fun x => (sjr_request_id x, sjr_status x, sjr_responded_at x))
       (session_join_requests (store (snd rw)))
     = [(5, accepted, Some 99); (6, pending, None)]
  /\ session_attendees (store (snd rw))
     = [SessionAttendee 10 3; SessionAttendee 10 2]
  /\ map m_receiver_id (messages (store (snd rw))) = [2]
  /\ user_messages (store (snd rw))
     = [UserMessage 1 9 "sent" 1; UserMessage 2 9 "inbox" 0].
Proof.
  intro rw.
  destruct (accept_checks_then_enrolls_and_notifies
              sample_host 1 "5" 99 sample_db (fst rw) (snd rw) 5
              (SessionJoinRequest 5 10 2 1 7 pending None)
              (Session 10 1 "Algebra" "2026-01-01 10:00:00"
                 "2026-01-01 11:00:00" "open" 2 None "scheduled")
              (User 2 "Bob" "Stone" "Student") 1 nil)
    as (_ & _ & _ & _ & Ok);
    [reflexivity | lia | reflexivity | reflexivity |].
  destruct (Ok eq_refl) as (_ & Rows & _ & _ & A & M & C).
  split; [reflexivity|]. rewrite Rows, A, M, C. repeat split; reflexivity.
Defined.

(** C4, counterexample to the claim as stated.  Request 6 is for session
    10, which Ada (1) owns, and names Bob (2) as its tutor.  Bob, who does
    not own the session, accepts it, and the student is enrolled; Ada, who
    owns it, is refused with 403. *)
Lemma owner_is_refused_and_recorded_tutor_accepts :
  let by_bob := serve (acceptSessionRequest sample_host (Some 2) "6" 99)
                  None misfiled_db in
  let by_ada := serve (acceptSessionRequest sample_host (Some 1) "6" 99)
                  None misfiled_db in
  map (fun s => (s_session_id s, s_tutor_id s)) (sessions misfiled_db)
  = [(10, 1)]
  /\ map (fun x => (sjr_request_id x, sjr_session_id x, sjr_tutor_user_id x))
       (session_join_requests misfiled_db)
     = [(6, 10, 2)]
  /\ succeeded (fst by_bob) = true
  /\ session_attendees (store (snd by_bob)) = [SessionAttendee 10 4]
  /\ fst by_ada = failure 403 "You are not authorized to accept this request".
Proof.
  intros by_bob by_ada. repeat split; reflexivity.
Qed.

Lemma select_session_with_tutor_hd (sid : Z) (db : database) (s : session)
    (u : user) (rest : list (session * user)) :
  select_session_with_tutor sid db = (s, u) :: rest ->
  In s (sessions db) /\ s_session_id s = sid /\ u_user_id u = s_tutor_id s.
Proof.
  intros E.
  assert (I : In (s, u) (select_session_with_tutor sid db))
    by (rewrite E; now left).
  unfold select_session_with_tutor in I.
  apply in_flat_map in I. destruct I as [s' [Is I]].
  apply in_map_iff in I. destruct I as [u' [Eq Iu]].
  injection Eq as -> ->.
  apply filter_In in Is, Iu. destruct Is as [Is Es], Iu as [_ Eu].
  repeat split; auto; lia.
Qed.

Lemma filter_delete_where {A : Type} (p : A -> bool) (l : list A) :
  filter p (delete_where p l) = nil.
Proof.
  unfold delete_where. induction l as [|x l IH]; cbn; [reflexivity|].
  destruct (p x) eqn:E; cbn; [assumption|]. now rewrite E.
Qed.

(** After [UPDATE ... SET status = 'denied' WHERE <pair> AND status =
    'accepted'], no request of the pair is accepted. *)
Lemma no_accepted_left (sid uid now : Z) (l : list session_join_request)
    (x : session_join_request) :
  In x (update_where
          (fun r => of_pair sid uid r && status_eqb (sjr_status r) accepted)
          (set_status denied now) l) ->
  of_pair sid uid x = true -> sjr_status x <> accepted.
Proof.
  unfold update_where. intros I P. apply in_map_iff in I.
  destruct I as [y [E _]].
  destruct (of_pair sid uid y && status_eqb (sjr_status y) accepted) eqn:C.
  - subst x. cbn. discriminate.
  - subst y. rewrite P in C. cbn in C.
    intros S. rewrite S in C. discriminate C.
Qed.

(** C7.  A student unenrolling themself, when no query throws.  When no
    enrollment row exists for the session and the student the call fails
    and writes nothing.  When the session is there with its tutor and the
    student has an enrollment row in it, the call succeeds.  A call that
    answers with success found the session, removed every enrollment row of
    the pair, turned the pair's accepted requests into denied ones, stamped
    with the time of the call, so that none of the pair stays accepted, all
    else in [session_join_requests] being as it was, and added exactly one
    message, sent by the student and received by the tutor of the session,
    with its two copies. *)
Theorem unenroll_requires_enrollment_and_notifies_tutor :
  forall (H : host) (student id now : Z) (db : database)
         (r : response) (w : world),
    serve (unenrollFromSession H (Some student) id now) None db = (r, w) ->
    (select_enrollment id student db = nil ->
       succeeded r = false /\ store w = db)
    /\ (student <> 0 -> select_session_with_tutor id db <> nil ->
        select_enrollment id student db <> nil ->
        r = success 200 "Successfully unenrolled from the session")
    /\ (succeeded r = true ->
          exists (s : session) (tutor : user),
            hd_error (select_session_with_tutor id db) = Some (s, tutor)
            /\ s_session_id s = id
            /\ session_attendees (store w)
               = delete_where (attends id student) (session_attendees db)
            /\ select_enrollment id student (store w) = nil
            /\ session_join_requests (store w)
               = map (fun x => if of_pair id student x
                                  && status_eqb (sjr_status x) accepted
                               then answered denied now x else x)
                   (session_join_requests db)
            /\ (forall x, In x (session_join_requests (store w)) ->
                  of_pair id student x = true -> sjr_status x <> accepted)
            /\ messages (store w)
               = (messages db
                  ++ [Message (next_message_id db) student (s_tutor_id s)
                        ("Student Unenrolled: " ++ s_title s) "normal"
                        (unenrolled_content H s
                           match select_user student db with
                           | u :: _ => full_name u
                           | nil => "A student"
                           end)])%list
            /\ user_messages (store w)
               = (user_messages db
                  ++ [UserMessage student (next_message_id db) "sent" 1;
                      UserMessage (s_tutor_id s) (next_message_id db)
                        "inbox" 0])%list).
Proof.
  intros H student id now db r w E.
  unfold unenrollFromSession in E.
  destruct (JS.truthy_num (Some student)) eqn:A; cbn [negb num] in E.
  2:{ clean_run E. finished E.
      split; [auto|]. split.
      - intros N. apply truthy_num_some in N. congruence.
      - intros Hs. rewrite succeeded_failure in Hs. discriminate Hs. }
  clean_run E.
  destruct (select_session_with_tutor id db) as [|[s tutor] rest] eqn:Q.
  { finished E. split; [auto|]. split; [intros _ C; now contradiction C|].
    intros Hs. rewrite succeeded_failure in Hs. discriminate Hs. }
  destruct (select_enrollment id student db) as [|a l] eqn:En;
    cbn [List.length Nat.eqb] in E.
  { finished E. split; [auto|]. split; [intros _ _ C; now contradiction C|].
    intros Hs. rewrite succeeded_failure in Hs. discriminate Hs. }
  finished E. split; [discriminate|]. split; [reflexivity|]. intros _.
  destruct (select_session_with_tutor_hd _ _ _ _ _ Q) as (Is & Es & Eu).
  exists s, tutor.
  split; [reflexivity|]. split; [assumption|].
  split; [reflexivity|].
  split. { unfold select_enrollment. cbn. apply filter_delete_where. }
  split; [reflexivity|].
  split; [cbn; intros x; apply no_accepted_left|].
  split; [reflexivity|].
  cbn. now rewrite <- app_assoc.
Qed.

Lemma unenroll_requires_enrollment_and_notifies_tutor_witness :
  let enrolled :=
    store (snd (serve (acceptSessionRequest sample_host (Some 1) "5" 99)
                  None sample_db)) in
  let rw := serve (unenrollFromSession sample_host (Some 2) 10 120)
              None enrolled in
  session_attendees enrolled = [SessionAttendee 10 3; SessionAttendee 10 2]
  /\ fst rw = success 200 "Successfully unenrolled from the session"
  /\ session_attendees (store (snd rw)) = [SessionAttendee 10 3]
  /\ map (fun x => (sjr_request_id x, sjr_status x, sjr_responded_at x))
       (session_join_requests (store (snd rw)))
     = [(5, denied, Some 120); (6, pending, None)]
  /\ map (fun m => (m_sender_id m, m_receiver_id m))
       (messages (store (snd rw)))
     = [(1, 2); (2, 1)]
  /\ skipn 2 (user_messages (store (snd rw)))
     = [UserMessage 2 10 "sent" 1; UserMessage 1 10 "inbox" 0].
Proof.
  intros enrolled rw.
  destruct (unenroll_requires_enrollment_and_notifies_tutor
              sample_host 2 10 120 enrolled (fst rw) (snd rw)
              (surjective_pairing rw))
    as (_ & Succeeds & Effect).
  assert (Ok : fst rw = success 200 "Successfully unenrolled from the session")
    by (apply Succeeds; [lia | discriminate | discriminate]).
  destruct Effect as (s & tutor & Q & _ & Att & _ & Req & _ & Msg & Copies);
    [now rewrite Ok|].
  injection Q as <- <-.
  split; [reflexivity|]. split; [exact Ok|].
  rewrite Att, Req, Msg, Copies. repeat split; reflexivity.
Defined.

(** ** A program logic for the handlers *)

Lemma attempt_some (w w' : world) :
  attempt w = Some w' ->
  store w' = store w /\ trace w' = trace w
  /\ (faults w = None -> faults w' = None).
Proof.
  unfold attempt. destruct w as [db t [[|n]|]]; cbn; intros E;
    try discriminate; injection E as <-; cbn; repeat split; congruence.
Qed.

Lemma steady_attempt (P : world -> Prop) (w w' : world) :
  steady P -> P w -> attempt w = Some w' -> P w'.
Proof.
  intros S Pw At. destruct (attempt_some _ _ At) as (Es & Et & Ef).
  destruct w as [db t f], w' as [db' t' f']. cbn in *. subst.
  now apply (S db t f f').
Qed.

Section Rules.

Context {A B : Type}.

Lemma triple_ret (P : world -> Prop) (a : A) (Q : A -> world -> Prop)
    (E : world -> Prop) :
  (forall w, P w -> Q a w) -> triple P (ret a) Q E.
Proof. intros I w Pw. cbn. auto. Qed.

(** A throw of the handler's own leaves the world as it is. *)
Lemma triple_throw (P : world -> Prop) (Q : A -> world -> Prop)
    (E : world -> Prop) :
  (forall w, P w -> E w) -> triple P throw Q E.
Proof. intros I w Pw. cbn. auto. Qed.

Lemma triple_bind (P : world -> Prop) (m : M A) (k : A -> M B)
    (R : A -> world -> Prop) (Q : B -> world -> Prop) (E : world -> Prop) :
  triple P m R E -> (forall a, triple (R a) (k a) Q E) ->
  triple P (bind m k) Q E.
Proof.
  intros Tm Tk w Pw. unfold bind. specialize (Tm w Pw).
  destruct (m w) as [[a|] w1]; [|assumption].
  now apply Tk.
Qed.

Lemma triple_weaken (P P' : world -> Prop) (m : M A)
    (Q Q' : A -> world -> Prop) (E E' : world -> Prop) :
  triple P' m Q' E' ->
  (forall w, P w -> P' w) -> (forall a w, Q' a w -> Q a w) ->
  (forall w, E' w -> E w) ->
  triple P m Q E.
Proof.
  intros T IP IQ IE w Pw. specialize (T w (IP w Pw)).
  destruct (m w) as [[a|] w1]; auto.
Qed.

Lemma triple_pre (P P' : world -> Prop) (m : M A) (Q : A -> world -> Prop)
    (E : world -> Prop) :
  (forall w, P w -> P' w) -> triple P' m Q E -> triple P m Q E.
Proof. intros I T w Pw. exact (T w (I w Pw)). Qed.

(** A fact that the precondition entails may be assumed outright. *)
Lemma triple_assume (P : world -> Prop) (m : M A) (Q : A -> world -> Prop)
    (E : world -> Prop) (fact : Prop) :
  (forall w, P w -> fact) -> (fact -> triple P m Q E) -> triple P m Q E.
Proof. intros F T w Pw. exact (T (F w Pw) w Pw). Qed.

(** A query leaves a steady assertion in place and hands over the rows it
    selected from the store as it is then. *)
Lemma triple_query (P : world -> Prop) (q : database -> A)
    (E : world -> Prop) :
  steady P -> (forall w, P w -> E w) ->
  triple P (query q) (fun a w => P w /\ a = q (store w)) E.
Proof.
  intros S PE w Pw. unfold query.
  destruct (attempt w) as [w'|] eqn:At; [|auto].
  split; [now apply (steady_attempt P w)|reflexivity].
Qed.

End Rules.

(** A write statement goes from [P] to [Q] when executing it does. *)
Lemma triple_run (P : world -> Prop) (st : statement)
    (Q : result -> world -> Prop) (E : world -> Prop) :
  steady P -> (forall w, P w -> E w) ->
  (forall w, P w ->
     Q (result_of st (store w))
       (World (exec st (store w)) (trace w ++ [st]) (faults w))) ->
  triple P (run st) Q E.
Proof.
  intros S PE PQ w Pw. unfold run.
  destruct (attempt w) as [w'|] eqn:At; [|auto].
  apply (PQ w'). now apply (steady_attempt P w).
Qed.

Section Keeping.

Variable Inv : world -> Prop.
Hypothesis Inv_steady : steady Inv.

Lemma keeps_ret {A : Type} (a : A) : keeps Inv (ret a).
Proof. apply triple_ret. auto. Qed.

Lemma keeps_throw {A : Type} : keeps Inv (@throw A).
Proof. apply triple_throw. auto. Qed.

Lemma keeps_optional_text (v : JS.value) : keeps Inv (optional_text v).
Proof.
  destruct v as [t|[|]]; cbn [optional_text];
    [apply keeps_ret | apply keeps_throw | apply keeps_ret].
Qed.

Lemma keeps_bind {A B : Type} (m : M A) (k : A -> M B) :
  keeps Inv m -> (forall a, keeps Inv (k a)) -> keeps Inv (bind m k).
Proof. intros Km Kk. now apply (triple_bind Inv m k (fun _ => Inv)). Qed.

Lemma keeps_query {A : Type} (q : database -> A) : keeps Inv (query q).
Proof.
  apply (triple_weaken Inv Inv (query q) _
           (fun a w => Inv w /\ a = q (store w)) Inv Inv); auto.
  - now apply triple_query.
  - now intros a w [I _].
Qed.

Lemma keeps_run (st : statement) :
  (forall w, Inv w ->
     Inv (World (exec st (store w)) (trace w ++ [st]) (faults w))) ->
  keeps Inv (run st).
Proof. intros I. apply triple_run; auto. Qed.

Lemma keeps_for_of {A : Type} (xs : list A) (body : A -> M unit) :
  (forall x, keeps Inv (body x)) -> keeps Inv (for_of xs body).
Proof.
  intros Kb. induction xs as [|x xs IH]; cbn [for_of].
  - apply keeps_ret.
  - apply keeps_bind; [apply Kb | intros _; exact IH].
Qed.

Lemma maintains_reply (r : response) : maintains Inv (reply r).
Proof. intros w I. exact I. Qed.

Lemma maintains_try_catch (body : M response) (on_error : response) :
  keeps Inv body -> maintains Inv (try_catch body on_error).
Proof.
  intros K w I. unfold try_catch. specialize (K w I).
  destruct (body w) as [[r|] w']; exact K.
Qed.

End Keeping.

(** One step down a handler, by its outermost construct; what a walk leaves
    is to show that each write statement keeps the invariant. *)
Ltac walk_step steadiness :=
  first
    [ apply maintains_reply
    | apply maintains_try_catch
    | apply keeps_ret
    | apply keeps_optional_text
    | apply (keeps_query _ steadiness)
    | apply keeps_bind; [|intros ?]
    | apply keeps_for_of; intros ?
    | match goal with
      | |- maintains _ (if ?c then _ else _) => destruct c
      | |- maintains _ (match ?x with _ => _ end) => destruct x
      | |- keeps _ (if ?c then _ else _) => destruct c
      | |- keeps _ (match ?x with _ => _ end) => destruct x
      | |- keeps _ (let _ := _ in _) => cbv zeta
      | |- maintains _ (let _ := _ in _) => cbv zeta
      end ].

(** ** Notifications *)

Lemma filed_steady (db0 : database) : steady (filed db0).
Proof.
  intros db t f f' F [Fn N]. split; [cbn in *; auto | exact N].
Qed.

Lemma filed_notify (db0 : database) (sender receiver : Z)
    (subject message_type content : string) :
  keeps (filed db0) (notify sender receiver subject message_type content).
Proof.
  intros [db t f] [F [new [Em Eu]]]. cbn in F. subst f.
  cbv [notify bind run ret attempt faults store trace result_of insertId].
  split; [reflexivity|].
  exists (new ++ [Message (next_message_id db) sender receiver subject
                    message_type content])%list.
  cbn in *. rewrite Em, Eu, flat_map_app, <- !app_assoc. cbn. auto.
Qed.

Lemma filed_run (db0 : database) (st : statement) :
  off_mail st = true -> keeps (filed db0) (run st).
Proof.
  intros O. apply keeps_run; [apply filed_steady|].
  intros [db t f] [F [new [Em Eu]]].
  split; [exact F|]. exists new.
  destruct st; try discriminate O; cbn in *; auto.
Qed.

Ltac walk_mail db0 :=
  repeat first
    [ apply filed_notify
    | apply filed_run; reflexivity
    | walk_step (filed_steady db0) ].

Lemma filed_perform (H : host) (op : operation) (db0 : database) :
  maintains (filed db0) (perform H op).
Proof.
  destruct op; cbn [perform].
  - unfold sendSessionRequest. walk_mail db0.
  - unfold acceptSessionRequest. walk_mail db0.
  - unfold denySessionRequest. walk_mail db0.
  - unfold unenrollFromSession. walk_mail db0.
  - unfold removeStudentFromSession. walk_mail db0.
  - unfold deleteSession. walk_mail db0.
Qed.

(** ** Capacity *)

Lemma count_where_filter {A : Type} (p q : A -> bool) (l : list A) :
  count_where p (filter q l) <= count_where p l.
Proof.
  unfold count_where. apply inj_le.
  induction l as [|x l IH]; cbn [filter]; [lia|].
  destruct (q x); cbn [filter]; destruct (p x); cbn [List.length]; lia.
Qed.

Lemma count_where_app {A : Type} (p : A -> bool) (l l' : list A) :
  count_where p (l ++ l') = count_where p l + count_where p l'.
Proof.
  unfold count_where. rewrite filter_app, length_app. lia.
Qed.

(** Deleting rows keeps a key a key. *)
Lemma key_survives_delete {Row Key : Type} (rows : list Row)
    (key : Row -> Key) (keep : Row -> bool) :
  NoDup (map key rows) -> NoDup (map key (filter keep rows)).
Proof.
  induction rows as [|x rows IH]; cbn [map filter]; intros N; [constructor|].
  inversion N as [|y ys Fresh Nd]; subst.
  destruct (keep x); cbn [map]; [|auto].
  constructor; [|auto].
  intros I. apply Fresh. apply in_map_iff in I. destruct I as [z [E Iz]].
  apply in_map_iff. exists z. split; [exact E|].
  apply filter_In in Iz. tauto.
Qed.

Lemma NoDup_map_injective {A B : Type} (f : A -> B) (l : list A) (a b : A) :
  NoDup (map f l) -> In a l -> In b l -> f a = f b -> a = b.
Proof.
  induction l as [|x l IH]; cbn; intros N Ia Ib E; [contradiction|].
  inversion N as [|y ys Nin Nd]; subst.
  destruct Ia as [->|Ia], Ib as [->|Ib]; auto.
  - exfalso. apply Nin. rewrite E. now apply in_map.
  - exfalso. apply Nin. rewrite <- E. now apply in_map.
Qed.

Lemma ledger_steady : steady ledger_sound.
Proof. intros db t f f' _ L. exact L. Qed.

Lemma has_room_steady (s : session) : steady (has_room s).
Proof. intros db t f f' _ L. exact L. Qed.

(** Deleting enrollment rows keeps the invariant. *)
Lemma ledger_fewer_attendees (db : database) (p : session_attendee -> bool) :
  keyed db /\ capacity_respected db ->
  keyed (with_session_attendees (delete_where p) db)
  /\ capacity_respected (with_session_attendees (delete_where p) db).
Proof.
  intros [K C]. split; [exact K|].
  intros s Is. cbn in Is. specialize (C s Is).
  unfold enrolled_count in *. cbn. unfold delete_where.
  pose proof (count_where_filter
                (fun a => sa_session_id a =? s_session_id s)
                (fun x => negb (p x)) (session_attendees db)).
  lia.
Qed.

Lemma ledger_run (st : statement) :
  harmless st = true -> keeps ledger_sound (run st).
Proof.
  intros Hm. apply keeps_run; [apply ledger_steady|].
  intros [db t f] L. unfold ledger_sound in *. cbn [store] in *.
  destruct st; try discriminate Hm; try exact L;
    try (cbn [exec]; now apply ledger_fewer_attendees).
  (* DELETE_session *)
  destruct L as [K C]. cbn [exec]. split.
  - unfold keyed. cbn. unfold delete_where. now apply key_survives_delete.
  - intros s Is. cbn in Is. unfold delete_where in Is.
    apply filter_In in Is. destruct Is as [Is _]. exact (C s Is).
Qed.

Lemma ledger_notify (sender receiver : Z)
    (subject message_type content : string) :
  keeps ledger_sound (notify sender receiver subject message_type content).
Proof.
  unfold notify.
  repeat first [ apply keeps_ret | apply ledger_run; reflexivity
               | apply keeps_bind; [|intros ?] | cbv zeta ].
Qed.

Ltac walk_ledger :=
  repeat first
    [ apply ledger_notify
    | apply ledger_run; reflexivity
    | walk_step ledger_steady ].

(** Enrolling one more student in a session that has room. *)
Lemma ledger_enroll (s : session) (uid : Z) (db : database) :
  keyed db -> capacity_respected db -> In s (sessions db) ->
  enrolled_count db (s_session_id s) < s_capacity s ->
  capacity_respected (exec (INSERT_session_attendee (s_session_id s) uid) db).
Proof.
  intros K C Is Room s' Is'. cbn in Is'.
  unfold enrolled_count. cbn [exec with_session_attendees session_attendees].
  rewrite count_where_app.
  fold (enrolled_count db (s_session_id s')).
  unfold count_where at 1. cbn [filter sa_session_id].
  destruct (s_session_id s =? s_session_id s') eqn:E; cbn [List.length].
  - apply Z.eqb_eq in E.
    assert (s = s') by (apply (NoDup_map_injective s_session_id _ _ _ K);
                        assumption).
    subst s'. lia.
  - specialize (C s' Is'). lia.
Qed.

Lemma ledger_accept (H : host) (userId : option Z) (id : string) (now : Z) :
  maintains ledger_sound (acceptSessionRequest H userId id now).
Proof.
  unfold acceptSessionRequest.
  destruct (negb (JS.truthy_num userId)); [apply maintains_reply|].
  destruct (JS.parseInt id) as [rid|]; [|apply maintains_reply].
  cbv zeta. apply maintains_try_catch.
  eapply triple_bind.
  { apply triple_query; [apply ledger_steady | auto]. }
  intros [|[[[request s] student] cnt] rest].
  { apply triple_ret. now intros w [L _]. }
  destruct (negb (sjr_tutor_user_id request =? num userId)).
  { apply triple_ret. now intros w [L _]. }
  destruct (negb (status_eqb (sjr_status request) pending)).
  { apply triple_ret. now intros w [L _]. }
  destruct (cnt >=? s_capacity s) eqn:Full.
  { apply triple_ret. now intros w [L _]. }
  (* the row names its own session: the insert goes to [s] *)
  apply (triple_assume _ _ _ _ (s_session_id s = sjr_session_id request)).
  { intros w [_ Q]. symmetry in Q.
    now destruct (select_request_details_hd _ _ _ _ _ _ _ Q)
      as (_ & _ & _ & Es & _). }
  intros <-.
  apply (triple_pre _ (has_room s)).
  { intros w [L Q]. symmetry in Q.
    destruct (select_request_details_hd _ _ _ _ _ _ _ Q)
      as (_ & _ & Is & _ & _ & Ec).
    split; [exact L|]. split; [exact Is|].
    rewrite <- Ec.
    destruct (Z.geb_spec cnt (s_capacity s)); [discriminate | lia]. }
  eapply triple_bind.
  { apply triple_query; [apply has_room_steady | now intros w [L _]]. }
  intros existing.
  apply (triple_pre _ (has_room s)); [now intros w [R _]|].
  destruct (negb (List.length existing =? 0)%nat).
  { apply (triple_pre _ ledger_sound); [now intros w [L _]|].
    walk_ledger. }
  eapply triple_bind.
  { apply (triple_run _ _ (fun _ => has_room s) ledger_sound).
    - apply has_room_steady.
    - now intros w [L _].
    - intros [db t f] R. exact R. }
  intros ?; cbv beta.
  eapply triple_bind.
  { apply (triple_run _ _ (fun _ => ledger_sound) ledger_sound).
    - apply has_room_steady.
    - now intros w [L _].
    - intros [db t f] [[K C] [Is Room]]. cbn [store] in *.
      split; [exact K|]. now apply ledger_enroll. }
  intros ?; cbv beta. walk_ledger.
Qed.

Lemma ledger_perform (H : host) (op : operation) :
  maintains ledger_sound (perform H op).
Proof.
  destruct op; cbn [perform].
  - unfold sendSessionRequest. walk_ledger.
  - apply ledger_accept.
  - unfold denySessionRequest. walk_ledger.
  - unfold unenrollFromSession. walk_ledger.
  - unfold removeStudentFromSession. walk_ledger.
  - unfold deleteSession. walk_ledger.
Qed.

Lemma ledger_perform_all (H : host) (calls : list (operation * option nat))
    (db : database) :
  keyed db -> capacity_respected db ->
  keyed (perform_all H calls db)
  /\ capacity_respected (perform_all H calls db).
Proof.
  revert db. induction calls as [|[op fault] calls IH]; intros db K C;
    cbn [perform_all]; [now split|].
  destruct (ledger_perform H op (World db [] fault)) as [K' C'];
    [now split|].
  now apply IH.
Qed.

(** The owner of a pending request is refused, and nothing is written, when
    the session is full. *)
Lemma accept_full (H : host) (tutor : Z) (id : string) (now : Z)
    (db : database) (requestId : Z) (request : session_join_request)
    (s : session) (student : user) (cnt : Z)
    (rest : list (session_join_request * session * user * Z)) :
  tutor <> 0 ->
  JS.parseInt id = Some requestId ->
  select_request_details requestId db = (request, s, student, cnt) :: rest ->
  sjr_tutor_user_id request = tutor ->
  sjr_status request = pending ->
  enrolled_count db (s_session_id s) >= s_capacity s ->
  serve (acceptSessionRequest H (Some tutor) id now) None db
  = (failure 400 "This session is already full. Cannot accept more students.",
     World db [] None).
Proof.
  intros T P Q O St Full.
  destruct (select_request_details_hd _ _ _ _ _ _ _ Q)
    as (_ & _ & _ & _ & _ & Ec).
  unfold acceptSessionRequest.
  rewrite (truthy_num_some _ T), P. cbn [negb num].
  cbv [serve try_catch bind query attempt faults store trace ret].
  rewrite Q, O, Z.eqb_refl, St. cbn [negb status_eqb].
  destruct (Z.geb_spec cnt (s_capacity s)); [reflexivity | lia].
Qed.

(** A request to join a full session is refused, and nothing is written. *)
Lemma request_full (H : host) (userId : option Z) (b : session_request_body)
    (db : database) (s : session) (rest : list session)
    (r : response) (w : world) :
  select_session (num (sessionId b)) db = s :: rest ->
  enrolled_count db (s_session_id s) >= s_capacity s ->
  serve (sendSessionRequest H userId b) None db = (r, w) ->
  succeeded r = false /\ store w = db
  /\ (JS.truthy_num userId = true -> JS.truthy_num (sessionId b) = true ->
      JS.truthy_num (tutorId b) = true ->
      JS.parseInt_number (num (tutorId b)) = Some (s_tutor_id s) ->
      num userId <> s_tutor_id s ->
      r = failure 400 "This session is already full").
Proof.
  intros Q Full E. unfold sendSessionRequest in E.
  destruct (JS.truthy_num userId); cbn [negb] in E.
  2:{ clean_run E. finished E.
      split; [reflexivity|]. split; [reflexivity|]. discriminate. }
  destruct (JS.truthy_num (sessionId b)); cbn [negb orb] in E.
  2:{ clean_run E. finished E.
      split; [reflexivity|]. split; [reflexivity|]. discriminate. }
  destruct (JS.truthy_num (tutorId b)); cbn [negb orb] in E.
  2:{ clean_run E. finished E.
      split; [reflexivity|]. split; [reflexivity|]. discriminate. }
  clean_run E. unfold select_session_with_count in E.
  fold (select_session (num (sessionId b)) db) in E.
  rewrite Q in E. cbn [map] in E.
  unfold other_tutor in E.
  destruct (JS.parseInt_number (num (tutorId b))) as [t|];
    [|finished E; split; [reflexivity|]; split; [reflexivity|];
      intros; congruence].
  destruct (s_tutor_id s =? t) eqn:Tu; cbn [negb] in E.
  2:{ apply Z.eqb_neq in Tu. finished E.
      split; [reflexivity|]. split; [reflexivity|]. intros; congruence. }
  destruct (num userId =? s_tutor_id s) eqn:Own.
  { apply Z.eqb_eq in Own. finished E.
    split; [reflexivity|]. split; [reflexivity|]. intros; congruence. }
  destruct (Z.geb_spec (enrolled_count db (s_session_id s)) (s_capacity s));
    [|lia].
  finished E. split; [reflexivity|]. split; reflexivity.
Qed.

(** C1.  From a store in which [session_id] is the key of [sessions] and
    no session holds more enrollment rows than its capacity, serve any
    sequence of createRequest, accept, deny, unenroll, removeStudent and
    deleteSession calls, one after the other, any of them possibly cut
    short by a query that throws: in the store that results no session
    holds more enrollment rows than its capacity.  In that store, an accept
    by the tutor of a pending request whose session is full is refused with
    the capacity message and writes nothing, and a request to join a full
    session fails and writes nothing, with the capacity message when the
    caller is signed in, names the session's tutor, as [parseInt] reads
    the id, and is not that tutor. *)
Theorem capacity_never_exceeded :
  forall (H : host) (calls : list (operation * option nat)) (db : database),
    keyed db -> capacity_respected db ->
    let db' := perform_all H calls db in
    capacity_respected db'
    /\ (forall (tutor : Z) (id : string) (now requestId : Z)
               (request : session_join_request) (s : session)
               (student : user) (cnt : Z)
               (rest : list (session_join_request * session * user * Z)),
          tutor <> 0 ->
          JS.parseInt id = Some requestId ->
          select_request_details requestId db'
          = (request, s, student, cnt) :: rest ->
          sjr_tutor_user_id request = tutor ->
          sjr_status request = pending ->
          enrolled_count db' (s_session_id s) >= s_capacity s ->
          serve (acceptSessionRequest H (Some tutor) id now) None db'
          = (failure 400
               "This session is already full. Cannot accept more students.",
             World db' [] None))
    /\ (forall (userId : option Z) (b : session_request_body) (s : session)
               (rest : list session) (r : response) (w : world),
          select_session (num (sessionId b)) db' = s :: rest ->
          enrolled_count db' (s_session_id s) >= s_capacity s ->
          serve (sendSessionRequest H userId b) None db' = (r, w) ->
          succeeded r = false /\ store w = db'
          /\ (JS.truthy_num userId = true ->
              JS.truthy_num (sessionId b) = true ->
              JS.truthy_num (tutorId b) = true ->
              JS.parseInt_number (num (tutorId b)) = Some (s_tutor_id s) ->
              num userId <> s_tutor_id s ->
              r = failure 400 "This session is already full")).
Proof.
  intros H calls db K C db'.
  split; [exact (proj2 (ledger_perform_all H calls db K C))|].
  split.
  - intros. now apply (accept_full H tutor id now db' requestId request s
                         student cnt rest).
  - intros userId b s rest r w. apply request_full.
Qed.

Lemma capacity_never_exceeded_witness :
  let db' := perform_all sample_host [(Accept (Some 1) "5" 99, None)]
               sample_db in
  capacity_respected db'
  /\ serve (acceptSessionRequest sample_host (Some 1) "6" 100) None db'
     = (failure 400
          "This session is already full. Cannot accept more students.",
        World db' [] None)
  /\ fst (serve (sendSessionRequest sample_host (Some 4)
                   (SessionRequestBody (Some 10) (Some 1) JS.absent)) None db')
     = failure 400 "This session is already full".
Proof.
  intro db'.
  assert (K : keyed sample_db).
  { unfold keyed. cbn. constructor; [intros []|constructor]. }
  assert (C : capacity_respected sample_db).
  { intros s [<-|[]]. apply Z.leb_le. reflexivity. }
  destruct (capacity_never_exceeded sample_host
              [(Accept (Some 1) "5" 99, None)] sample_db K C)
    as (Cap & Acc & Req).
  split; [exact Cap|]. split.
  - apply (Acc 1 "6" 100 6 (SessionJoinRequest 6 10 4 1 8 pending None)
             (Session 10 1 "Algebra" "2026-01-01 10:00:00"
                "2026-01-01 11:00:00" "open" 2 None "scheduled")
             (User 4 "Dee" "Park" "Student") 2 nil);
      try reflexivity; try lia.
    apply Z.le_ge, Z.leb_le. reflexivity.
  - pose (S10 := Session 10 1 "Algebra" "2026-01-01 10:00:00"
                   "2026-01-01 11:00:00" "open" 2 None "scheduled").
    pose (call := serve (sendSessionRequest sample_host (Some 4)
                           (SessionRequestBody (Some 10) (Some 1) JS.absent))
                    None db').
    assert (Fl : enrolled_count db' (s_session_id S10) >= s_capacity S10)
      by (apply Z.le_ge, Z.leb_le; reflexivity).
    destruct (Req (Some 4) (SessionRequestBody (Some 10) (Some 1) JS.absent)
                S10 nil (fst call) (snd call) eq_refl Fl
                (surjective_pairing call))
      as (_ & _ & Msg).
    apply Msg; try reflexivity. cbn. lia.
Defined.

(** ** The cancellation cascade *)

Local Open Scope list_scope.

(** Steps of a run in which no query throws. *)
Lemma clean_query {A B : Type} (q : database -> A) (k : A -> M B)
    (db : database) (t : list statement) :
  bind (query q) k (World db t None) = k (q db) (World db t None).
Proof. reflexivity. Qed.

Lemma clean_run_step {B : Type} (st : statement) (k : result -> M B)
    (db : database) (t : list statement) :
  bind (run st) k (World db t None)
  = k (result_of st db) (World (exec st db) (t ++ [st]) None).
Proof. reflexivity. Qed.

Lemma clean_bind {A B : Type} (m : M A) (k : A -> M B) (w w' : world) (a : A) :
  m w = (Done a, w') -> bind m k w = k a w'.
Proof. intros E. unfold bind. now rewrite E. Qed.

(** A loop whose body takes an invariant, indexed by the elements seen so
    far, one element further. *)
Lemma triple_for_of {A : Type} (body : A -> M unit)
    (Inv : list A -> world -> Prop) (E : world -> Prop) :
  (forall seen x,
     triple (Inv seen) (body x) (fun _ => Inv (seen ++ [x])) E) ->
  forall xs seen,
    triple (Inv seen) (for_of xs body) (fun _ => Inv (seen ++ xs)) E.
Proof.
  intros Step. induction xs as [|x xs IH]; intros seen; cbn [for_of].
  - apply triple_ret. intros w I. now rewrite app_nil_r.
  - eapply triple_bind; [apply Step|].
    intros ?; cbv beta.
    replace (seen ++ x :: xs) with ((seen ++ [x]) ++ xs)
      by (now rewrite <- app_assoc).
    apply IH.
Qed.

(** Without a fault, a loop that cannot end in a throw returns. *)
Lemma for_of_returns {A : Type} (body : A -> M unit)
    (Inv : list A -> world -> Prop) (xs : list A) (w : world) :
  (forall seen x,
     triple (Inv seen) (body x) (fun _ => Inv (seen ++ [x]))
       (fun _ => False)) ->
  Inv nil w ->
  exists w', for_of xs body w = (Done tt, w') /\ Inv xs w'.
Proof.
  intros Step I.
  pose proof (triple_for_of body Inv (fun _ => False) Step xs nil w I) as T.
  destruct (for_of xs body w) as [[[]|] w']; [|contradiction].
  exists w'. now split.
Qed.

Section Cascade.

Variables (db0 : database) (sender now : Z).

(** One notification moves the cascade on by one receiver. *)
Lemma cascade_notify (receivers denied_ids : list Z) (receiver : Z)
    (subject message_type content : string) :
  triple (cascade db0 sender now receivers denied_ids)
    (notify sender receiver subject message_type content)
    (fun _ => cascade db0 sender now (receivers ++ [receiver]) denied_ids)
    (fun _ => False).
Proof.
  intros [db t f] (F & U & S & C & A & (new & Em & Er & Es) & Nd & Up).
  cbn [faults store trace] in *. subst f.
  cbv [notify bind run ret attempt faults store trace result_of insertId].
  repeat split; try assumption.
  - exists (new ++ [Message (next_message_id db) sender receiver subject
                      message_type content])%list.
    cbn. rewrite Em, map_app, Er, <- app_assoc. repeat split.
    apply Forall_app. split; [assumption|]. now repeat constructor.
  - cbn. rewrite !Forall_app. repeat split; try assumption;
      now repeat constructor.
  - intros rid I. cbn. rewrite !in_app_iff. left. left. left. now apply Up.
Qed.

(** Marking a request denied records it among the denied. *)
Lemma cascade_deny (receivers denied_ids : list Z) (rid : Z) :
  triple (cascade db0 sender now receivers denied_ids)
    (run (UPDATE_request_status rid denied now))
    (fun _ => cascade db0 sender now receivers (denied_ids ++ [rid]))
    (fun _ => False).
Proof.
  intros [db t f] (F & U & S & C & A & (new & Em & Er & Es) & Nd & Up).
  cbn [faults store trace] in *. subst f.
  cbv [run attempt faults store trace result_of].
  repeat split; try assumption.
  - exists new. cbn. now repeat split.
  - cbn. rewrite Forall_app. split; [assumption|]. now repeat constructor.
  - intros x I. cbn. rewrite in_app_iff. apply in_app_iff in I.
    destruct I as [I|[<-|[]]]; [left; now apply Up | right; now left].
Qed.

End Cascade.

Lemma select_enrolled_students_frame (sid : Z) (db db' : database) :
  users db' = users db -> session_attendees db' = session_attendees db ->
  select_enrolled_students sid db' = select_enrolled_students sid db.
Proof. intros U A. unfold select_enrolled_students. now rewrite U, A. Qed.

(** The run of a deletion by the owner of the session, when no query
    throws: the two loops take the cascade through the pending requests and
    the enrolled students that the queries found, then the four deletions
    run, and the answer counts the rows found. *)
Lemma deleteSession_runs (H : host) (tutor id now : Z) (db : database)
    (s : session) (rest : list session) :
  tutor <> 0 -> select_session id db = s :: rest -> s_tutor_id s = tutor ->
  let pendingRequests := select_pending_requests id db in
  let enrolledStudents := select_enrolled_students id db in
  exists w2 : world,
    cascade db tutor now
      (map (fun p => sjr_requester_user_id (fst p)) pendingRequests
       ++ map (fun p => sa_user_id (fst p)) enrolledStudents)
      (map (fun p => sjr_request_id (fst p)) pendingRequests) w2
    /\ serve (deleteSession H (Some tutor) id now) None db
       = (success 200
            (deleted_message
               (Z.of_nat (List.length pendingRequests
                          + List.length enrolledStudents))),
          World
            (exec (DELETE_session id)
               (exec (DELETE_session_join_requests id)
                  (exec (DELETE_session_attendees id)
                     (exec (DELETE_session_courses id) (store w2)))))
            (trace w2
             ++ [DELETE_session_courses id; DELETE_session_attendees id;
                 DELETE_session_join_requests id; DELETE_session id])
            None).
Proof.
  intros T Q O pendingRequests enrolledStudents.
  unfold deleteSession. rewrite (truthy_num_some _ T). cbn [negb num].
  unfold serve, try_catch.
  rewrite clean_query. cbv beta. rewrite Q, O, Z.eqb_refl. cbn [negb].
  rewrite clean_query. cbv beta zeta.
  rewrite clean_query. cbv beta. fold pendingRequests.
  (* 1. the pending requests *)
  match goal with
  | |- context [for_of pendingRequests ?body] =>
      destruct (for_of_returns body
                  (fun seen =>
                     cascade db tutor now
                       (map (fun p => sjr_requester_user_id (fst p)) seen)
                       (map (fun p => sjr_request_id (fst p)) seen))
                  pendingRequests (World db [] None))
        as (w1 & L1 & I1)
  end.
  { intros seen x.
    eapply triple_bind; [apply cascade_deny|]. intros ?; cbv beta.
    eapply triple_bind; [apply cascade_notify|]. intros ?; cbv beta.
    apply triple_ret. intros w I. now rewrite !map_app. }
  { repeat split; try reflexivity.
    - exists nil. cbn. rewrite app_nil_r. repeat split. constructor.
    - constructor.
    - intros rid []. }
  rewrite (clean_bind _ _ _ _ _ L1).
  destruct w1 as [db1 t1 f1].
  assert (F1 : f1 = None) by exact (proj1 I1). subst f1.
  (* 2. the enrolled students *)
  rewrite clean_query. cbv beta.
  rewrite (select_enrolled_students_frame id db db1)
    by (destruct I1 as (_ & U & _ & _ & A & _); assumption).
  fold enrolledStudents.
  match goal with
  | |- context [for_of enrolledStudents ?body] =>
      destruct (for_of_returns body
                  (fun seen =>
                     cascade db tutor now
                       (map (fun p => sjr_requester_user_id (fst p))
                          pendingRequests
                        ++ map (fun p => sa_user_id (fst p)) seen)
                       (map (fun p => sjr_request_id (fst p))
                          pendingRequests))
                  enrolledStudents (World db1 t1 None))
        as (w2 & L2 & I2)
  end.
  { intros seen x.
    eapply triple_bind; [apply cascade_notify|]. intros ?; cbv beta.
    apply triple_ret. intros w I. now rewrite map_app, app_assoc. }
  { cbn [map]. now rewrite app_nil_r. }
  rewrite (clean_bind _ _ _ _ _ L2).
  destruct w2 as [db2 t2 f2].
  assert (F2 : f2 = None) by exact (proj1 I2). subst f2.
  (* 3. and 4. the deletions *)
  exists (World db2 t2 None). split; [exact I2|].
  rewrite !clean_run_step. cbn [ret store trace].
  rewrite <- !app_assoc. reflexivity.
Qed.






(** ** Failures and writes *)

Lemma succeeded_head (c : Z) (b : bool) (rest : list (string * json)) :
  succeeded (Response c (("success", JBool b) :: rest)) = b.
Proof. destruct b; reflexivity. Qed.

(** Ends a branch of a run: the store is as it was, or the answer is a
    success although a failure was assumed. *)
Ltac leaf E Hs :=
  clean_run E; finished E;
  first [ reflexivity
        | left; reflexivity
        | exfalso; rewrite ?succeeded_success, ?succeeded_head in Hs;
          discriminate Hs ].

(** A [DELETE] that affected no row left the table as it was. *)
Lemma delete_where_none {A : Type} (p : A -> bool) (l : list A) :
  count_where p l = 0 -> delete_where p l = l.
Proof.
  unfold count_where, delete_where. intros C.
  induction l as [|x l IH]; cbn [filter] in *; [reflexivity|].
  destruct (p x); cbn [negb List.length] in *; [lia|].
  now rewrite IH.
Qed.

Lemma deny_failure_writes_at_most_the_status (userId : option Z)
    (id : string) (reason : JS.value) (now : Z) (db : database)
    (r : response) (w : world) :
  serve (denySessionRequest userId id reason now) None db = (r, w) ->
  succeeded r = false ->
  store w = db
  \/ exists rid : Z,
       JS.parseInt id = Some rid
       /\ reason = JS.Other true
       /\ r = failure 500 "Failed to deny request. Please try again."
       /\ store w = exec (UPDATE_request_status rid denied now) db.
Proof.
  intros E Hs. unfold denySessionRequest in E.
  destruct (JS.truthy_num userId); cbn [negb] in E; [|leaf E Hs].
  destruct (JS.parseInt id) as [rid|]; [|leaf E Hs].
  clean_run E.
  destruct (select_request_for_denial rid db) as [|[[request s] student] ?];
    [leaf E Hs|].
  destruct (negb (sjr_tutor_user_id request =? num userId)); [leaf E Hs|].
  destruct (negb (status_eqb (sjr_status request) pending)); [leaf E Hs|].
  destruct reason as [t|[|]]; [leaf E Hs| |leaf E Hs].
  finished E. right. exists rid. repeat split.
Qed.

Lemma unenroll_failure_writes_nothing (H : host) (userId : option Z)
    (id now : Z) (db : database) (r : response) (w : world) :
  serve (unenrollFromSession H userId id now) None db = (r, w) ->
  succeeded r = false -> store w = db.
Proof.
  intros E Hs. unfold unenrollFromSession in E.
  destruct (JS.truthy_num userId); cbn [negb] in E; [|leaf E Hs].
  clean_run E.
  destruct (select_session_with_tutor id db) as [|[s tutor] ?]; [leaf E Hs|].
  destruct (List.length (select_enrollment id (num userId) db) =? 0)%nat;
    leaf E Hs.
Qed.

Lemma remove_failure_writes_nothing (H : host) (userId : option Z)
    (id studentId now : Z) (db : database) (r : response) (w : world) :
  serve (removeStudentFromSession H userId id studentId now) None db = (r, w) ->
  succeeded r = false -> store w = db.
Proof.
  intros E Hs. unfold removeStudentFromSession in E.
  destruct (JS.truthy_num userId); cbn [negb] in E; [|leaf E Hs].
  clean_run E.
  destruct (select_session id db) as [|s ?]; [leaf E Hs|].
  destruct (negb (s_tutor_id s =? num userId)); [leaf E Hs|].
  destruct (select_user studentId db) as [|student ?]; [leaf E Hs|].
  destruct (count_where (attends id studentId) (session_attendees db) =? 0)
    eqn:None_deleted; [|leaf E Hs].
  apply Z.eqb_eq in None_deleted. finished E.
  cbn [store exec]. unfold with_session_attendees.
  rewrite (delete_where_none _ _ None_deleted). now destruct db.
Qed.

Lemma delete_failure_writes_nothing (H : host) (userId : option Z)
    (id now : Z) (db : database) (r : response) (w : world) :
  serve (deleteSession H userId id now) None db = (r, w) ->
  succeeded r = false -> store w = db.
Proof.
  intros E Hs.
  destruct (JS.truthy_num userId) eqn:T.
  2:{ unfold deleteSession in E. rewrite T in E. cbn [negb] in E. leaf E Hs. }
  destruct (truthy_num_true _ T) as (tutor & -> & Tn).
  destruct (select_session id db) as [|s rest] eqn:Q.
  { unfold deleteSession in E. rewrite T in E. cbn [negb num] in E.
    clean_run E. rewrite Q in E. leaf E Hs. }
  destruct (s_tutor_id s =? tutor) eqn:O.
  2:{ unfold deleteSession in E. rewrite T in E. cbn [negb num] in E.
      clean_run E. rewrite Q, O in E. cbn [negb] in E. leaf E Hs. }
  apply Z.eqb_eq in O.
  destruct (deleteSession_runs H tutor id now db s rest Tn Q O)
    as (w2 & _ & Run).
  rewrite Run in E. finished E.
  rewrite succeeded_success in Hs. discriminate Hs.
Qed.

Lemma request_failure_writes_at_most_the_delete (H : host)
    (userId : option Z) (b : session_request_body) (db : database)
    (r : response) (w : world) :
  serve (sendSessionRequest H userId b) None db = (r, w) ->
  succeeded r = false ->
  store w = db
  \/ (hd_error (select_request_status (num (sessionId b)) (num userId) db)
      = Some denied
      /\ (r = failure 400 "You are already enrolled in this session"
          \/ r = failure 404 "Student not found"
          \/ (message_text b = JS.Other true
              /\ r = failure 500 "Failed to send request. Please try again."))
      /\ store w
         = exec (DELETE_requests_of (num (sessionId b)) (num userId)) db).
Proof.
  intros E Hs. unfold sendSessionRequest in E.
  destruct (JS.truthy_num userId); cbn [negb] in E; [|leaf E Hs].
  destruct (negb (JS.truthy_num (sessionId b))
            || negb (JS.truthy_num (tutorId b))); [leaf E Hs|].
  clean_run E.
  destruct (select_session_with_count (num (sessionId b)) db) as [|[s cnt] ?];
    [leaf E Hs|].
  destruct (other_tutor s (num (tutorId b))); [leaf E Hs|].
  destruct (num userId =? s_tutor_id s); [leaf E Hs|].
  destruct (cnt >=? s_capacity s); [leaf E Hs|].
  destruct (select_request_status (num (sessionId b)) (num userId) db)
    as [|[] ?]; try (leaf E Hs).
  - destruct (negb (List.length
                      (select_enrollment (num (sessionId b)) (num userId) db)
                    =? 0)%nat); [leaf E Hs|].
    destruct (select_user (num userId) db) as [|student ?]; [leaf E Hs|].
    destruct (message_text b) as [t|[|]]; leaf E Hs.
  - right. split; [reflexivity|].
    destruct (negb (List.length
                      (select_enrollment (num (sessionId b)) (num userId)
                         (exec (DELETE_requests_of (num (sessionId b))
                                  (num userId)) db)) =? 0)%nat).
    { finished E. split; [now left | reflexivity]. }
    destruct (select_user (num userId)
                (exec (DELETE_requests_of (num (sessionId b))
                         (num userId)) db)) as [|student ?].
    { finished E. split; [right; now left | reflexivity]. }
    destruct (message_text b) as [t|[|]].
    + leaf E Hs.
    + finished E. split; [right; right; now split | reflexivity].
    + leaf E Hs.
Qed.

Lemma accept_failure_writes_at_most_the_status (H : host) (userId : option Z)
    (id : string) (now : Z) (db : database) (r : response) (w : world) :
  serve (acceptSessionRequest H userId id now) None db = (r, w) ->
  succeeded r = false ->
  store w = db
  \/ exists rid : Z,
       JS.parseInt id = Some rid
       /\ r = failure 400 "Student is already enrolled in this session"
       /\ store w = exec (UPDATE_request_status rid accepted now) db.
Proof.
  intros E Hs. unfold acceptSessionRequest in E.
  destruct (JS.truthy_num userId); cbn [negb] in E; [|leaf E Hs].
  destruct (JS.parseInt id) as [rid|]; [|leaf E Hs].
  clean_run E.
  destruct (select_request_details rid db)
    as [|[[[request s] student] cnt] ?]; [leaf E Hs|].
  destruct (negb (sjr_tutor_user_id request =? num userId)); [leaf E Hs|].
  destruct (negb (status_eqb (sjr_status request) pending)); [leaf E Hs|].
  destruct (cnt >=? s_capacity s); [leaf E Hs|].
  destruct (negb (List.length
                    (select_enrollment (sjr_session_id request)
                       (u_user_id student) db) =? 0)%nat); [|leaf E Hs].
  finished E. right. exists rid. repeat split.
Qed.

(** C3, as the code has it.  When no query throws, a call of the lifecycle
    core that answers with a failure has left every table as it was, but
    for three paths on which one statement was executed before the failure:
    accept, finding the student already enrolled, still marks the request
    accepted, stamped with the time of the call, before it answers 400;
    deny, given a reason that is truthy and not text, has marked the
    request denied before [reason.trim()] throws and the [catch] answers
    500; and a new request by a student whose earlier request for the
    session was denied has deleted the requests of the pair before it is
    refused because the student is enrolled (400) or unknown (404), or
    because the message, truthy and not text, makes [message.trim()]
    throw (500). *)
Theorem failures_write_nothing_but_on_three_paths :
  forall (H : host) (op : operation) (db : database)
         (r : response) (w : world),
    serve (perform H op) None db = (r, w) ->
    succeeded r = false ->
    store w = db
    \/ (exists (userId : option Z) (id : string) (now rid : Z),
          op = Accept userId id now
          /\ JS.parseInt id = Some rid
          /\ r = failure 400 "Student is already enrolled in this session"
          /\ store w = exec (UPDATE_request_status rid accepted now) db)
    \/ (exists (userId : option Z) (id : string) (now rid : Z),
          op = Deny userId id (JS.Other true) now
          /\ JS.parseInt id = Some rid
          /\ r = failure 500 "Failed to deny request. Please try again."
          /\ store w = exec (UPDATE_request_status rid denied now) db)
    \/ (exists (userId : option Z) (b : session_request_body),
          op = CreateRequest userId b
          /\ hd_error (select_request_status (num (sessionId b))
                         (num userId) db) = Some denied
          /\ (r = failure 400 "You are already enrolled in this session"
              \/ r = failure 404 "Student not found"
              \/ (message_text b = JS.Other true
                  /\ r = failure 500
                          "Failed to send request. Please try again."))
          /\ store w
             = exec (DELETE_requests_of (num (sessionId b)) (num userId))
                 db).
Proof.
  intros H op db r w E Hs. destruct op; cbn [perform] in E.
  - destruct (request_failure_writes_at_most_the_delete H userId b db r w
                E Hs) as [Same|(D & R & S)]; [now left|].
    right. right. right. exists userId, b. now repeat split.
  - destruct (accept_failure_writes_at_most_the_status H userId id now db r w
                E Hs) as [Same|(rid & P & R & S)]; [now left|].
    right. left. exists userId, id, now, rid. now repeat split.
  - destruct (deny_failure_writes_at_most_the_status userId id reason now
                db r w E Hs) as [Same|(rid & P & -> & R & S)]; [now left|].
    right. right. left. exists userId, id, now, rid. now repeat split.
  - left. now apply (unenroll_failure_writes_nothing H userId id now db r w).
  - left. now apply (remove_failure_writes_nothing H userId id studentId now
                       db r w).
  - left. now apply (delete_failure_writes_nothing H userId id now db r w).
Qed.

Lemma failures_write_nothing_but_on_three_paths_witness :
  let refused := serve (perform sample_host (Deny (Some 2) "5" JS.absent 99))
                   None sample_db in
  let again :=
    serve (perform sample_host
             (CreateRequest (Some 2)
                (SessionRequestBody (Some 10) (Some 1) JS.absent)))
      None denied_but_enrolled_db in
  store (snd refused) = sample_db
  /\ fst again = failure 400 "You are already enrolled in this session"
  /\ session_join_requests (store (snd again)) = [].
Proof.
  intros refused again. split.
  - destruct (failures_write_nothing_but_on_three_paths
                sample_host (Deny (Some 2) "5" JS.absent 99) sample_db
                (fst refused) (snd refused) (surjective_pairing refused)
                eq_refl)
      as [Same|[(? & ? & ? & ? & Op & _)|[(? & ? & ? & ? & Op & _)
                                         |(? & ? & Op & _)]]];
      [exact Same | discriminate Op | discriminate Op | discriminate Op].
  - destruct (failures_write_nothing_but_on_three_paths
                sample_host
                (CreateRequest (Some 2)
                   (SessionRequestBody (Some 10) (Some 1) JS.absent))
                denied_but_enrolled_db
                (fst again) (snd again) (surjective_pairing again) eq_refl)
      as [Same|[(? & ? & ? & ? & Op & _)|[(? & ? & ? & ? & Op & _)
                                         |(u & b & Op & _ & _ & Del)]]];
      [ apply (f_equal session_join_requests) in Same; discriminate Same
      | discriminate Op | discriminate Op | ].
    injection Op as <- <-. split; [reflexivity|]. now rewrite Del.
Defined.

(** C3, counterexample to the claim as stated.  Bob is enrolled and his
    request is pending; the tutor's accept answers with a 400 failure, and
    the request is nevertheless written: it is now accepted. *)
Lemma accept_failure_has_written :
  let call := serve (perform sample_host (Accept (Some 1) "5" 99))
                None double_booked_db in
  succeeded (fst call) = false
  /\ status_code (fst call) = 400
  /\ map sjr_status (session_join_requests double_booked_db) = [pending]
  /\ map sjr_status (session_join_requests (store (snd call))) = [accepted]
  /\ store (snd call) <> double_booked_db.
Proof.
  intro call. repeat split; try reflexivity.
  intros Same. apply (f_equal session_join_requests) in Same.
  vm_compute in Same. discriminate Same.
Qed.

(** The two other paths.  Bob is enrolled and his earlier request was
    denied: his new request is refused with 400, and the denied request is
    gone.  Ada denies Bob's pending request with the number 5 for a reason:
    the answer is the 500 of the [catch], and the request is denied. *)
Lemma refused_request_and_failed_deny_have_written :
  let again :=
    serve (perform sample_host
             (CreateRequest (Some 2)
                (SessionRequestBody (Some 10) (Some 1) JS.absent)))
      None denied_but_enrolled_db in
  let deny := serve (perform sample_host (Deny (Some 1) "5" (JS.Other true) 99))
                None sample_db in
  (fst again = failure 400 "You are already enrolled in this session"
   /\ map sjr_request_id (session_join_requests denied_but_enrolled_db) = [5]
   /\ session_join_requests (store (snd again)) = [])
  /\ (fst deny = failure 500 "Failed to deny request. Please try again."
      /\ map sjr_status (session_join_requests sample_db)
         = [pending; pending]
      /\ map sjr_status (session_join_requests (store (snd deny)))
         = [denied; pending]
      /\ messages (store (snd deny)) = []).
Proof.
  intros again deny. repeat split; reflexivity.
Qed.

(** ** What a call adds to the messages *)

(** Ends a branch of a run on which no message was sent, or the one on
    which the call succeeded and sent one. *)
Ltac mail_leaf E :=
  clean_run E; finished E;
  rewrite ?succeeded_failure, ?succeeded_success, ?succeeded_head;
  first [ exists (Message 0 0 0 "" "" ""); cbn; now rewrite app_nil_r
        | eexists; reflexivity ].

Lemma request_mail (H : host) (userId : option Z)
    (b : session_request_body) (db : database) (r : response) (w : world) :
  serve (sendSessionRequest H userId b) None db = (r, w) ->
  exists m : message,
    messages (store w) = messages db ++ (if succeeded r then [m] else []).
Proof.
  intros E. unfold sendSessionRequest in E.
  destruct (JS.truthy_num userId); cbn [negb] in E; [|mail_leaf E].
  destruct (negb (JS.truthy_num (sessionId b))
            || negb (JS.truthy_num (tutorId b))); [mail_leaf E|].
  clean_run E.
  destruct (select_session_with_count (num (sessionId b)) db) as [|[s cnt] ?];
    [mail_leaf E|].
  destruct (other_tutor s (num (tutorId b))); [mail_leaf E|].
  destruct (num userId =? s_tutor_id s); [mail_leaf E|].
  destruct (cnt >=? s_capacity s); [mail_leaf E|].
  destruct (select_request_status (num (sessionId b)) (num userId) db)
    as [|[] ?]; try (mail_leaf E).
  - destruct (negb (List.length
                      (select_enrollment (num (sessionId b)) (num userId) db)
                    =? 0)%nat); [mail_leaf E|].
    destruct (select_user (num userId) db) as [|student ?]; [mail_leaf E|].
    destruct (message_text b) as [t|[|]]; mail_leaf E.
  - destruct (negb (List.length
                      (select_enrollment (num (sessionId b)) (num userId)
                         (exec (DELETE_requests_of (num (sessionId b))
                                  (num userId)) db)) =? 0)%nat);
      [mail_leaf E|].
    destruct (select_user (num userId)
                (exec (DELETE_requests_of (num (sessionId b))
                         (num userId)) db)) as [|student ?];
      [mail_leaf E|].
    destruct (message_text b) as [t|[|]]; mail_leaf E.
Qed.

Lemma accept_mail (H : host) (userId : option Z) (id : string) (now : Z)
    (db : database) (r : response) (w : world) :
  serve (acceptSessionRequest H userId id now) None db = (r, w) ->
  exists m : message,
    messages (store w) = messages db ++ (if succeeded r then [m] else []).
Proof.
  intros E. unfold acceptSessionRequest in E.
  destruct (JS.truthy_num userId); cbn [negb] in E; [|mail_leaf E].
  destruct (JS.parseInt id) as [rid|]; [|mail_leaf E].
  clean_run E.
  destruct (select_request_details rid db)
    as [|[[[request s] student] cnt] ?]; [mail_leaf E|].
  destruct (negb (sjr_tutor_user_id request =? num userId)); [mail_leaf E|].
  destruct (negb (status_eqb (sjr_status request) pending)); [mail_leaf E|].
  destruct (cnt >=? s_capacity s); [mail_leaf E|].
  destruct (negb (List.length
                    (select_enrollment (sjr_session_id request)
                       (u_user_id student) db) =? 0)%nat); mail_leaf E.
Qed.

Lemma deny_mail (userId : option Z) (id : string) (reason : JS.value)
    (now : Z) (db : database) (r : response) (w : world) :
  serve (denySessionRequest userId id reason now) None db = (r, w) ->
  exists m : message,
    messages (store w) = messages db ++ (if succeeded r then [m] else []).
Proof.
  intros E. unfold denySessionRequest in E.
  destruct (JS.truthy_num userId); cbn [negb] in E; [|mail_leaf E].
  destruct (JS.parseInt id) as [rid|]; [|mail_leaf E].
  clean_run E.
  destruct (select_request_for_denial rid db) as [|[[request s] student] ?];
    [mail_leaf E|].
  destruct (negb (sjr_tutor_user_id request =? num userId)); [mail_leaf E|].
  destruct (negb (status_eqb (sjr_status request) pending)); [mail_leaf E|].
  destruct reason as [t|[|]]; mail_leaf E.
Qed.

Lemma unenroll_mail (H : host) (userId : option Z) (id now : Z)
    (db : database) (r : response) (w : world) :
  serve (unenrollFromSession H userId id now) None db = (r, w) ->
  exists m : message,
    messages (store w) = messages db ++ (if succeeded r then [m] else []).
Proof.
  intros E. unfold unenrollFromSession in E.
  destruct (JS.truthy_num userId); cbn [negb] in E; [|mail_leaf E].
  clean_run E.
  destruct (select_session_with_tutor id db) as [|[s tutor] ?];
    [mail_leaf E|].
  destruct (List.length (select_enrollment id (num userId) db) =? 0)%nat;
    mail_leaf E.
Qed.

Lemma remove_mail (H : host) (userId : option Z) (id studentId now : Z)
    (db : database) (r : response) (w : world) :
  serve (removeStudentFromSession H userId id studentId now) None db
  = (r, w) ->
  exists m : message,
    messages (store w) = messages db ++ (if succeeded r then [m] else []).
Proof.
  intros E. unfold removeStudentFromSession in E.
  destruct (JS.truthy_num userId); cbn [negb] in E; [|mail_leaf E].
  clean_run E.
  destruct (select_session id db) as [|s ?]; [mail_leaf E|].
  destruct (negb (s_tutor_id s =? num userId)); [mail_leaf E|].
  destruct (select_user studentId db) as [|student ?]; [mail_leaf E|].
  destruct (count_where (attends id studentId) (session_attendees db) =? 0);
    mail_leaf E.
Qed.

Lemma delete_mail (H : host) (userId : option Z) (id now : Z)
    (db : database) (r : response) (w : world) :
  serve (deleteSession H userId id now) None db = (r, w) ->
  exists new : list message,
    messages (store w) = messages db ++ new
    /\ List.length new
       = if succeeded r
         then (List.length (select_pending_requests id db)
               + List.length (select_enrolled_students id db))%nat
         else 0%nat.
Proof.
  intros E.
  destruct (succeeded r) eqn:Hs.
  2:{ exists []. rewrite app_nil_r.
      now rewrite (delete_failure_writes_nothing H userId id now db r w E Hs). }
  destruct (JS.truthy_num userId) eqn:T.
  2:{ unfold deleteSession in E. rewrite T in E. cbn [negb] in E.
      refused E Hs. }
  destruct (truthy_num_true _ T) as (tutor & -> & Tn).
  destruct (select_session id db) as [|s rest] eqn:Q.
  { unfold deleteSession in E. rewrite T in E. cbn [negb num] in E.
    clean_run E. rewrite Q in E. refused E Hs. }
  destruct (s_tutor_id s =? tutor) eqn:O.
  2:{ unfold deleteSession in E. rewrite T in E. cbn [negb num] in E.
      clean_run E. rewrite Q, O in E. cbn [negb] in E. refused E Hs. }
  apply Z.eqb_eq in O.
  destruct (deleteSession_runs H tutor id now db s rest Tn Q O)
    as (w2 & Cas & Run).
  destruct Cas as (_ & _ & _ & _ & _ & (new & Em & Er & _) & _).
  rewrite Run in E. apply pair_equal_spec in E. destruct E as [_ <-].
  exists new. split; [cbn; exact Em|].
  rewrite <- (length_map m_receiver_id new), Er, length_app, !length_map.
  reflexivity.
Qed.

(** C10.  The messages of a call of the lifecycle core, when no query
    throws.  A call that succeeds adds exactly one row to [messages], and a
    cancellation that succeeds one for each pending requester and one for
    each enrolled student; a call that fails adds none.  Each new message
    comes with exactly two rows of [user_messages], in this order: the
    sender's copy, filed in [sent] with [is_read = 1], and the receiver's
    copy, filed in [inbox] with [is_read = 0].  No other row is added to
    the two tables, and nothing that was there is changed. *)
Theorem every_notification_files_two_copies :
  forall (H : host) (op : operation) (db : database),
    let call := serve (perform H op) None db in
    exists new : list message,
      messages (store (snd call)) = messages db ++ new
      /\ user_messages (store (snd call))
         = user_messages db
           ++ flat_map
                (fun m =>
                   [UserMessage (m_sender_id m) (m_message_id m) "sent" 1;
                    UserMessage (m_receiver_id m) (m_message_id m)
                      "inbox" 0])
                new
      /\ List.length new
         = if succeeded (fst call) then notifications op db else 0%nat.
Proof.
  intros H op db call.
  assert (F : filed db (snd call)).
  { apply filed_perform. split; [reflexivity|].
    exists nil. cbn. now rewrite !app_nil_r. }
  destruct F as (_ & new & Em & Eu).
  exists new. split; [exact Em|]. split; [exact Eu|].
  assert (One : (exists m : message,
                   messages (store (snd call))
                   = messages db ++ (if succeeded (fst call) then [m] else []))
                -> List.length new
                   = if succeeded (fst call) then 1%nat else 0%nat).
  { intros (m & Em'). rewrite Em in Em'. apply app_inv_head in Em'.
    rewrite Em'. now destruct (succeeded (fst call)). }
  pose proof (surjective_pairing call) as E. unfold call at 1 in E.
  destruct op; cbn [perform notifications] in *.
  - apply One. exact (request_mail H userId b db _ _ E).
  - apply One. exact (accept_mail H userId id now db _ _ E).
  - apply One. exact (deny_mail userId id reason now db _ _ E).
  - apply One. exact (unenroll_mail H userId id now db _ _ E).
  - apply One. exact (remove_mail H userId id studentId now db _ _ E).
  - destruct (delete_mail H userId id now db _ _ E) as (new' & Em' & Len).
    rewrite Em in Em'. apply app_inv_head in Em'. now rewrite Em'.
Qed.

Lemma every_notification_files_two_copies_witness :
  let call := serve (perform sample_host (Deny (Some 1) "5" JS.absent 99))
                None sample_db in
  List.length (messages sample_db) = 0%nat
  /\ List.length (messages (store (snd call))) = 1%nat
  /\ map (fun c => (um_folder c, um_is_read c))
       (user_messages (store (snd call)))
     = [("sent"%string, 1); ("inbox"%string, 0)].
Proof.
  intro call.
  destruct (every_notification_files_two_copies sample_host
              (Deny (Some 1) "5" JS.absent 99) sample_db)
    as (new & Em & Eu & Len).
  fold call in Em, Eu, Len.
  change (succeeded (fst call)) with true in Len.
  cbn [notifications] in Len.
  destruct new as [|m [|? ?]]; try discriminate Len.
  split; [reflexivity|]. rewrite Em, Eu. split; reflexivity.
Defined.

(** ** Answers *)

(** C9, as the code has it.  A deletion that succeeds answers with the
    envelope [{success, message}] and nothing else: the number of students
    notified, which is the number of pending requests and enrolled students
    that the queries found, is told in the text of the message, and there
    is no [notifiedCount] field.  A join request must name the tutor beside
    the session: without [tutorId] it fails; when it succeeds the answer is
    [{success, message, messageId}], where [messageId] is the id of the
    notification message, which the new pending request row refers to, and
    there is no [requestId] field. *)
Theorem delete_answers_in_text_and_request_answers_messageId :
  forall (H : host),
    (forall (userId : option Z) (id now : Z) (db : database)
            (r : response) (w : world),
       serve (deleteSession H userId id now) None db = (r, w) ->
       succeeded r = true ->
       body r
       = [("success", JBool true);
          ("message",
           JStr (deleted_message
                   (Z.of_nat
                      (List.length (select_pending_requests id db)
                       + List.length (select_enrolled_students id db)))))]
       /\ field "notifiedCount" r = None)
    /\ (forall (userId : option Z) (b : session_request_body) (db : database)
               (r : response) (w : world),
          serve (sendSessionRequest H userId b) None db = (r, w) ->
          (tutorId b = None -> succeeded r = false)
          /\ (succeeded r = true ->
                body r
                = [("success", JBool true);
                   ("message",
                    JStr "Your request has been sent to the tutor");
                   ("messageId", JNum (next_message_id db))]
                /\ field "requestId" r = None
                /\ exists old : list session_join_request,
                     session_join_requests (store w)
                     = old
                       ++ [SessionJoinRequest (next_request_id db)
                             (num (sessionId b)) (num userId)
                             (num (tutorId b)) (next_message_id db)
                             pending None])).
Proof.
  intros H. split.
  - intros userId id now db r w E Hs.
    destruct (JS.truthy_num userId) eqn:T.
    2:{ unfold deleteSession in E. rewrite T in E. cbn [negb] in E.
        refused E Hs. }
    destruct (truthy_num_true _ T) as (tutor & -> & Tn).
    destruct (select_session id db) as [|s rest] eqn:Q.
    { unfold deleteSession in E. rewrite T in E. cbn [negb num] in E.
      clean_run E. rewrite Q in E. refused E Hs. }
    destruct (s_tutor_id s =? tutor) eqn:O.
    2:{ unfold deleteSession in E. rewrite T in E. cbn [negb num] in E.
        clean_run E. rewrite Q, O in E. cbn [negb] in E. refused E Hs. }
    apply Z.eqb_eq in O.
    destruct (deleteSession_runs H tutor id now db s rest Tn Q O)
      as (w2 & _ & Run).
    rewrite Run in E. finished E. split; reflexivity.
  - intros userId b db r w E. unfold sendSessionRequest in E. split.
    + intros No. rewrite No in E. cbn [JS.truthy_num negb] in E.
      rewrite orb_true_r in E.
      destruct (negb (JS.truthy_num userId)); clean_run E; finished E;
        reflexivity.
    + intros Hs.
      destruct (JS.truthy_num userId); cbn [negb] in E; [|refused E Hs].
      destruct (negb (JS.truthy_num (sessionId b))
                || negb (JS.truthy_num (tutorId b))); [refused E Hs|].
      clean_run E.
      destruct (select_session_with_count (num (sessionId b)) db)
        as [|[s cnt] ?]; [refused E Hs|].
      destruct (other_tutor s (num (tutorId b))); [refused E Hs|].
      destruct (num userId =? s_tutor_id s); [refused E Hs|].
      destruct (cnt >=? s_capacity s); [refused E Hs|].
      destruct (select_request_status (num (sessionId b)) (num userId) db)
        as [|[] ?]; try (refused E Hs).
      * destruct (negb (List.length
                          (select_enrollment (num (sessionId b)) (num userId)
                             db) =? 0)%nat); [refused E Hs|].
        destruct (select_user (num userId) db) as [|student ?];
          [refused E Hs|].
        destruct (message_text b) as [t|[|]]; [|refused E Hs|];
          finished E; (split; [reflexivity|]); (split; [reflexivity|]);
          exists (session_join_requests db); reflexivity.
      * destruct (negb (List.length
                          (select_enrollment (num (sessionId b)) (num userId)
                             (exec (DELETE_requests_of (num (sessionId b))
                                      (num userId)) db)) =? 0)%nat);
          [refused E Hs|].
        destruct (select_user (num userId)
                    (exec (DELETE_requests_of (num (sessionId b))
                             (num userId)) db)) as [|student ?];
          [refused E Hs|].
        destruct (message_text b) as [t|[|]]; [|refused E Hs|];
          finished E; (split; [reflexivity|]); (split; [reflexivity|]);
          exists (delete_where (of_pair (num (sessionId b)) (num userId))
                    (session_join_requests db));
          reflexivity.
Qed.

Lemma delete_answers_in_text_and_request_answers_messageId_witness :
  let erased := serve (deleteSession sample_host (Some 1) 10 99)
                  None sample_db in
  let asked := serve (sendSessionRequest sample_host (Some 5)
                        (SessionRequestBody (Some 10) (Some 1) (JS.Str "hi")))
                 None sample_db in
  field "message" (fst erased)
  = Some (JStr "Session deleted successfully. 3 students have been notified.")
  /\ field "messageId" (fst asked) = Some (JNum 9).
Proof.
  intros erased asked.
  destruct (delete_answers_in_text_and_request_answers_messageId sample_host)
    as [Del Ask].
  destruct (Del (Some 1) 10 99 sample_db (fst erased) (snd erased)
              (surjective_pairing erased) eq_refl) as [Body _].
  destruct (Ask (Some 5) (SessionRequestBody (Some 10) (Some 1) (JS.Str "hi"))
              sample_db (fst asked) (snd asked) (surjective_pairing asked))
    as [_ Ok].
  destruct (Ok eq_refl) as (Body' & _ & _).
  unfold field. rewrite Body, Body'. split; reflexivity.
Defined.

(** C9, counterexample to the claim as stated.  The answer to a successful
    deletion has no [notifiedCount] field; a join request with the payload
    [{sessionId, message}] alone is refused; and the answer to a successful
    join request has no [requestId] field. *)
Lemma answers_lack_notifiedCount_and_requestId :
  let erased := serve (deleteSession sample_host (Some 1) 10 99)
                  None sample_db in
  let bare := serve (sendSessionRequest sample_host (Some 5)
                       (SessionRequestBody (Some 10) None (JS.Str "hi")))
                None sample_db in
  let asked := serve (sendSessionRequest sample_host (Some 5)
                        (SessionRequestBody (Some 10) (Some 1) (JS.Str "hi")))
                 None sample_db in
  succeeded (fst erased) = true
  /\ field "notifiedCount" (fst erased) = None
  /\ fst bare = failure 400 "Session ID and Tutor ID are required"
  /\ succeeded (fst asked) = true
  /\ field "requestId" (fst asked) = None.
Proof. intros erased bare asked. repeat split; reflexivity. Qed.

(** ** Creating a session *)

Lemma truthy_false (s : string) : JS.truthy s = false -> s = "".
Proof. destruct s; cbn; congruence. Qed.

Lemma truthy_true (s : string) : JS.truthy s = true -> s <> "".
Proof. destruct s; cbn; congruence. Qed.

Lemma truthy_num_false (o : option Z) :
  JS.truthy_num o = false -> o = None \/ o = Some 0.
Proof.
  destruct o as [n|]; cbn; [|now left].
  intros E. apply negb_false_iff, Z.eqb_eq in E. right. now subst.
Qed.

Lemma includes_kinds (k : string) :
  JS.includes ["open"; "one_on_one"] k = false <->
  k <> "open" /\ k <> "one_on_one".
Proof.
  unfold JS.includes. cbn [existsb]. rewrite orb_false_r, orb_false_iff.
  rewrite !String.eqb_neq. reflexivity.
Qed.

(** How a creation by a tutor ends when no query throws: refused with 400
    for one of the handler's reasons, nothing written, or answered with 201,
    for none of them, the session stored with its course links. *)
Lemma createSession_decides (H : host) (tutor : Z) (b : session_body)
    (now : Z) (db : database) (r : response) (w : world) :
  tutor <> 0 -> select_tutor tutor db <> nil ->
  serve (createSession H (Some tutor) b now) None db = (r, w) ->
  (refusal_reason H db tutor b now
   /\ status_code r = 400 /\ succeeded r = false /\ store w = db)
  \/ (~ refusal_reason H db tutor b now
      /\ status_code r = 201 /\ succeeded r = true
      /\ sessions (store w) = sessions db ++ [created_session db tutor b]
      /\ session_courses (store w)
         = session_courses db
           ++ map (SessionCourse (next_session_id db)) (course_ids b)).
Proof.
  intros T Tutor E. unfold createSession in E.
  rewrite (truthy_num_some _ T) in E. cbn [negb num] in E.
  unfold refusal_reason, course_ids.
  destruct (JS.truthy (title b)) eqn:Ti; cbn [negb orb] in E.
  2:{ clean_run E. finished E. left. split; [|now repeat split].
      left. left. now apply truthy_false. }
  destruct (JS.truthy (sessionType b)) eqn:Ty; cbn [negb orb] in E.
  2:{ clean_run E. finished E. left. split; [|now repeat split].
      left. right. left. now apply truthy_false. }
  destruct (courseIds b) as [ids|] eqn:Ids; cbn [negb orb] in E.
  2:{ clean_run E. finished E. left. split; [|now repeat split].
      left. right. right. now left. }
  destruct (JS.truthy (startTime b)) eqn:St; cbn [negb orb] in E.
  2:{ clean_run E. finished E. left. split; [|now repeat split].
      left. do 3 right. left. now apply truthy_false. }
  destruct (JS.truthy (endTime b)) eqn:En; cbn [negb orb] in E.
  2:{ clean_run E. finished E. left. split; [|now repeat split].
      left. do 4 right. left. now apply truthy_false. }
  destruct (JS.truthy_num (capacity b)) eqn:Ca; cbn [negb orb] in E.
  2:{ clean_run E. finished E. left. split; [|now repeat split].
      left. do 5 right. apply truthy_num_false in Ca. tauto. }
  destruct (truthy_num_true _ Ca) as (c & Ec & Cn).
  rewrite Ec in *. cbn [num] in E.
  destruct ids as [|i ids]; cbn [List.length Nat.eqb] in E.
  { clean_run E. finished E. left. split; [|now repeat split].
    right. now left. }
  destruct (150 <? JS.js_length (JS.trim (title b)))%nat eqn:Len.
  { clean_run E. finished E. left. split; [|now repeat split].
    do 2 right. left. now apply Nat.ltb_lt. }
  destruct (JS.includes ["open"; "one_on_one"] (sessionType b)) eqn:Kind;
    cbn [negb] in E.
  2:{ clean_run E. finished E. left. split; [|now repeat split].
      do 3 right. left. now apply includes_kinds. }
  clean_run E.
  destruct (select_tutor tutor db) as [|t ts] eqn:Tc; [congruence|].
  cbn [List.length Nat.eqb] in E.
  destruct (List.length (select_tutor_courses tutor (i :: ids) db)
            =? S (List.length ids))%nat eqn:Cc; cbn [negb] in E; clean_run E.
  2:{ finished E. left. split; [|now repeat split].
      do 4 right. left. now apply Nat.eqb_neq. }
  destruct (date_time H (startTime b)) as [startDate|] eqn:Ds; clean_run E.
  2:{ finished E. left. split; [|now repeat split]. do 5 right. now left. }
  destruct (date_time H (endTime b)) as [endDate|] eqn:De; clean_run E.
  2:{ finished E. left. split; [|now repeat split]. do 6 right. now left. }
  destruct (startDate <=? now) eqn:Fut; clean_run E.
  { finished E. left. split; [|now repeat split].
    do 7 right. left. exists startDate. split; [reflexivity|].
    now apply Z.leb_le. }
  destruct (endDate <=? startDate) eqn:Aft; clean_run E.
  { finished E. left. split; [|now repeat split].
    do 8 right. left. exists startDate, endDate.
    repeat split. now apply Z.leb_le. }
  destruct (JS.parseInt_number c) as [n|] eqn:Pc; clean_run E.
  2:{ finished E. left. split; [|now repeat split].
      do 9 right. exists c. split; [reflexivity|]. now rewrite Pc. }
  destruct ((n <? 1) || (50 <? n)) eqn:Cap; clean_run E.
  { finished E. left. split; [|now repeat split].
    do 9 right. exists c. split; [reflexivity|]. rewrite Pc.
    apply orb_true_iff in Cap. rewrite !Z.ltb_lt in Cap. exact Cap. }
  finished E. right.
  split.
  { apply orb_false_iff in Cap. rewrite !Z.ltb_ge in Cap.
    apply Z.leb_gt in Fut, Aft. apply Nat.ltb_ge in Len.
    apply Nat.eqb_eq in Cc.
    apply truthy_true in Ti, Ty, St, En.
    intros [V|[V|[V|[V|[V|[V|[V|[V|[V|V]]]]]]]]].
    - destruct V as [V|[V|[V|[V|[V|[V|V]]]]]]; congruence.
    - discriminate V.
    - lia.
    - apply includes_kinds in V. congruence.
    - contradiction.
    - discriminate V.
    - discriminate V.
    - destruct V as (x & Ex & Lx). injection Ex as <-. lia.
    - destruct V as (x & y & Ex & Ey & L). injection Ex as <-.
      injection Ey as <-. lia.
    - destruct V as (x & Ex & L). injection Ex as <-. rewrite Pc in L.
      lia. }
  split; [reflexivity|]. split; [reflexivity|].
  split. { unfold created_session. rewrite Ec. cbn [num]. rewrite Pc.
           reflexivity. }
  cbn. now rewrite map_map.
Qed.

(** A key selects at most one row. *)
Lemma keyed_filter_le1 {A : Type} (f : A -> Z) (l : list A) (k : Z) :
  NoDup (map f l) ->
  (List.length (filter (fun x => (f x =? k)%Z) l) <= 1)%nat.
Proof.
  induction l as [|a l IH]; cbn [map filter]; intros N; [cbn; lia|].
  inversion N as [|y ys Nin Nd]; subst.
  destruct (f a =? k) eqn:E; [|auto].
  apply Z.eqb_eq in E. cbn [List.length].
  assert (Z0 : filter (fun x => f x =? k) l = []).
  { destruct (filter (fun x => f x =? k) l) as [|y ys] eqn:F;
      [reflexivity|].
    exfalso. destruct (hd_filter _ _ _ _ F) as [Iy Ey].
    apply Z.eqb_eq in Ey. apply Nin. rewrite E, <- Ey. now apply in_map. }
  rewrite Z0. cbn. lia.
Qed.

Lemma NoDup_second_of_pair {A : Type} (a b : A -> Z) (u : Z) (l : list A) :
  NoDup (map (fun x => (a x, b x)) l) ->
  (forall x, In x l -> a x = u) ->
  NoDup (map b l).
Proof.
  induction l as [|x l IH]; cbn [map]; intros N U; [constructor|].
  inversion N as [|y ys Nin Nd]; subst.
  constructor.
  - intros I. apply Nin. apply in_map_iff in I. destruct I as [z [Ez Iz]].
    apply in_map_iff. exists z. split; [|exact Iz].
    rewrite Ez, (U z (or_intror Iz)), (U x (or_introl eq_refl)).
    reflexivity.
  - apply IH; [exact Nd|]. intros z Iz. apply U. now right.
Qed.

Section CourseCheck.

Variables (db : database) (uid : Z) (ids : list Z).
Hypothesis Keys : catalogue_keyed db.

Lemma joined_at_most_once (tc : tutor_course) :
  joined_courses db tc = []
  \/ exists row, joined_courses db tc = [row]
                 /\ course_of row = tc_course_id tc.
Proof.
  destruct Keys as (_ & Kc & Kd). unfold joined_courses.
  pose proof (keyed_filter_le1 c_course_id (courses db) (tc_course_id tc) Kc)
    as Lc.
  destruct (filter (fun c => c_course_id c =? tc_course_id tc) (courses db))
    as [|c [|c' cs]]; cbn [List.length] in Lc; try lia; [now left|].
  cbn [flat_map]. rewrite app_nil_r.
  pose proof (keyed_filter_le1 d_department_id (departments db)
                (c_department_id c) Kd) as Ld.
  destruct (filter (fun d => d_department_id d =? c_department_id c)
              (departments db))
    as [|d [|d' ds]]; cbn [List.length] in Ld; try lia; [now left|].
  right. eexists. split; reflexivity.
Qed.

Lemma joined_courses_NoDup (l : list tutor_course) :
  NoDup (map tc_course_id l) ->
  NoDup (map course_of (flat_map (joined_courses db) l))
  /\ incl (map course_of (flat_map (joined_courses db) l)) (map tc_course_id l).
Proof.
  induction l as [|tc l IH]; cbn [map flat_map]; intros N.
  { split; [constructor | intros x []]. }
  inversion N as [|y ys Nin Nd]; subst.
  destruct (IH Nd) as [IHn IHi].
  destruct (joined_at_most_once tc) as [->|(row & -> & Er)]; cbn [app map].
  - split; [exact IHn|]. intros x I. right. now apply IHi.
  - rewrite Er. split.
    + constructor; [|exact IHn]. intros I. apply Nin. now apply IHi.
    + intros x [<-|I]; [now left | right; now apply IHi].
Qed.

(** When some course id of the request is not a course of the tutor, the
    course check finds fewer rows than there are course ids. *)
Lemma untaught_course_miscounts :
  (exists c : Z,
     In c ids /\ ~ In (TutorCourse uid c) (tutor_courses db)) ->
  List.length (select_tutor_courses uid ids db) <> List.length ids.
Proof.
  intros (c & Ic & Untaught).
  pose (l := filter (fun tc => (tc_tutor_user_id tc =? uid)
                               && existsb (Z.eqb (tc_course_id tc)) ids)
               (tutor_courses db)).
  assert (Sel : select_tutor_courses uid ids db = flat_map (joined_courses db) l)
    by reflexivity.
  assert (Nl : NoDup (map tc_course_id l)).
  { apply (NoDup_second_of_pair tc_tutor_user_id tc_course_id uid).
    - unfold l. apply key_survives_delete. exact (proj1 Keys).
    - intros x I. apply filter_In in I. destruct I as [_ P].
      apply andb_true_iff in P. destruct P as [P _]. now apply Z.eqb_eq. }
  destruct (joined_courses_NoDup l Nl) as [Nj Ij].
  assert (In_ids : incl (map course_of (flat_map (joined_courses db) l))
                     (remove Z.eq_dec c ids)).
  { intros x I. apply Ij in I. apply in_map_iff in I.
    destruct I as [tc [<- I]]. apply filter_In in I.
    destruct I as [I P]. apply andb_true_iff in P. destruct P as [Pu Pi].
    apply Z.eqb_eq in Pu. apply existsb_exists in Pi.
    destruct Pi as [y [Iy Ey]]. apply Z.eqb_eq in Ey. subst y.
    apply in_in_remove; [|exact Iy].
    intros Same. apply Untaught. destruct tc as [tu tcid].
    cbn in *. now subst. }
  pose proof (NoDup_incl_length Nj In_ids) as Le.
  pose proof (remove_length_lt Z.eq_dec ids c Ic) as Lt.
  rewrite Sel, <- (length_map course_of). lia.
Qed.

End CourseCheck.

(** C5, as the code has it.  A creation by a signed-in tutor, when no query
    throws.  It is refused with 400 exactly when one of the handler's
    reasons holds: a required field absent or falsy, no course, a title
    longer than 150 once trimmed, a kind that is neither open nor
    one_on_one, a count of the tutor's rows for the requested courses that
    differs from the number of course ids, a start or an end that does not
    parse, a start that is not after [now], an end that is not after the
    start, a capacity that [parseInt] does not read as a number from 1 to
    50; a refusal writes nothing.  A success answers 201 and stores one
    session, scheduled, with its course links, of capacity 1 when the kind
    is one_on_one and of the capacity that [parseInt] read otherwise.
    [parseInt] reads a number up to [2^53] in size as what it is, so that
    such a capacity outside [1, 50] is refused with 400 and such a capacity
    is stored as requested; of a number that is printed in exponent
    notation it reads the first digit.  A start equal to [now] is refused; and where the
    catalogue tables have their keys, so is a course id that is not a
    course of the tutor. *)
Theorem createSession_refuses_exactly_its_reasons :
  forall (H : host) (tutor : Z) (b : session_body) (now : Z) (db : database)
         (r : response) (w : world),
    tutor <> 0 -> select_tutor tutor db <> [] ->
    serve (createSession H (Some tutor) b now) None db = (r, w) ->
    (refusal_reason H db tutor b now
     <-> status_code r = 400 /\ succeeded r = false)
    /\ (refusal_reason H db tutor b now -> store w = db)
    /\ (succeeded r = true ->
          status_code r = 201
          /\ sessions (store w) = sessions db ++ [created_session db tutor b]
          /\ session_courses (store w)
             = session_courses db
               ++ map (SessionCourse (next_session_id db)) (course_ids b)
          /\ s_status (created_session db tutor b) = "scheduled"%string
          /\ (sessionType b = "one_on_one"%string ->
                s_capacity (created_session db tutor b) = 1)
          /\ (sessionType b <> "one_on_one"%string ->
                JS.parseInt_number (num (capacity b))
                = Some (s_capacity (created_session db tutor b))
                /\ 1 <= s_capacity (created_session db tutor b) <= 50
                /\ (Z.abs (num (capacity b)) <= 2 ^ 53 ->
                    capacity b
                    = Some (s_capacity (created_session db tutor b)))))
    /\ (forall c : Z,
          capacity b = Some c -> Z.abs c <= 2 ^ 53 -> c < 1 \/ 50 < c ->
          status_code r = 400 /\ store w = db)
    /\ (date_time H (startTime b) = Some now -> succeeded r = false)
    /\ (catalogue_keyed db ->
        (exists c : Z,
           In c (course_ids b)
           /\ ~ In (TutorCourse tutor c) (tutor_courses db)) ->
        succeeded r = false).
Proof.
  intros H tutor b now db r w T Tutor E.
  destruct (createSession_decides H tutor b now db r w T Tutor E)
    as [(V & C & F & S)|(NV & C & Ok & S & L)].
  - split; [tauto|]. split; [auto|].
    split; [intros Hs; congruence|]. split; [auto|]. split; auto.
  - split.
    { split; [contradiction|]. intros [C' _]. congruence. }
    split; [contradiction|].
    split.
    { intros _. split; [exact C|]. split; [exact S|]. split; [exact L|].
      split; [reflexivity|]. unfold created_session. cbn [s_capacity].
      split.
      - intros ->. reflexivity.
      - intros K. apply String.eqb_neq in K. rewrite K.
        destruct (capacity b) as [c|] eqn:Ec.
        + cbn [num].
          destruct (JS.parseInt_number c) as [n|] eqn:Pc;
            [|exfalso; apply NV; do 9 right; exists c;
              split; [exact Ec | now rewrite Pc]].
          cbn [num]. split; [reflexivity|]. split.
          * destruct (Z_lt_dec n 1) as [Lo|Lo];
              [exfalso; apply NV; do 9 right; exists c;
               split; [exact Ec | rewrite Pc; auto]|].
            destruct (Z_lt_dec 50 n) as [Hi|Hi];
              [exfalso; apply NV; do 9 right; exists c;
               split; [exact Ec | rewrite Pc; auto]|].
            lia.
          * intros Safe. rewrite (parseInt_number_safe c Safe) in Pc.
            now injection Pc as ->.
        + exfalso. apply NV. left. tauto. }
    split.
    { intros c Ec Safe Out. exfalso. apply NV. do 9 right. exists c.
      split; [exact Ec|]. now rewrite (parseInt_number_safe c Safe). }
    split.
    + intros Now. exfalso. apply NV. do 7 right. left.
      exists now. split; [exact Now | lia].
    + intros Keys Untaught. exfalso. apply NV. do 4 right. left.
      now apply untaught_course_miscounts.
Qed.

Lemma createSession_refuses_exactly_its_reasons_witness :
  let call := serve (createSession sample_host (Some 1) sample_body new_year_2026)
                None sample_db in
  status_code (fst call) = 201
  /\ map s_capacity (sessions (store (snd call))) = [2; 1].
Proof.
  intro call.
  assert (T : 1 <> 0) by lia.
  assert (Tutor : select_tutor 1 sample_db <> []) by discriminate.
  destruct (createSession_refuses_exactly_its_reasons
              sample_host 1 sample_body new_year_2026 sample_db (fst call) (snd call)
              T Tutor (surjective_pairing call))
    as (_ & _ & Ok & _).
  destruct (Ok eq_refl) as (C & S & _ & _ & One & _).
  split; [exact C|]. rewrite S, map_app. cbn [map]. rewrite One; reflexivity.
Defined.

(** C5, counterexample to the claim as stated.  A body with an empty title
    and nothing else wrong is refused with 400, although none of the
    reasons that the claim lists holds. *)
Lemma empty_title_refused_without_listed_reason :
  let b := SessionBody "" "open" (Some [100]) "2026-03-01T10:00:00"
             "2026-03-01T11:00:00" (Some 7) None in
  let call := serve (createSession sample_host (Some 1) b new_year_2026)
                None sample_db in
  status_code (fst call) = 400
  /\ succeeded (fst call) = false
  /\ ~ listed_reason sample_host sample_db 1 b new_year_2026.
Proof.
  intros b call. split; [reflexivity|]. split; [reflexivity|].
  unfold listed_reason. intros [V|[V|[V|[V|[V|V]]]]].
  - cbn in V. lia.
  - discriminate V.
  - destruct V as (c & [<-|[]] & N). apply N. left. reflexivity.
  - destruct V as [V _]. now apply V.
  - vm_compute in V. destruct V as [V|V]; now apply V.
  - cbn in V. lia.
Qed.

(** C5, the other way round.  A capacity of [10^21] is far outside
    [1, 50], and the creation succeeds: the number prints as [1e+21], of
    which [parseInt] reads 1, and the session is stored with capacity 1. *)
Lemma huge_capacity_is_read_as_its_first_digit :
  let b := SessionBody "Linear maps" "open" (Some [100])
             "2026-03-01T10:00:00" "2026-03-01T11:00:00"
             (Some (10 ^ 21)) None in
  let call := serve (createSession sample_host (Some 1) b new_year_2026)
                None sample_db in
  listed_reason sample_host sample_db 1 b new_year_2026
  /\ status_code (fst call) = 201
  /\ map s_capacity (sessions (store (snd call))) = [2; 1].
Proof.
  intros b call. split; [|split; vm_compute; reflexivity].
  unfold listed_reason. do 5 right. cbn [capacity b]. right.
  vm_compute. reflexivity.
Qed.

(** ** Session and course links *)

(** C6, as the code has it.  The session row and its course links are
    written by two statements, the row first.  Whatever the input and
    whichever query throws, a creation ends in one of three ways: nothing
    was added to [sessions] or [session_courses], and the answer is a
    failure; or the session row was added and no course link, and the
    answer is the 500 of a query that threw; or the row and one link per
    course id were added, and the answer is a success.  Links are never
    added without the row. *)
Theorem createSession_writes_row_then_links :
  forall (H : host) (userId : option Z) (b : session_body) (now : Z)
         (fault : option nat) (db : database),
    let call := serve (createSession H userId b now) fault db in
    let r := fst call in
    let w := snd call in
    let row := created_session db (num userId) b in
    let links := map (SessionCourse (next_session_id db)) (course_ids b) in
    (sessions (store w) = sessions db
     /\ session_courses (store w) = session_courses db
     /\ succeeded r = false)
    \/ (sessions (store w) = sessions db ++ [row]
        /\ session_courses (store w) = session_courses db
        /\ r = failure 500 "Failed to create session")
    \/ (sessions (store w) = sessions db ++ [row]
        /\ session_courses (store w) = session_courses db ++ links
        /\ succeeded r = true).
Proof.
  intros H userId b now fault db call r w row links.
  pose (untouched := fun w : world =>
          sessions (store w) = sessions db
          /\ session_courses (store w) = session_courses db
          /\ next_session_id (store w) = next_session_id db).
  pose (row_only := fun w : world =>
          sessions (store w) = sessions db ++ [row]
          /\ session_courses (store w) = session_courses db).
  pose (linked := fun w : world =>
          sessions (store w) = sessions db ++ [row]
          /\ session_courses (store w) = session_courses db ++ links).
  assert (Su : steady untouched) by (intros d t f f' _ U; exact U).
  assert (Sr : steady row_only) by (intros d t f f' _ U; exact U).
  assert (Body :
    forall body : M response,
      triple untouched body
        (fun r w => (untouched w /\ succeeded r = false)
                    \/ (linked w /\ succeeded r = true))
        (fun w => untouched w \/ row_only w) ->
      forall on_error,
        succeeded on_error = false ->
        let c := try_catch body on_error (World db [] fault) in
        (untouched (snd c) /\ succeeded (fst c) = false)
        \/ (row_only (snd c) /\ fst c = on_error)
        \/ (linked (snd c) /\ succeeded (fst c) = true)).
  { intros body T on_error F. unfold try_catch.
    specialize (T (World db [] fault)).
    destruct (body (World db [] fault)) as [[a|] w'].
    - destruct T as [U|L]; [now repeat split | now left | now right; right].
    - destruct T as [U|R]; [now repeat split | now left | right; now left]. }
  assert (Refuse : forall (c : Z) (m : string),
            triple untouched (ret (failure c m))
              (fun r w => (untouched w /\ succeeded r = false)
                          \/ (linked w /\ succeeded r = true))
              (fun w => untouched w \/ row_only w)).
  { intros c m. apply triple_ret. intros w0 U. left. now split. }
  unfold w, r, call, serve, createSession.
  destruct (negb (JS.truthy_num userId)).
  { left. repeat split; reflexivity. }
  cbv zeta.
  match goal with
  | |- context [try_catch ?body ?err] =>
      destruct (Body body) with (on_error := err)
        as [(U & F)|[(R & F)|(L & F)]]
  end.
  - (* the body *)
    destruct (negb (JS.truthy (title b)) || negb (JS.truthy (sessionType b))
              || match courseIds b with Some _ => false | None => true end
              || negb (JS.truthy (startTime b))
              || negb (JS.truthy (endTime b))
              || negb (JS.truthy_num (capacity b))); [apply Refuse|].
    fold (course_ids b).
    destruct (List.length (course_ids b) =? 0)%nat; [apply Refuse|].
    destruct (150 <? JS.js_length (JS.trim (title b)))%nat; [apply Refuse|].
    destruct (negb (JS.includes ["open"; "one_on_one"] (sessionType b)));
      [apply Refuse|].
    eapply triple_bind; [apply triple_query; [exact Su | now left]|].
    intros tutorCheck. apply (triple_pre _ untouched); [now intros ? [? _]|].
    destruct (List.length tutorCheck =? 0)%nat; [apply Refuse|].
    eapply triple_bind; [apply triple_query; [exact Su | now left]|].
    intros courseCheck. apply (triple_pre _ untouched); [now intros ? [? _]|].
    destruct (negb (List.length courseCheck
                    =? List.length (course_ids b))%nat); [apply Refuse|].
    destruct (date_time H (startTime b)) as [startDate|]; [|apply Refuse].
    destruct (date_time H (endTime b)) as [endDate|]; [|apply Refuse].
    destruct (startDate <=? now); [apply Refuse|].
    destruct (endDate <=? startDate); [apply Refuse|].
    destruct (match JS.parseInt_number (num (capacity b)) with
              | Some capacityNum => (capacityNum <? 1) || (50 <? capacityNum)
              | None => true
              end); [apply Refuse|].
    eapply triple_bind.
    { apply (triple_run _ _
               (fun res w0 => row_only w0
                              /\ insertId res = next_session_id db)).
      - exact Su.
      - now left.
      - intros [d t f] (Us & Uc & Un). cbn [store] in *.
        split; [split|]; cbn; [|exact Uc|exact Un].
        rewrite Us. unfold row, created_session. now rewrite Un. }
    intros sessionResult.
    apply (triple_assume _ _ _ _ (insertId sessionResult = next_session_id db));
      [now intros ? [_ ?]|].
    intros ->. apply (triple_pre _ row_only); [now intros ? [? _]|].
    eapply triple_bind.
    { apply (triple_run _ _ (fun _ => linked)).
      - exact Sr.
      - now right.
      - intros [d t f] (Rs & Rc). cbn [store] in *. split; cbn; [exact Rs|].
        rewrite Rc. unfold links. now rewrite map_map. }
    intros ?; cbv beta.
    apply triple_ret. intros w0 L. right. split; [exact L|reflexivity].
  - reflexivity.
  - left. destruct U as (Us & Uc & _). now repeat split.
  - right. left. destruct R as (Rs & Rc). now repeat split.
  - right. right. destruct L as (Ls & Lc). now repeat split.
Qed.

(** C6, counterexample to the claim as stated.  The insert of the course
    links is the fourth query of a creation; when it throws, the answer is
    500 and the session row stays, without any course link. *)
Lemma session_row_without_course_links :
  let call := serve (createSession sample_host (Some 1) sample_body new_year_2026)
                (Some 3%nat) sample_db in
  status_code (fst call) = 500
  /\ map s_session_id (select_session 11 (store (snd call))) = [11]
  /\ select_session 11 sample_db = []
  /\ filter (fun sc => sc_session_id sc =? 11)
       (session_courses (store (snd call))) = [].
Proof. intro call. repeat split; reflexivity. Qed.

(** ** Signed-out callers and storage failures *)

(** X1.  A call made without a signed-in user is answered 401 before any
    query is attempted: the store, the trace and even the fault budget are
    as they were.  This holds for the six lifecycle operations, for session
    creation, for the status lookup and for the mailbox. *)
Theorem signed_out_calls_never_query :
  forall (H : host) (fault : option nat) (db : database),
    (forall op : operation,
       JS.truthy_num (caller op) = false ->
       status_code (fst (serve (perform H op) fault db)) = 401
       /\ succeeded (fst (serve (perform H op) fault db)) = false
       /\ snd (serve (perform H op) fault db) = World db [] fault)
    /\ (forall (userId : option Z) (b : session_body) (now : Z),
          JS.truthy_num userId = false ->
          serve (createSession H userId b now) fault db
          = (failure 401 "Not authenticated", World db [] fault))
    /\ (forall (userId : option Z) (sessionId : string),
          JS.truthy_num userId = false ->
          serve (getSessionRequestStatus userId sessionId) fault db
          = (failure 401 "You must be logged in", World db [] fault))
    /\ (forall op : mail_operation,
          JS.truthy_num (mail_caller op) = false ->
          serve (mail_perform op) fault db
          = (failure 401 "You must be logged in", World db [] fault)).
Proof.
  intros H fault db. split; [|split; [|split]].
  - intros op Out. destruct op; cbn [perform caller] in *;
      [ unfold sendSessionRequest | unfold acceptSessionRequest
      | unfold denySessionRequest | unfold unenrollFromSession
      | unfold removeStudentFromSession | unfold deleteSession ];
      rewrite Out; repeat split.
  - intros userId b now Out. unfold createSession. now rewrite Out.
  - intros userId sessionId Out. unfold getSessionRequestStatus.
    now rewrite Out.
  - intros op Out. destruct op; cbn [mail_perform mail_caller] in *;
      [ unfold getUnreadCount | unfold deleteMessage
      | unfold restoreFromTrash | unfold deleteDraft | unfold emptyTrash ];
      now rewrite Out.
Qed.

Lemma signed_out_calls_never_query_witness :
  serve (perform sample_host (Accept None "5" 99)) (Some 0%nat) sample_db
  = (failure 401 "You must be logged in", World sample_db [] (Some 0%nat)).
Proof.
  destruct (signed_out_calls_never_query sample_host (Some 0%nat) sample_db)
    as [Ops _].
  destruct (Ops (Accept None "5" 99) eq_refl) as (_ & _ & W).
  rewrite (surjective_pairing (serve _ _ _)), W. reflexivity.
Defined.

Section Yielding.

Context {A B : Type}.

Lemma yields_ret (Q : A -> Prop) (a : A) : Q a -> yields Q (ret a).
Proof. intros Qa w. exact Qa. Qed.

Lemma yields_bind (Q : B -> Prop) (m : M A) (k : A -> M B) :
  (forall a, yields Q (k a)) -> yields Q (bind m k).
Proof.
  intros Yk w. unfold bind. destruct (m w) as [[a|] w']; [|exact I].
  apply Yk.
Qed.

End Yielding.

Lemma returns_ret {A : Type} (a : A) : returns (ret a).
Proof. apply triple_ret. auto. Qed.

Lemma returns_bind {A B : Type} (m : M A) (k : A -> M B) :
  returns m -> (forall a, returns (k a)) -> returns (bind m k).
Proof. intros Rm Rk. now apply (triple_bind _ m k (fun _ => unfailing)). Qed.

Lemma returns_query {A : Type} (q : database -> A) : returns (query q).
Proof.
  intros [db t f] F. unfold unfailing in F. cbn in F. subst f. exact eq_refl.
Qed.

Lemma returns_run (st : statement) : returns (run st).
Proof.
  intros [db t f] F. unfold unfailing in F. cbn in F. subst f. exact eq_refl.
Qed.

Lemma returns_for_of {A : Type} (xs : list A) (body : A -> M unit) :
  (forall x, returns (body x)) -> returns (for_of xs body).
Proof.
  intros Rb. induction xs as [|x xs IH]; cbn [for_of].
  - apply returns_ret.
  - apply returns_bind; [apply Rb | intros _; exact IH].
Qed.

(** The text method is there on text, and is not called on what is
    falsy. *)
Lemma returns_optional_text (v : JS.value) :
  text_or_falsy v -> returns (optional_text v).
Proof.
  intros Tx. destruct v as [t|[|]]; cbn [optional_text];
    [apply returns_ret | now contradiction Tx | apply returns_ret].
Qed.

(** One step down a computation, for [returns] and for [yields]. *)
Ltac descend :=
  match goal with
  | |- returns (optional_text _) => apply returns_optional_text; assumption
  | |- returns (if ?c then _ else _) => destruct c
  | |- returns (match ?x with _ => _ end) => destruct x
  | |- returns (let _ := _ in _) => cbv zeta
  | |- returns (ret _) => apply returns_ret
  | |- returns (query _) => apply returns_query
  | |- returns (run _) => apply returns_run
  | |- returns (for_of _ _) => apply returns_for_of; intros ?
  | |- returns (bind _ _) => apply returns_bind; [|intros ?]
  | |- yields _ (if ?c then _ else _) => destruct c
  | |- yields _ (match ?x with _ => _ end) => destruct x
  | |- yields _ (let _ := _ in _) => cbv zeta
  | |- yields _ (ret _) => apply yields_ret; cbv beta
  | |- yields _ (bind _ _) => apply yields_bind; intros ?
  end.

Lemma returns_notify (sender receiver : Z)
    (subject message_type content : string) :
  returns (notify sender receiver subject message_type content).
Proof. unfold notify. repeat descend. Qed.

Lemma below_500_try_catch (fault : option nat) (db : database)
    (body : M response) (on_error : response) :
  yields (fun r => status_code r <> 500) body -> returns body ->
  below_500 fault db on_error (try_catch body on_error).
Proof.
  intros Y R. unfold below_500, try_catch.
  specialize (Y (World db [] fault)). specialize (R (World db [] fault)).
  destruct (body (World db [] fault)) as [[a|] w']; cbn [fst].
  - split; auto.
  - split; [now left|]. intros ->. exfalso. now apply R.
Qed.

Lemma below_500_reply (fault : option nat) (db : database)
    (a on_error : response) :
  status_code a <> 500 -> below_500 fault db on_error (reply a).
Proof. intros Qa. unfold below_500. cbn. auto. Qed.

Lemma caught_500_try_catch (fault : option nat) (db : database)
    (body : M response) (on_error : response) :
  yields (fun r => status_code r <> 500) body ->
  caught_500 fault db on_error (try_catch body on_error).
Proof.
  intros Y. unfold caught_500, try_catch.
  specialize (Y (World db [] fault)).
  destruct (body (World db [] fault)) as [[a|] w']; cbn [fst]; auto.
Qed.

Lemma caught_500_reply (fault : option nat) (db : database)
    (a on_error : response) :
  status_code a <> 500 -> caught_500 fault db on_error (reply a).
Proof. intros Qa. unfold caught_500. cbn. auto. Qed.

Ltac answers_caught_500 :=
  repeat match goal with
    | |- caught_500 _ _ _ (if ?c then _ else _) => destruct c
    | |- caught_500 _ _ _ (match ?x with _ => _ end) => destruct x
    | |- caught_500 _ _ _ (let _ := _ in _) => cbv zeta
    | |- caught_500 _ _ _ (reply _) => apply caught_500_reply
    | |- caught_500 _ _ _ (try_catch _ _) => apply caught_500_try_catch
    | |- yields _ _ => descend
    | |- status_code _ <> 500 => cbn [status_code failure success]; lia
    end.

Ltac answers_below_500 :=
  repeat match goal with
    | |- below_500 _ _ _ (if ?c then _ else _) => destruct c
    | |- below_500 _ _ _ (match ?x with _ => _ end) => destruct x
    | |- below_500 _ _ _ (let _ := _ in _) => cbv zeta
    | |- below_500 _ _ _ (reply _) => apply below_500_reply
    | |- below_500 _ _ _ (try_catch _ _) => apply below_500_try_catch
    | |- returns (notify _ _ _ _ _) => apply returns_notify
    | |- returns _ => descend
    | |- yields _ _ => descend
    | |- status_code _ <> 500 => cbn [status_code failure success]; lia
    end.

(** X2.  A 500 is the answer to a throw, and to nothing else.  Whatever
    throws, a 500 answer of an operation of the lifecycle core is the one
    envelope, with the fixed text of its handler, that the handler's
    [catch] returns.  When no query throws, and the optional text that the
    body carries (the reason of a denial, the message of a join request) is
    text or is falsy, no operation answers 500.  A denial whose reason is
    truthy and not text, by the tutor of a pending request, is answered 500
    although no query throws: [reason.trim()] does. *)
Theorem only_a_throw_is_answered_500 :
  forall (H : host) (op : operation) (fault : option nat) (db : database),
    let r := fst (serve (perform H op) fault db) in
    (fault = None -> well_typed op -> status_code r <> 500)
    /\ (status_code r = 500 -> r = on_error op)
    /\ (forall (tutor : Z) (id : string) (now rid : Z)
               (request : session_join_request) (s : session) (student : user)
               (rest : list (session_join_request * session * user)),
          op = Deny (Some tutor) id (JS.Other true) now ->
          fault = None -> tutor <> 0 -> JS.parseInt id = Some rid ->
          select_request_for_denial rid db = (request, s, student) :: rest ->
          sjr_tutor_user_id request = tutor -> sjr_status request = pending ->
          status_code r = 500).
Proof.
  intros H op fault db r. split; [|split].
  - intros Clean Typed.
    assert (T : below_500 fault db (on_error op) (perform H op)).
    { destruct op; cbn [perform on_error well_typed] in *;
        [ unfold sendSessionRequest | unfold acceptSessionRequest
        | unfold denySessionRequest | unfold unenrollFromSession
        | unfold removeStudentFromSession | unfold deleteSession ];
        answers_below_500. }
    destruct T as [_ Below]. now apply Below.
  - assert (T : caught_500 fault db (on_error op) (perform H op)).
    { destruct op; cbn [perform on_error];
        [ unfold sendSessionRequest | unfold acceptSessionRequest
        | unfold denySessionRequest | unfold unenrollFromSession
        | unfold removeStudentFromSession | unfold deleteSession ];
        answers_caught_500. }
    destruct T as [Err|Below]; [auto | intros Five; contradiction].
  - intros tutor id now rid request s student rest -> -> T P Q Own St.
    unfold r. cbn [perform]. unfold denySessionRequest.
    rewrite (truthy_num_some _ T), P. cbn [negb num].
    cbv [serve try_catch bind ret throw optional_text query run attempt].
    cbn [faults store trace]. rewrite Q, Own, Z.eqb_refl, St.
    reflexivity.
Qed.

Lemma only_a_throw_is_answered_500_witness :
  status_code
    (fst (serve (perform sample_host (Deny (Some 1) "5" (JS.Str "Full") 99))
            None sample_db)) = 200
  /\ status_code
       (fst (serve (perform sample_host (Deny (Some 1) "5" (JS.Other true) 99))
               None sample_db)) = 500.
Proof.
  split; [reflexivity|].
  destruct (only_a_throw_is_answered_500 sample_host
              (Deny (Some 1) "5" (JS.Other true) 99) None sample_db)
    as (_ & _ & Thrown).
  apply (Thrown 1 "5" 99 5 (SessionJoinRequest 5 10 2 1 7 pending None)
           (Session 10 1 "Algebra" "2026-01-01 10:00:00"
              "2026-01-01 11:00:00" "open" 2 None "scheduled")
           (User 2 "Bob" "Stone" "Student") []);
    try reflexivity; lia.
Defined.

(** ** Removal by the tutor, and denial *)



(** X4.  Denying a request that is there, by a signed-in caller, when no
    query throws.  A caller who is not the tutor recorded on the request is
    refused with 403, and the tutor with 400 when the request is not
    pending, both before any write.  The tutor of a pending request who
    gives a reason that is text, or none, is never refused: the denial does
    not look at the capacity of the session or at its enrollments.  With a
    reason that is truthy and not text, the request is marked denied, then
    [reason.trim()] throws and the answer is the 500 of the [catch]; no
    message is sent. *)
Theorem deny_is_gated_but_not_by_capacity :
  forall (tutor : Z) (id : string) (reason : JS.value) (now : Z)
         (db : database) (requestId : Z) (request : session_join_request)
         (s : session) (student : user)
         (rest : list (session_join_request * session * user))
         (r : response) (w : world),
    tutor <> 0 -> JS.parseInt id = Some requestId ->
    select_request_for_denial requestId db = (request, s, student) :: rest ->
    serve (denySessionRequest (Some tutor) id reason now) None db = (r, w) ->
    (sjr_tutor_user_id request <> tutor ->
       r = failure 403 "You are not authorized to deny this request"
       /\ w = World db [] None)
    /\ (sjr_tutor_user_id request = tutor -> sjr_status request <> pending ->
        r = failure 400 ("This request has already been "
                         ++ status_text (sjr_status request))%string
        /\ w = World db [] None)
    /\ (sjr_tutor_user_id request = tutor -> sjr_status request = pending ->
        text_or_falsy reason ->
        r = success 200 ("Request from " ++ full_name student
                         ++ " has been denied")%string)
    /\ (sjr_tutor_user_id request = tutor -> sjr_status request = pending ->
        reason = JS.Other true ->
        r = failure 500 "Failed to deny request. Please try again."
        /\ store w = exec (UPDATE_request_status requestId denied now) db).
Proof.
  intros tutor id reason now db rid request s student rest r w T P Q E.
  unfold denySessionRequest in E.
  rewrite (truthy_num_some _ T), P in E. cbn [negb num] in E.
  clean_run E. rewrite Q in E.
  destruct (sjr_tutor_user_id request =? tutor) eqn:O; cbn [negb] in E.
  2:{ apply Z.eqb_neq in O. finished E.
      split; [now split|]. split; [intros C; contradiction|].
      split; intros C; contradiction. }
  apply Z.eqb_eq in O.
  destruct (status_eqb (sjr_status request) pending) eqn:St; cbn [negb] in E.
  - apply status_eqb_eq in St.
    split; [intros C; contradiction|].
    split; [intros _ C; contradiction|].
    destruct reason as [t|[|]]; finished E.
    + split; [intros _ _ _; reflexivity | intros _ _ C; discriminate C].
    + split; [intros _ _ C; now contradiction C | intros _ _ _; now split].
    + split; [intros _ _ _; reflexivity | intros _ _ C; discriminate C].
  - assert (N : sjr_status request <> pending).
    { intros C. apply status_eqb_eq in C. congruence. }
    finished E. split; [intros C; contradiction|].
    split; [now split|]. split; intros _ C; contradiction.
Qed.

Lemma deny_is_gated_but_not_by_capacity_witness :
  let full :=
    store (snd (serve (acceptSessionRequest sample_host (Some 1) "5" 99)
                  None sample_db)) in
  map (fun s => (enrolled_count full (s_session_id s), s_capacity s))
    (sessions full) = [(2, 2)]
  /\ fst (serve (denySessionRequest (Some 1) "6" (JS.Str "Full") 120)
            None full)
     = success 200 "Request from Dee Park has been denied".
Proof.
  intro full. split; [reflexivity|].
  pose (call := serve (denySessionRequest (Some 1) "6" (JS.Str "Full") 120)
                  None full).
  assert (T : 1 <> 0) by lia.
  assert (Q : select_request_for_denial 6 full
              = [(SessionJoinRequest 6 10 4 1 8 pending None,
                  Session 10 1 "Algebra" "2026-01-01 10:00:00"
                    "2026-01-01 11:00:00" "open" 2 None "scheduled",
                  User 4 "Dee" "Park" "Student")]) by reflexivity.
  destruct (deny_is_gated_but_not_by_capacity
              1 "6" (JS.Str "Full") 120 full 6 _ _ _ _ (fst call) (snd call)
              T eq_refl Q (surjective_pairing call)) as (_ & _ & Ok & _).
  apply Ok; [reflexivity | reflexivity | discriminate].
Defined.

(** ** One request per student and session *)

Lemma pairs_steady : steady pairs_unique.
Proof. intros db t f f' _ P. exact P. Qed.

Lemma vacant_steady (sid uid : Z) : steady (vacant sid uid).
Proof. intros db t f f' _ P. exact P. Qed.

(** Changing the status of requests changes neither their session nor their
    student. *)
Lemma update_keeps_pairs (p : session_join_request -> bool)
    (st : request_status) (now : Z) (l : list session_join_request) :
  map (fun r => (sjr_session_id r, sjr_requester_user_id r))
    (update_where p (set_status st now) l)
  = map (fun r => (sjr_session_id r, sjr_requester_user_id r)) l.
Proof.
  unfold update_where. rewrite map_map. apply map_ext.
  intros r. now destruct (p r).
Qed.

Lemma pairs_run (st : statement) :
  adds_no_request st = true -> keeps pairs_unique (run st).
Proof.
  intros Hm. apply keeps_run; [apply pairs_steady|].
  intros [db t f] P. unfold pairs_unique, one_request_per_pair in *.
  cbn [store] in *.
  destruct st; try discriminate Hm; try exact P; cbn [exec];
    cbn [session_join_requests with_session_join_requests];
    first [ now rewrite update_keeps_pairs
          | now apply key_survives_delete ].
Qed.

Lemma pairs_notify (sender receiver : Z)
    (subject message_type content : string) :
  keeps pairs_unique (notify sender receiver subject message_type content).
Proof.
  unfold notify.
  repeat first [ apply keeps_ret | apply pairs_run; reflexivity
               | apply keeps_bind; [|intros ?] | cbv zeta ].
Qed.

Lemma vacant_run (sid uid : Z) (st : statement) :
  off_requests st = true -> keeps (vacant sid uid) (run st).
Proof.
  intros Off. apply keeps_run; [apply vacant_steady|].
  intros [db t f] V. unfold vacant, one_request_per_pair in *.
  cbn [store] in *. destruct st; try discriminate Off; exact V.
Qed.

Lemma vacant_notify (sid uid sender receiver : Z)
    (subject message_type content : string) :
  keeps (vacant sid uid)
    (notify sender receiver subject message_type content).
Proof.
  unfold notify.
  repeat first [ apply keeps_ret | apply vacant_run; reflexivity
               | apply keeps_bind; [|intros ?] | cbv zeta ].
Qed.

(** A first request of a student for a session keeps the pairs apart. *)
Lemma pairs_insert (sid uid tutor mid : Z) (db : database) :
  one_request_per_pair db ->
  filter (of_pair sid uid) (session_join_requests db) = [] ->
  one_request_per_pair (exec (INSERT_session_join_request sid uid tutor mid) db).
Proof.
  unfold one_request_per_pair. intros N V. cbn. rewrite map_app. cbn [map].
  apply NoDup_app; [exact N | repeat constructor; intros [] |].
  intros k Ik [<-|[]]. apply in_map_iff in Ik. destruct Ik as [r [Er Ir]].
  injection Er as Es Eu.
  assert (I : In r (filter (of_pair sid uid) (session_join_requests db))).
  { apply filter_In. split; [exact Ir|]. unfold of_pair.
    apply andb_true_iff. split; now apply Z.eqb_eq. }
  rewrite V in I. contradiction.
Qed.

Ltac walk_pairs :=
  repeat first
    [ apply pairs_notify
    | apply pairs_run; reflexivity
    | walk_step pairs_steady ].

(** The part of a join request that comes after the look at earlier
    requests, from a store in which the student has none. *)
Lemma pairs_request_tail (sid uid tutor : Z)
    (subject content : string) (answer : Z -> response) :
  triple (vacant sid uid)
    (messageId <- notify uid tutor subject "session_join_request" content ;;
     run (INSERT_session_join_request sid uid tutor messageId) ;;;
     ret (answer messageId))
    (fun _ => pairs_unique) pairs_unique.
Proof.
  eapply triple_bind.
  { eapply triple_weaken; [apply (vacant_notify sid uid) | | |].
    - intros w V. exact V.
    - intros a w V. exact V.
    - now intros w [P _]. }
  intros messageId; cbv beta.
  eapply triple_bind.
  { apply (triple_run _ _ (fun _ => pairs_unique) pairs_unique).
    - apply vacant_steady.
    - now intros w [P _].
    - intros [db t f] [P V]. cbn [store] in *. now apply pairs_insert. }
  intros ?; cbv beta. apply triple_ret. auto.
Qed.

Lemma pairs_request (H : host) (userId : option Z) (b : session_request_body) :
  maintains pairs_unique (sendSessionRequest H userId b).
Proof.
  unfold sendSessionRequest.
  destruct (negb (JS.truthy_num userId)); [apply maintains_reply|].
  destruct (negb (JS.truthy_num (sessionId b))
            || negb (JS.truthy_num (tutorId b))); [apply maintains_reply|].
  cbv zeta. apply maintains_try_catch.
  apply keeps_bind; [apply (keeps_query _ pairs_steady)|].
  intros [|[s cnt] ?]; [apply keeps_ret|].
  destruct (other_tutor s (num (tutorId b))); [apply keeps_ret|].
  destruct (num userId =? s_tutor_id s); [apply keeps_ret|].
  destruct (cnt >=? s_capacity s); [apply keeps_ret|].
  eapply triple_bind.
  { apply triple_query; [apply pairs_steady | auto]. }
  intros existing.
  (* what comes after the look at earlier requests *)
  match goal with
  | |- triple _ (match existing with
                 | nil => ?tail
                 | _ => _
                 end) _ _ =>
      assert (Tail : triple (vacant (num (sessionId b)) (num userId)) tail
                       (fun _ => pairs_unique) pairs_unique)
  end.
  { eapply triple_bind.
    { apply triple_query; [apply vacant_steady | now intros w [P _]]. }
    intros enrolled; cbv beta.
    apply (triple_pre _ (vacant (num (sessionId b)) (num userId)));
      [now intros w [V _]|].
    destruct (negb (List.length enrolled =? 0)%nat).
    { apply triple_ret. now intros w [P _]. }
    eapply triple_bind.
    { apply triple_query; [apply vacant_steady | now intros w [P _]]. }
    intros students; cbv beta.
    apply (triple_pre _ (vacant (num (sessionId b)) (num userId)));
      [now intros w [V _]|].
    destruct students as [|student ?].
    { apply triple_ret. now intros w [P _]. }
    cbv zeta.
    apply (triple_bind _ _ _
             (fun _ => vacant (num (sessionId b)) (num userId))).
    { destruct (message_text b) as [t|[|]]; cbn [optional_text];
        [ apply triple_ret; auto
        | apply triple_throw; now intros w [P _]
        | apply triple_ret; auto ]. }
    intros message. apply pairs_request_tail. }
  destruct existing as [|[] ?].
  - apply (triple_pre _ (vacant (num (sessionId b)) (num userId)));
      [|exact Tail].
    intros w [P Q]. split; [exact P|].
    unfold select_request_status in Q.
    destruct (filter (of_pair (num (sessionId b)) (num userId))
                (session_join_requests (store w)));
      [reflexivity | discriminate Q].
  - apply triple_ret. now intros w [P _].
  - apply triple_ret. now intros w [P _].
  - eapply triple_bind; [|intros ?; exact Tail].
    apply (triple_run _ _ (fun _ => vacant (num (sessionId b)) (num userId))
             pairs_unique).
    + intros db t f f' _ [P Q]. split; [exact P | exact Q].
    + now intros w [P _].
    + intros [db t f] [P _]. unfold vacant, pairs_unique in *.
      cbn [store] in *. split.
      * unfold one_request_per_pair in *. cbn. now apply key_survives_delete.
      * cbn. apply filter_delete_where.
Qed.

Lemma pairs_perform (H : host) (op : operation) :
  maintains pairs_unique (perform H op).
Proof.
  destruct op; cbn [perform].
  - apply pairs_request.
  - unfold acceptSessionRequest. walk_pairs.
  - unfold denySessionRequest. walk_pairs.
  - unfold unenrollFromSession. walk_pairs.
  - unfold removeStudentFromSession. walk_pairs.
  - unfold deleteSession. walk_pairs.
Qed.

(** X5.  No student ever has two join requests for one session.  From a
    store in which no two rows of [session_join_requests] are about the
    same session and the same student, any sequence of lifecycle calls, any
    of them possibly cut short by a query that throws, leads to such a
    store: a new request is only inserted after the student was found to
    have none, or after the student's denied request was deleted. *)
Theorem one_request_per_student_and_session :
  forall (H : host) (calls : list (operation * option nat)) (db : database),
    one_request_per_pair db ->
    one_request_per_pair (perform_all H calls db).
Proof.
  intros H calls. induction calls as [|[op fault] calls IH]; intros db P;
    cbn [perform_all]; [exact P|].
  apply IH. exact (pairs_perform H op (World db [] fault) P).
Qed.

Lemma one_request_per_student_and_session_witness :
  one_request_per_pair
    (perform_all sample_host
       [(Deny (Some 1) "5" JS.absent 99, None);
        (CreateRequest (Some 2)
           (SessionRequestBody (Some 10) (Some 1) JS.absent), None)]
       sample_db).
Proof.
  apply one_request_per_student_and_session.
  unfold one_request_per_pair. cbn.
  repeat constructor; cbn; intuition congruence.
Defined.

(** ** The status of a request, as the student reads it *)

Lemma delete_where_vacant {A : Type} (p : A -> bool) (l : list A) :
  filter p l = [] -> delete_where p l = l.
Proof.
  unfold delete_where. induction l as [|x l IH]; cbn [filter];
    [reflexivity|].
  destruct (p x); cbn [negb]; [discriminate|].
  intros V. now rewrite (IH V).
Qed.

(** The student who is enrolled reads [enrolled], whatever requests there
    are. *)
Lemma status_enrolled (userId : option Z) (text : string) (sid : Z)
    (db : database) :
  JS.truthy_num userId = true -> JS.parseInt text = Some sid ->
  select_enrollment sid (num userId) db <> [] ->
  serve (getSessionRequestStatus userId text) None db
  = (Response 200
       [("success", JBool true);
        ("status", JStr "enrolled");
        ("message", JStr "You are already enrolled in this session")],
     World db [] None).
Proof.
  intros T P En. unfold getSessionRequestStatus. rewrite T, P. cbn [negb].
  cbv [serve try_catch bind ret query attempt faults store trace].
  destruct (select_enrollment sid (num userId) db); [now contradiction En|].
  reflexivity.
Qed.

(** The student who is not enrolled reads the state of the first of their
    requests. *)
Lemma status_of_request (userId : option Z) (text : string) (sid : Z)
    (db : database) (st : request_status) (rest : list request_status) :
  JS.truthy_num userId = true -> JS.parseInt text = Some sid ->
  select_enrollment sid (num userId) db = [] ->
  select_request_status sid (num userId) db = st :: rest ->
  exists note : string,
    serve (getSessionRequestStatus userId text) None db
    = (Response 200
         [("success", JBool true);
          ("status", JStr (status_text st));
          ("message", JStr note)],
       World db [] None).
Proof.
  intros T P En Rq. unfold getSessionRequestStatus. rewrite T, P. cbn [negb].
  cbv [serve try_catch bind ret query attempt faults store trace].
  rewrite En, Rq. cbn [List.length Nat.eqb negb].
  eexists. reflexivity.
Qed.

(** The tables that a request which succeeded leaves. *)
Lemma request_success_tables (H : host) (userId : option Z)
    (b : session_request_body) (db : database) (r : response) (w : world) :
  serve (sendSessionRequest H userId b) None db = (r, w) ->
  succeeded r = true ->
  JS.truthy_num userId = true
  /\ select_enrollment (num (sessionId b)) (num userId) db = []
  /\ session_attendees (store w) = session_attendees db
  /\ session_join_requests (store w)
     = delete_where (of_pair (num (sessionId b)) (num userId))
         (session_join_requests db)
       ++ [SessionJoinRequest (next_request_id db) (num (sessionId b))
             (num userId) (num (tutorId b)) (next_message_id db)
             pending None].
Proof.
  intros E Hs. unfold sendSessionRequest in E.
  destruct (JS.truthy_num userId); cbn [negb] in E; [|refused E Hs].
  destruct (negb (JS.truthy_num (sessionId b))
            || negb (JS.truthy_num (tutorId b))); [refused E Hs|].
  clean_run E.
  destruct (select_session_with_count (num (sessionId b)) db)
    as [|[s cnt] ?]; [refused E Hs|].
  destruct (other_tutor s (num (tutorId b))); [refused E Hs|].
  destruct (num userId =? s_tutor_id s); [refused E Hs|].
  destruct (cnt >=? s_capacity s); [refused E Hs|].
  destruct (select_request_status (num (sessionId b)) (num userId) db)
    as [|[] ?] eqn:Rq; try (refused E Hs).
  - destruct (select_enrollment (num (sessionId b)) (num userId) db)
      as [|? ?] eqn:En; cbn [List.length Nat.eqb negb] in E;
      [|refused E Hs].
    destruct (select_user (num userId) db) as [|student ?];
      [refused E Hs|].
    assert (None_yet : filter (of_pair (num (sessionId b)) (num userId))
                         (session_join_requests db) = []).
    { unfold select_request_status in Rq. now apply map_eq_nil in Rq. }
    destruct (message_text b) as [t|[|]]; [|refused E Hs|];
      finished E; (split; [reflexivity|]); (split; [reflexivity|]);
      (split; [reflexivity|]);
      cbn; now rewrite (delete_where_vacant _ _ None_yet).
  - change (select_enrollment (num (sessionId b)) (num userId)
              (exec (DELETE_requests_of (num (sessionId b)) (num userId)) db))
      with (select_enrollment (num (sessionId b)) (num userId) db) in E.
    destruct (select_enrollment (num (sessionId b)) (num userId) db)
      as [|? ?] eqn:En; cbn [List.length Nat.eqb negb] in E;
      [|refused E Hs].
    destruct (select_user (num userId)
                (exec (DELETE_requests_of (num (sessionId b))
                         (num userId)) db)) as [|student ?];
      [refused E Hs|].
    destruct (message_text b) as [t|[|]]; [|refused E Hs|];
      finished E; (split; [reflexivity|]); (split; [reflexivity|]);
      split; reflexivity.
Qed.

(** X6.  A join request that succeeded, no query throwing, leaves the
    student with exactly one request for the session, the new one, pending
    and tied to the message that the tutor received: earlier requests of
    the student for the session, which the handler found denied, are gone.
    The student is not enrolled by it, and reads [pending] when asking for
    the status of the request. *)
Theorem request_leaves_one_pending_request :
  forall (H : host) (userId : option Z) (b : session_request_body)
         (db : database) (r : response) (w : world),
    serve (sendSessionRequest H userId b) None db = (r, w) ->
    succeeded r = true ->
    filter (of_pair (num (sessionId b)) (num userId))
      (session_join_requests (store w))
    = [SessionJoinRequest (next_request_id db) (num (sessionId b))
         (num userId) (num (tutorId b)) (next_message_id db) pending None]
    /\ select_enrollment (num (sessionId b)) (num userId) (store w) = []
    /\ forall text : string,
         JS.parseInt text = Some (num (sessionId b)) ->
         field "status"
           (fst (serve (getSessionRequestStatus userId text) None (store w)))
         = Some (JStr "pending").
Proof.
  intros H userId b db r w E Hs.
  destruct (request_success_tables H userId b db r w E Hs)
    as (T & En & Att & Req).
  assert (One : filter (of_pair (num (sessionId b)) (num userId))
                  (session_join_requests (store w))
                = [SessionJoinRequest (next_request_id db) (num (sessionId b))
                     (num userId) (num (tutorId b)) (next_message_id db)
                     pending None]).
  { rewrite Req, filter_app, filter_delete_where. cbn [filter app].
    unfold of_pair at 1.
    cbn [sjr_session_id sjr_requester_user_id].
    now rewrite !Z.eqb_refl. }
  assert (Out : select_enrollment (num (sessionId b)) (num userId) (store w)
                = []).
  { unfold select_enrollment in *. now rewrite Att. }
  split; [exact One|]. split; [exact Out|].
  intros text P.
  destruct (status_of_request userId text _ (store w) pending [] T P Out)
    as [note ->]; [|reflexivity].
  unfold select_request_status. now rewrite One.
Qed.

Lemma request_leaves_one_pending_request_witness :
  let asked := serve (sendSessionRequest sample_host (Some 5)
                        (SessionRequestBody (Some 10) (Some 1) JS.absent))
                 None sample_db in
  map sjr_request_id
    (filter (of_pair 10 5) (session_join_requests (store (snd asked))))
  = [7]
  /\ field "status"
       (fst (serve (getSessionRequestStatus (Some 5) "10") None
               (store (snd asked))))
     = Some (JStr "pending").
Proof.
  intro asked.
  destruct (request_leaves_one_pending_request sample_host (Some 5)
              (SessionRequestBody (Some 10) (Some 1) JS.absent) sample_db
              (fst asked) (snd asked) (surjective_pairing asked) eq_refl)
    as (One & _ & Reads).
  split; [|exact (Reads "10" eq_refl)].
  cbn [sessionId tutorId num] in One. rewrite One. reflexivity.
Defined.

(** X7.  Asking for the status of a request writes nothing, whichever
    query throws: the store is as before and no statement was executed.
    When no query throws, a signed-in student who names the session by a
    number is answered 200; an enrollment row of the student in the session
    makes the answer [enrolled] whatever the state of their requests, and
    without one the answer is the state of the first of the requests when
    there are some and [null] otherwise. *)
Theorem status_only_reads_and_puts_enrollment_first :
  forall (userId : option Z) (text : string) (fault : option nat)
         (db : database),
    let answer := serve (getSessionRequestStatus userId text) fault db in
    store (snd answer) = db /\ trace (snd answer) = []
    /\ forall sid : Z,
         fault = None -> JS.truthy_num userId = true ->
         JS.parseInt text = Some sid ->
         status_code (fst answer) = 200
         /\ field "status" (fst answer)
            = match select_enrollment sid (num userId) db,
                    select_request_status sid (num userId) db with
              | _ :: _, _ => Some (JStr "enrolled")
              | [], st :: _ => Some (JStr (status_text st))
              | [], [] => Some JNull
              end.
Proof.
  intros userId text fault db answer.
  assert (Reads : store (snd answer) = db /\ trace (snd answer) = []).
  { unfold answer, getSessionRequestStatus.
    destruct (negb (JS.truthy_num userId)); [now split|].
    destruct (JS.parseInt text) as [sid|]; [|now split].
    cbv [serve try_catch bind ret query attempt faults store trace].
    destruct fault as [[|[|n]]|]; cbn [snd fst]; try (now split);
      destruct (negb (List.length _ =? 0)%nat);
      try (now split);
      destruct (select_request_status sid (num userId) db); now split. }
  destruct Reads as [St Tr]. split; [exact St|]. split; [exact Tr|].
  intros sid -> T P. unfold answer.
  destruct (select_enrollment sid (num userId) db) as [|e ?] eqn:En.
  - destruct (select_request_status sid (num userId) db) as [|st ?] eqn:Rq.
    + unfold getSessionRequestStatus. rewrite T, P. cbn [negb].
      cbv [serve try_catch bind ret query attempt faults store trace].
      rewrite En, Rq. now split.
    + destruct (status_of_request userId text sid db st _ T P En Rq)
        as [note ->]. now split.
  - rewrite (status_enrolled userId text sid db T P);
      [now split | rewrite En; discriminate].
Qed.

(** ** After an accept, and after a deletion *)

(** X8.  An accept that succeeded, no query throwing, takes one more seat
    of the session, and the student of the request, asking for its status
    afterwards, reads [enrolled]. *)
Theorem accepted_student_reads_enrolled :
  forall (H : host) (userId : option Z) (id : string) (now : Z)
         (db : database) (r : response) (w : world) (rid : Z)
         (request : session_join_request) (s : session) (student : user)
         (cnt : Z) (rest : list (session_join_request * session * user * Z))
         (text : string),
    serve (acceptSessionRequest H userId id now) None db = (r, w) ->
    succeeded r = true ->
    JS.parseInt id = Some rid ->
    select_request_details rid db = (request, s, student, cnt) :: rest ->
    u_user_id student <> 0 ->
    JS.parseInt text = Some (sjr_session_id request) ->
    enrolled_count (store w) (sjr_session_id request)
    = enrolled_count db (sjr_session_id request) + 1
    /\ serve (getSessionRequestStatus (Some (u_user_id student)) text)
         None (store w)
       = (Response 200
            [("success", JBool true);
             ("status", JStr "enrolled");
             ("message", JStr "You are already enrolled in this session")],
          World (store w) [] None).
Proof.
  intros H userId id now db r w rid request s student cnt rest text
    E Hs P Q U Pt.
  assert (Seat : session_attendees (store w)
                 = session_attendees db
                   ++ [SessionAttendee (sjr_session_id request)
                         (u_user_id student)]).
  { unfold acceptSessionRequest in E.
    destruct (JS.truthy_num userId); cbn [negb] in E; [|refused E Hs].
    rewrite P in E. clean_run E. rewrite Q in E.
    destruct (negb (sjr_tutor_user_id request =? num userId));
      [refused E Hs|].
    destruct (negb (status_eqb (sjr_status request) pending));
      [refused E Hs|].
    destruct (cnt >=? s_capacity s); [refused E Hs|].
    destruct (negb (List.length
                (select_enrollment (sjr_session_id request)
                   (u_user_id student) db) =? 0)%nat); [refused E Hs|].
    finished E. reflexivity. }
  assert (Mine : attends (sjr_session_id request) (u_user_id student)
                   (SessionAttendee (sjr_session_id request)
                      (u_user_id student)) = true).
  { unfold attends. cbn [sa_session_id sa_user_id].
    now rewrite !Z.eqb_refl. }
  split.
  - unfold enrolled_count. rewrite Seat, count_where_app.
    unfold count_where at 2. cbn [filter sa_session_id].
    now rewrite Z.eqb_refl.
  - apply (status_enrolled _ text (sjr_session_id request));
      [now apply truthy_num_some | exact Pt |].
    cbn [num]. unfold select_enrollment. rewrite Seat, filter_app.
    cbn [filter]. rewrite Mine. now destruct (filter _ (session_attendees db)).
Qed.

Lemma accepted_student_reads_enrolled_witness :
  let accepted := serve (acceptSessionRequest sample_host (Some 1) "5" 99)
                    None sample_db in
  enrolled_count (store (snd accepted)) 10 = 2
  /\ field "status"
       (fst (serve (getSessionRequestStatus (Some 2) "10") None
               (store (snd accepted))))
     = Some (JStr "enrolled").
Proof.
  intro accepted.
  destruct (accepted_student_reads_enrolled sample_host (Some 1) "5" 99
              sample_db (fst accepted) (snd accepted) 5
              (SessionJoinRequest 5 10 2 1 7 pending None)
              (Session 10 1 "Algebra" "2026-01-01 10:00:00"
                 "2026-01-01 11:00:00" "open" 2 None "scheduled")
              (User 2 "Bob" "Stone" "Student") 1 nil "10"
              (surjective_pairing accepted))
    as (Seat & Reads);
    [reflexivity | reflexivity | reflexivity | cbn; lia | reflexivity |].
  split; [exact Seat|].
  cbn [u_user_id] in Reads. now rewrite Reads.
Defined.

(** X9.  A session that was deleted is not found again.  After a deletion
    that succeeded, no query throwing, every later call that names the
    session, made by whoever is signed in, is answered 404 "Session not
    found" and writes nothing: a join request, a second deletion, the
    removal of a student, an unenrollment. *)
Theorem deleted_session_is_not_found :
  forall (H : host) (userId : option Z) (id now : Z) (db : database)
         (r : response) (w : world),
    serve (deleteSession H userId id now) None db = (r, w) ->
    succeeded r = true ->
    forall (who later : Z),
      who <> 0 ->
      let gone := (failure 404 "Session not found", World (store w) [] None) in
      (forall (tutor : Z) (note : JS.value),
         id <> 0 -> tutor <> 0 ->
         serve (sendSessionRequest H (Some who)
                  (SessionRequestBody (Some id) (Some tutor) note))
           None (store w) = gone)
      /\ serve (deleteSession H (Some who) id later) None (store w) = gone
      /\ (forall student : Z,
            serve (removeStudentFromSession H (Some who) id student later)
              None (store w) = gone)
      /\ serve (unenrollFromSession H (Some who) id later) None (store w)
         = gone.
Proof.
  intros H userId id now db r w E Hs who later W gone.
  assert (Gone : filter (fun s => s_session_id s =? id) (sessions (store w))
                 = []).
  { destruct (JS.truthy_num userId) eqn:T.
    2:{ unfold deleteSession in E. rewrite T in E. cbn [negb] in E.
        refused E Hs. }
    destruct (truthy_num_true _ T) as (tutor & -> & Tn).
    destruct (select_session id db) as [|s rest] eqn:Q.
    { unfold deleteSession in E. rewrite T in E. cbn [negb num] in E.
      clean_run E. rewrite Q in E. refused E Hs. }
    destruct (s_tutor_id s =? tutor) eqn:O.
    2:{ unfold deleteSession in E. rewrite T in E. cbn [negb num] in E.
        clean_run E. rewrite Q, O in E. cbn [negb] in E. refused E Hs. }
    apply Z.eqb_eq in O.
    destruct (deleteSession_runs H tutor id now db s rest Tn Q O)
      as (w2 & _ & Run).
    rewrite Run in E. apply pair_equal_spec in E. destruct E as [_ <-].
    cbn [store exec]. unfold with_sessions at 1. cbn [sessions].
    apply filter_delete_where. }
  subst gone.
  pose proof (truthy_num_some who W) as T.
  split; [|split; [|split]].
  - intros tutor note I Tu. unfold sendSessionRequest.
    rewrite T. cbn [sessionId tutorId].
    rewrite (truthy_num_some id I), (truthy_num_some tutor Tu).
    cbn [negb orb num].
    cbv [serve try_catch bind ret query attempt]. cbn [faults store trace].
    unfold select_session_with_count. rewrite Gone. reflexivity.
  - unfold deleteSession. rewrite T. cbn [negb num].
    cbv [serve try_catch bind ret query attempt]. cbn [faults store trace].
    unfold select_session. rewrite Gone. reflexivity.
  - intros student. unfold removeStudentFromSession. rewrite T.
    cbn [negb num].
    cbv [serve try_catch bind ret query attempt]. cbn [faults store trace].
    unfold select_session. rewrite Gone. reflexivity.
  - unfold unenrollFromSession. rewrite T. cbn [negb num].
    cbv [serve try_catch bind ret query attempt]. cbn [faults store trace].
    unfold select_session_with_tutor. rewrite Gone. reflexivity.
Qed.

Lemma deleted_session_is_not_found_witness :
  let deleted := serve (deleteSession sample_host (Some 1) 10 99)
                   None sample_db in
  fst (serve (sendSessionRequest sample_host (Some 5)
                (SessionRequestBody (Some 10) (Some 1) JS.absent))
         None (store (snd deleted)))
  = failure 404 "Session not found"
  /\ fst (serve (unenrollFromSession sample_host (Some 3) 10 100)
            None (store (snd deleted)))
     = failure 404 "Session not found".
Proof.
  intro deleted.
  pose proof (deleted_session_is_not_found sample_host (Some 1) 10 99
                sample_db (fst deleted) (snd deleted)
                (surjective_pairing deleted) eq_refl) as Later.
  split.
  - destruct (Later 5 100 ltac:(lia)) as (Ask & _).
    now rewrite (Ask 1 JS.absent ltac:(lia) ltac:(lia)).
  - destruct (Later 3 100 ltac:(lia)) as (_ & _ & _ & Leave).
    now rewrite Leave.
Defined.

(** ** Mailbox entries and their messages *)

(** A write of the mailbox starts from the store as it is when the write
    goes through. *)
Lemma triple_amend (P : world -> Prop) (st : mail_statement)
    (Q : result -> world -> Prop) (E : world -> Prop) :
  steady P -> (forall w, P w -> E w) ->
  (forall w, P w ->
     Q (mail_result_of st (store w))
       (World (mail_exec st (store w)) (trace w) (faults w))) ->
  triple P (amend st) Q E.
Proof.
  intros S PE PQ w Pw. unfold amend.
  destruct (attempt w) as [w'|] eqn:At; [|auto].
  apply (PQ w'). now apply (steady_attempt P w).
Qed.

Lemma mail_sound_steady : steady mail_sound.
Proof. intros db t f f' _ P. exact P. Qed.

Lemma mail_sound_with_steady (mid : Z) : steady (mail_sound_with mid).
Proof. intros db t f f' _ P. exact P. Qed.

Lemma mail_sound_without_steady (mid : Z) : steady (mail_sound_without mid).
Proof. intros db t f f' _ P. exact P. Qed.

(** Entries that refer to messages still do when entries are dropped or
    refiled and messages are added. *)
Lemma entries_refer_within (db db' : database) :
  entries_refer db ->
  (forall um, In um (user_messages db') ->
     exists um0, In um0 (user_messages db)
                 /\ um_message_id um0 = um_message_id um) ->
  (forall m, In m (messages db) -> In m (messages db')) ->
  entries_refer db'.
Proof.
  intros R Ums Ms um I. destruct (Ums um I) as (um0 & I0 & <-).
  destruct (R um0 I0) as (m & Im & Em). exists m. auto.
Qed.

Lemma in_update_where {A : Type} (p : A -> bool) (f : A -> A) (l : list A)
    (y : A) :
  In y (update_where p f l) -> exists x, In x l /\ (y = x \/ y = f x).
Proof.
  unfold update_where. intros I. apply in_map_iff in I.
  destruct I as (x & E & Ix). exists x. split; [exact Ix|].
  destruct (p x); auto.
Qed.

Lemma in_delete_where {A : Type} (p : A -> bool) (l : list A) (y : A) :
  In y (delete_where p l) <-> In y l /\ p y = false.
Proof.
  unfold delete_where. rewrite filter_In, negb_true_iff. reflexivity.
Qed.

Lemma mail_sound_run (st : statement) :
  off_mailboxes st = true -> keeps mail_sound (run st).
Proof.
  intros Off. apply keeps_run; [apply mail_sound_steady|].
  intros [db t f] R. unfold mail_sound in *. cbn [store] in *.
  apply (entries_refer_within db); [exact R | |];
    destruct st; try discriminate Off; cbn; eauto.
  intros m I. apply in_or_app. now left.
Qed.

Lemma mail_sound_notify (sender receiver : Z)
    (subject message_type content : string) :
  keeps mail_sound (notify sender receiver subject message_type content).
Proof.
  unfold notify.
  assert (Copy : forall (uid mid rd : Z) (folder : string),
            keeps (mail_sound_with mid)
              (run (INSERT_user_message uid mid folder rd))).
  { intros uid mid rd folder. apply keeps_run;
      [apply mail_sound_with_steady|].
    intros [db t f] [R Has]. split; [|exact Has]. cbn [store] in *.
    intros um I. cbn in I. apply in_app_or in I.
    destruct I as [I|[<-|[]]]; [now apply R | exact Has]. }
  eapply triple_bind.
  { apply (triple_run _ _
             (fun r => mail_sound_with (insertId r)) mail_sound).
    - apply mail_sound_steady.
    - auto.
    - intros [db t f] R. cbn [result_of insertId store]. split.
      + cbn [store]. apply (entries_refer_within db); [exact R | |]; cbn;
          eauto.
        intros m I. apply in_or_app. now left.
      + eexists. split; [cbn; apply in_or_app; right; now left|].
        reflexivity. }
  intros r; cbv beta zeta.
  apply (triple_weaken _ (mail_sound_with (insertId r)) _ _
           (fun _ => mail_sound_with (insertId r)) _
           (mail_sound_with (insertId r))).
  - apply keeps_bind; [apply Copy | intros _].
    apply keeps_bind; [apply Copy | intros _]. apply keeps_ret.
  - auto.
  - now intros _ w [R _].
  - now intros w [R _].
Qed.

Ltac walk_entries :=
  repeat first
    [ apply mail_sound_notify
    | apply mail_sound_run; reflexivity
    | walk_step mail_sound_steady ].

Lemma mail_sound_perform (H : host) (op : operation) :
  maintains mail_sound (perform H op).
Proof.
  destruct op; cbn [perform];
    [ unfold sendSessionRequest | unfold acceptSessionRequest
    | unfold denySessionRequest | unfold unenrollFromSession
    | unfold removeStudentFromSession | unfold deleteSession ];
    walk_entries.
Qed.

(** Writes of the mailbox other than the deletion of a message. *)
Lemma mail_sound_amend (st : mail_statement) :
  match st with DELETE_message _ => False | _ => True end ->
  keeps mail_sound (amend st).
Proof.
  intros Safe. apply triple_amend; [apply mail_sound_steady | auto |].
  intros [db t f] R. unfold mail_sound in *. cbn [store] in *.
  apply (entries_refer_within db); [exact R | | destruct st; cbn; auto].
  - destruct st; try contradiction; cbn; intros um I.
    + apply in_update_where in I. destruct I as (x & Ix & [->| ->]);
        exists x; auto.
    + apply in_delete_where in I. exists um. tauto.
    + apply in_delete_where in I. exists um. tauto.
  - contradiction.
Qed.

Lemma count_where_none {A : Type} (p : A -> bool) (l : list A) (x : A) :
  count_where p l = 0 -> In x l -> p x = false.
Proof.
  unfold count_where. intros C I. destruct (p x) eqn:Px; [|reflexivity].
  assert (F : In x (filter p l)) by (apply filter_In; auto).
  destruct (filter p l); [contradiction | cbn in C; lia].
Qed.

Lemma mail_sound_deleteDraft (userId : option Z) (messageId : Z) :
  maintains mail_sound (deleteDraft userId messageId).
Proof.
  unfold deleteDraft.
  destruct (negb (JS.truthy_num userId)); [apply maintains_reply|].
  cbv zeta. apply maintains_try_catch.
  apply keeps_bind; [apply (keeps_query _ mail_sound_steady) | intros drafts].
  destruct (Nat.eqb (List.length drafts) 0); [apply keeps_ret|].
  apply keeps_bind; [now apply mail_sound_amend | intros _].
  eapply triple_bind.
  { apply triple_query; [apply mail_sound_steady | auto]. }
  intros otherEntries; cbv beta.
  apply (triple_bind _ _ _ (fun _ => mail_sound));
    [|intros ?; apply keeps_ret].
  destruct (otherEntries =? 0) eqn:None_left.
  - apply Z.eqb_eq in None_left.
    apply (triple_bind _ _ _ (fun _ => mail_sound));
      [|intros ?; apply keeps_ret].
    apply triple_amend.
    + intros db t f f' _ P. exact P.
    + now intros w [R _].
    + intros [db t f] [R C]. unfold mail_sound in *. cbn [store] in *.
      rewrite C in None_left. clear C. intros um I. cbn in I.
      destruct (R um I) as (m & Im & Em). exists m. split; [|exact Em].
      cbn. apply in_delete_where. split; [exact Im|].
      rewrite Em. apply Z.eqb_neq.
      pose proof (count_where_none _ _ um None_left I) as Ne.
      cbv beta in Ne. now apply Z.eqb_neq in Ne.
  - apply triple_ret. now intros w [R _].
Qed.

Lemma mail_sound_mail_perform (op : mail_operation) :
  maintains mail_sound (mail_perform op).
Proof.
  destruct op; cbn [mail_perform].
  - unfold getUnreadCount. walk_entries.
  - unfold deleteMessage.
    repeat first [ apply mail_sound_amend; exact I
                 | walk_step mail_sound_steady ].
  - unfold restoreFromTrash.
    repeat first [ apply mail_sound_amend; exact I
                 | walk_step mail_sound_steady ].
  - apply mail_sound_deleteDraft.
  - unfold emptyTrash.
    repeat first [ apply mail_sound_amend; exact I
                 | walk_step mail_sound_steady ].
Qed.

(** X10.  No entry of a mailbox is left without its message.  From a store
    in which every row of [user_messages] refers to a row of [messages],
    any run of calls of the lifecycle handlers and of the mailbox handlers,
    any of them possibly cut short by a query that throws, leads to such a
    store: notifications insert the message before its two copies, and the
    only deletion of a message, that of a draft, comes after the count of
    the entries that hold it was found to be zero. *)
Theorem mailbox_entries_keep_their_messages :
  forall (H : host)
         (calls : list ((operation + mail_operation) * option nat))
         (db : database),
    entries_refer db -> entries_refer (serve_all H calls db).
Proof.
  intros H calls. induction calls as [|[[op|op] fault] calls IH];
    intros db R; cbn [serve_all]; [exact R | |]; apply IH.
  - exact (mail_sound_perform H op (World db [] fault) R).
  - exact (mail_sound_mail_perform op (World db [] fault) R).
Qed.

Lemma mailbox_entries_keep_their_messages_witness :
  entries_refer
    (serve_all sample_host
       [(inl (Deny (Some 1) "5" JS.absent 99), None);
        (inr (DeleteMessage (Some 2) 9), None);
        (inr (DeleteDraft (Some 1) 9), Some 1%nat)]
       sample_db).
Proof.
  apply mailbox_entries_keep_their_messages.
  intros um [].
Defined.

(** ** Trash, restore and the unread count *)

(** Unfolds the plumbing of a mailbox run whose fault budget is [None],
    leaving the store as it is named. *)
Ltac mail_run :=
  cbv [serve try_catch reply bind ret query amend attempt];
  cbn [faults store trace].

Lemma owned_set_folder (uid mid : Z) (folder : string) (um : user_message) :
  owned uid mid (set_folder folder um) = owned uid mid um.
Proof. reflexivity. Qed.




Lemma filter_update_where {A : Type} (p q : A -> bool) (f : A -> A)
    (l : list A) :
  (forall x, p x = true -> q (f x) = true) ->
  (forall x, q x = true -> p x = true) ->
  filter q (update_where p f l) = map f (filter p l).
Proof.
  intros In_q Only. unfold update_where.
  induction l as [|x l IH]; cbn [map filter]; [reflexivity|].
  destruct (p x) eqn:Px.
  - rewrite (In_q x Px). cbn [map]. now rewrite IH.
  - destruct (q x) eqn:Qx; [|exact IH].
    rewrite (Only x Qx) in Px. discriminate Px.
Qed.

Lemma filter_narrower {A : Type} (p q : A -> bool) (l : list A) :
  filter p l = [] -> filter (fun x => p x && q x) l = [].
Proof.
  induction l as [|x l IH]; [reflexivity|]. cbn [filter].
  destruct (p x); [discriminate | exact IH].
Qed.

Lemma delete_twice (p : user_message -> bool) (db : database) :
  with_user_messages (delete_where p) (with_user_messages (delete_where p) db)
  = with_user_messages (delete_where p) db.
Proof.
  unfold with_user_messages.
  cbn [users sessions session_courses session_attendees
       session_join_requests messages user_messages tutor_courses courses
       departments next_session_id next_request_id next_message_id].
  now rewrite (delete_where_vacant _ _ (filter_delete_where _ _)).
Qed.



(** A message that is not in the trash is moved there. *)
Lemma deleteMessage_moves (uid mid : Z) (db : database) (folder : string)
    (rest : list string) :
  uid <> 0 -> select_folder uid mid db = folder :: rest ->
  folder <> "trash"%string ->
  serve (deleteMessage (Some uid) mid) None db
  = (success 200 "Message moved to trash",
     World (mail_exec (UPDATE_folder "trash" uid mid) db) [] None).
Proof.
  intros U Sel Out. unfold deleteMessage.
  rewrite (truthy_num_some _ U). cbn [negb num]. mail_run. rewrite Sel.
  apply String.eqb_neq in Out. now rewrite Out.
Qed.

(** A message that is in the trash is deleted from the mailbox. *)
Lemma deleteMessage_purges (uid mid : Z) (db : database)
    (rest : list string) :
  uid <> 0 -> select_folder uid mid db = "trash"%string :: rest ->
  serve (deleteMessage (Some uid) mid) None db
  = (success 200 "Message permanently deleted",
     World (mail_exec (DELETE_user_message uid mid) db) [] None).
Proof.
  intros U Sel. unfold deleteMessage.
  rewrite (truthy_num_some _ U). cbn [negb num]. mail_run. now rewrite Sel.
Qed.





(** X12.  Deleting a message twice deletes it for good.  For a message
    that is not in the trash, no query throwing: the second deletion
    removes every entry that the user holds of the message and no other
    entry, the row in [messages] stays, and a third deletion, like a
    restore, is answered 404 and writes nothing. *)
Theorem second_delete_is_for_good :
  forall (uid mid : Z) (db : database) (folder : string)
         (rest : list string),
    uid <> 0 ->
    select_folder uid mid db = folder :: rest ->
    folder <> "trash"%string ->
    let first := serve (deleteMessage (Some uid) mid) None db in
    let second :=
      serve (deleteMessage (Some uid) mid) None (store (snd first)) in
    let gone := store (snd second) in
    fst second = success 200 "Message permanently deleted"
    /\ user_messages gone = delete_where (owned uid mid) (user_messages db)
    /\ messages gone = messages db
    /\ serve (deleteMessage (Some uid) mid) None gone
       = (failure 404 "Message not found", World gone [] None)
    /\ serve (restoreFromTrash (Some uid) mid) None gone
       = (failure 404 "Message not found in trash", World gone [] None).
Proof.
  intros uid mid db folder rest U Sel Out first second gone.
  assert (E1 : first
               = (success 200 "Message moved to trash",
                  World (mail_exec (UPDATE_folder "trash" uid mid) db)
                    [] None))
    by exact (deleteMessage_moves uid mid db folder rest U Sel Out).
  assert (In_trash : exists later,
            select_folder uid mid
              (mail_exec (UPDATE_folder "trash" uid mid) db)
            = "trash"%string :: later).
  { unfold select_folder in *.
    cbn [mail_exec with_user_messages user_messages].
    rewrite (filter_update_where (owned uid mid) (owned uid mid)
               (set_folder "trash")); [|intros x Own; exact Own | auto].
    destruct (filter (owned uid mid) (user_messages db)); [discriminate Sel|].
    cbn [map set_folder um_folder]. eauto. }
  destruct In_trash as [later Tr].
  assert (E2 : second
               = (success 200 "Message permanently deleted",
                  World (mail_exec (DELETE_user_message uid mid)
                           (mail_exec (UPDATE_folder "trash" uid mid) db))
                    [] None)).
  { unfold second. rewrite E1. cbn [snd store].
    exact (deleteMessage_purges uid mid _ later U Tr). }
  assert (Rows : user_messages gone
                 = delete_where (owned uid mid) (user_messages db)).
  { unfold gone. rewrite E2.
    cbn [snd store mail_exec with_user_messages user_messages].
    unfold delete_where, update_where.
    induction (user_messages db) as [|x l IH]; cbn [map filter];
      [reflexivity|].
    destruct (owned uid mid x) eqn:Own.
    - rewrite owned_set_folder, Own. exact IH.
    - rewrite Own. cbn [negb]. now rewrite IH. }
  assert (None_held : filter (owned uid mid) (user_messages gone) = []).
  { rewrite Rows. apply filter_delete_where. }
  split; [now rewrite E2|]. split; [exact Rows|].
  split; [unfold gone; now rewrite E2|].
  clearbody gone. split.
  - unfold deleteMessage. rewrite (truthy_num_some _ U). cbn [negb num].
    mail_run. unfold select_folder. now rewrite None_held.
  - unfold restoreFromTrash. rewrite (truthy_num_some _ U). cbn [negb num].
    mail_run. unfold select_trashed.
    assert (No_trash : filter
              (fun um => owned uid mid um
                         && String.eqb (um_folder um) "trash")
              (user_messages gone) = []).
    { now apply filter_narrower. }
    now rewrite No_trash.
Qed.

Lemma second_delete_is_for_good_witness :
  let db :=
    Database [] [] [] [] []
      [Message 1 7 8 "Hello" "normal" "See you on Monday"]
      [UserMessage 7 1 "sent" 1; UserMessage 8 1 "inbox" 0]
      [] [] [] 1 1 2 in
  let first := serve (deleteMessage (Some 8) 1) None db in
  user_messages
    (store (snd (serve (deleteMessage (Some 8) 1) None (store (snd first)))))
  = [UserMessage 7 1 "sent" 1].
Proof.
  intros db first.
  destruct (second_delete_is_for_good 8 1 db "inbox" [])
    as (_ & Rows & _); [lia | reflexivity | discriminate |].
  unfold first. rewrite Rows. reflexivity.
Defined.

(** X13.  Emptying the trash, whichever query throws.  It never touches
    [messages], it adds no entry, and it leaves alone every entry that is
    not in the trash of the caller.  When it succeeds the entries left are
    those that were not in the caller's trash, the answer counts the
    entries that were, and emptying again, no query throwing, deletes
    nothing and says so.  When it fails the store is unchanged. *)
Theorem emptyTrash_deletes_the_callers_trash_only :
  forall (userId : option Z) (fault : option nat) (db : database),
    let emptied := serve (emptyTrash userId) fault db in
    let after := store (snd emptied) in
    messages after = messages db
    /\ (forall um, In um (user_messages after) -> In um (user_messages db))
    /\ (forall um, In um (user_messages db) ->
          in_folder (num userId) "trash" um = false ->
          In um (user_messages after))
    /\ (succeeded (fst emptied) = true ->
          user_messages after
          = delete_where (in_folder (num userId) "trash") (user_messages db)
          /\ fst emptied
             = success 200
                 ("Deleted "
                  ++ JS.of_num (count_where (in_folder (num userId) "trash")
                                  (user_messages db))
                  ++ " messages from trash")
          /\ serve (emptyTrash userId) None after
             = (success 200 "Deleted 0 messages from trash",
                World after [] None))
    /\ (succeeded (fst emptied) = false -> after = db).
Proof.
  intros userId fault db emptied after. unfold after, emptied, emptyTrash.
  destruct (JS.truthy_num userId) eqn:T; cbn [negb].
  2:{ cbn. split; [reflexivity|]. split; [auto|]. split; [auto|].
      split; [intros Hs; discriminate Hs | reflexivity]. }
  destruct fault as [[|n]|];
    [ cbn; split; [reflexivity|]; split; [auto|]; split; [auto|];
      split; [intros Hs; discriminate Hs | reflexivity] | | ];
    mail_run; cbn [fst snd store mail_result_of affectedRows];
    cbn [mail_exec with_user_messages user_messages messages];
    (split; [reflexivity|]);
    (split; [intros um I; now apply in_delete_where in I|]);
    (split; [intros um I Out; now apply in_delete_where|]);
    (split; [|intros Hs; rewrite succeeded_success in Hs; discriminate Hs]);
    intros _; (split; [reflexivity|]); (split; [reflexivity|]);
    cbn [mail_result_of affectedRows mail_exec user_messages];
    unfold count_where; rewrite filter_delete_where, delete_twice;
    reflexivity.
Qed.

(** What a notification adds to the unread messages of a user. *)
Lemma unread_after_notify (who sender receiver : Z)
    (subject message_type content : string) (db : database) :
  unread_count who
    (store (snd (notify sender receiver subject message_type content
                   (World db [] None))))
  = unread_count who db + (if who =? receiver then 1 else 0).
Proof.
  unfold notify. cbv [bind ret run attempt]. cbn [faults store trace snd].
  unfold unread_count. cbn [exec with_user_messages with_messages
    user_messages].
  rewrite !count_where_app. unfold count_where at 2 3. cbn [filter].
  unfold in_folder. cbn [um_user_id um_folder um_is_read].
  rewrite (Z.eqb_sym receiver who).
  change (String.eqb "sent" "inbox") with false.
  change (String.eqb "inbox" "inbox") with true.
  rewrite andb_false_r. cbn [andb].
  destruct (who =? receiver); cbn; lia.
Qed.

(** X14.  The unread count.  Reading it writes nothing, whichever query
    throws.  A notification, as every lifecycle handler files it, raises
    the count that its receiver reads by exactly one and leaves the count
    of every other user, its sender included, as it was. *)
Theorem a_notification_is_one_unread_message :
  forall (who sender receiver : Z) (subject message_type content : string)
         (fault : option nat) (db : database),
    who <> 0 ->
    let told := store (snd (notify sender receiver subject message_type
                              content (World db [] None))) in
    let read := serve (getUnreadCount (Some who)) fault db in
    store (snd read) = db /\ trace (snd read) = []
    /\ (fault = None ->
        fst read
        = Response 200
            [("success", JBool true);
             ("unreadCount", JNum (unread_count who db))])
    /\ fst (serve (getUnreadCount (Some who)) None told)
       = Response 200
           [("success", JBool true);
            ("unreadCount",
             JNum (unread_count who db
                   + (if who =? receiver then 1 else 0)))].
Proof.
  intros who sender receiver subject message_type content fault db W
    told read.
  assert (Reads : forall db',
            serve (getUnreadCount (Some who)) None db'
            = (Response 200
                 [("success", JBool true);
                  ("unreadCount", JNum (unread_count who db'))],
               World db' [] None)).
  { intros db'. unfold getUnreadCount. rewrite (truthy_num_some _ W).
    cbn [negb num]. mail_run. reflexivity. }
  split; [|split; [|split]].
  - unfold read, getUnreadCount. rewrite (truthy_num_some _ W).
    cbn [negb num]. mail_run. now destruct fault as [[|n]|].
  - unfold read, getUnreadCount. rewrite (truthy_num_some _ W).
    cbn [negb num]. mail_run. now destruct fault as [[|n]|].
  - intros ->. unfold read. now rewrite Reads.
  - rewrite Reads. cbn [fst]. unfold told.
    now rewrite unread_after_notify.
Qed.

Lemma a_notification_is_one_unread_message_witness :
  let told := store (snd (notify 1 2 "Session Update" "normal" "Moved to 3pm"
                            (World sample_db [] None))) in
  field "unreadCount" (fst (serve (getUnreadCount (Some 2)) None told))
  = Some (JNum 1)
  /\ field "unreadCount" (fst (serve (getUnreadCount (Some 1)) None told))
     = Some (JNum 0).
Proof.
  intro told. split.
  - destruct (a_notification_is_one_unread_message 2 1 2 "Session Update"
                "normal" "Moved to 3pm" None sample_db)
      as (_ & _ & _ & Told); [lia|].
    fold told in Told. now rewrite Told.
  - destruct (a_notification_is_one_unread_message 1 1 2 "Session Update"
                "normal" "Moved to 3pm" None sample_db)
      as (_ & _ & _ & Told); [lia|].
    fold told in Told. now rewrite Told.
Defined.
